(** * Time Tracker (src/extension.ts): a shallow embedding and its properties

    The extension is one class, [TimeTracker], driven by the host editor:
    document and selection events, two scheduled callbacks (the inactivity
    timeout and the status-bar interval), a key-value store
    ([context.globalState]) and the wall clock ([Date.now()]).

    The embedding threads one [World] value through every method: it holds the
    fields of the tracker object next to the parts of the host the methods read
    or write.

    Numbers.  [Date.now()] and the [startTime] field are integer millisecond
    timestamps ([Z]).  Second counts ([currentSessionTime], the in-memory
    [lastSaveTime], [totalTime]) are JavaScript numbers, which the code
    obtains by dividing by 1000, adding and subtracting in IEEE double
    arithmetic; they are modelled as exact rationals ([Qc], canonical
    fractions with Leibniz equality).  Rounding is outside the model, so the
    statements about second counts are written with the expressions the code
    evaluates, operation for operation, or use only the order of numbers and
    the laws [x - x = 0] and [x + 0 = x], which doubles share; none regroups
    a sum or a difference.  Whole numbers are printed as decimal numerals,
    as JavaScript does below 2^53.

    The store.  [context.globalState] is a finite map from keys to records.
    Whether [get] hands out the object the store keeps or a copy of it is
    left to the host ([storeLive]): [saveStats] assigns to the fields of the
    object it was handed before it calls [update], and the two kinds of store
    differ when that write fails. *)

From Stdlib Require Import ZArith QArith Qcanon Qround Lia Ascii.
From stdpp Require Import base numbers strings pretty list gmap.

Local Open Scope Z_scope.

(** ** JavaScript numbers and strings *)

Module JS.

(** An integer seen as a JavaScript number. *)
Definition num (z : Z) : Qc := Q2Qc (inject_Z z).

(** [Math.floor]. *)
Definition Math_floor (x : Qc) : Z := Qfloor x.

(** Rounding towards zero, as used by the remainder operator. *)
Definition trunc (x : Qc) : Z :=
  if decide (0 ≤ x)%Qc then Qfloor x else Qceiling x.

(** [x % y]: the remainder has the sign of the dividend. *)
Definition rem (x y : Qc) : Qc := (x - y * num (trunc (x / y)))%Qc.

(** [n.toString()] for an integer of magnitude below 2^53: its decimal
    digits, with a leading minus sign for negative values.  (Beyond that
    range JavaScript prints the shortest digits that read back as the same
    double, and exponent notation from 1e21 on; the statements about the
    printed numeral carry the bound.) *)
Definition toString (n : Z) : string := pretty n.

Fixpoint repeat_char (c : ascii) (n : nat) : string :=
  match n with
  | O => EmptyString
  | S n' => String c (repeat_char c n')
  end.

(** [s.padStart(target, c)] for a one-character pad string [c]. *)
Definition padStart (target : nat) (c : ascii) (s : string) : string :=
  repeat_char c (target - String.length s) +:+ s.

End JS.

(** ** [formatTime] (extension.ts, lines 271-278) *)

Definition formatTime (seconds : Qc) : string :=
  let hours := JS.Math_floor (seconds / JS.num 3600)%Qc in
  let minutes := JS.Math_floor (JS.rem seconds (JS.num 3600) / JS.num 60)%Qc in
  let secs := JS.Math_floor (JS.rem seconds (JS.num 60)) in
  JS.padStart 2 "0"%char (JS.toString hours) +:+ ":" +:+
  JS.padStart 2 "0"%char (JS.toString minutes) +:+ ":" +:+
  JS.padStart 2 "0"%char (JS.toString secs).

(** ** Data model *)

(** The persisted record (interface [WorkspaceStats], lines 9-12):
    [totalTime] in seconds, [lastSaveTime] a [Date.now()] timestamp. *)
Module WorkspaceStats.
Record t := mk { totalTime : Qc; lastSaveTime : Z }.

(** The literal [{ totalTime: 0, lastSaveTime: 0 }] of [getStats]. *)
Definition zero : t := {| totalTime := 0%Qc; lastSaveTime := 0 |}.
End WorkspaceStats.

(** Handles returned by [setTimeout] and [setInterval]. *)
Definition Handle := nat.

(** The status bar item owned by the tracker. *)
Record StatusBarItem := {
  text : string;
  shown : bool
}.

(** The fields of class [TimeTracker] (lines 19-33). *)
Record TimeTracker := {
  statusBarItem : StatusBarItem;
  isTracking : bool;
  startTime : Z;
  currentSessionTime : Qc;
  inactivityTimer : option Handle;
  updateInterval : option Handle;
  lastSaveTime : Qc
}.

(** What [context.subscriptions] holds.  The two listener kinds are the
    closures created by [setupEventListeners]; a registration stays live for
    as long as its disposable sits in the list. *)
Inductive Disposable :=
  | TextChangeSub
  | SelectionChangeSub
  | CommandSub (name : string)
  | TrackerSub.

Global Instance Disposable_eq_dec : EqDecision Disposable.
Proof. solve_decision. Defined.

(** The tracker together with the host state its methods touch. *)
Record World := {
  now : Z;                                  (* Date.now() *)
  tracker : TimeTracker;
  globalState : gmap string WorkspaceStats.t; (* context.globalState *)
  storeWritable : bool;                     (* does a globalState.update succeed? *)
  storeLive : bool;                         (* does globalState.get hand out the stored
                                               object itself, rather than a copy? *)
  workspaceFolders : option (list string);  (* URIs of vscode.workspace.workspaceFolders *)
  timeouts : list (Handle * Z);             (* pending setTimeout callbacks with due time *)
  intervals : list Handle;                  (* live setInterval callbacks *)
  nextHandle : Handle;
  subscriptions : list Disposable;          (* context.subscriptions *)
  notifications : list string               (* messages shown so far *)
}.

(** *** Field updates *)

Definition set_statusBarItem (v : StatusBarItem) (t : TimeTracker) : TimeTracker :=
  {| statusBarItem := v; isTracking := isTracking t; startTime := startTime t;
     currentSessionTime := currentSessionTime t; inactivityTimer := inactivityTimer t;
     updateInterval := updateInterval t; lastSaveTime := lastSaveTime t |}.

Definition set_isTracking (v : bool) (t : TimeTracker) : TimeTracker :=
  {| statusBarItem := statusBarItem t; isTracking := v; startTime := startTime t;
     currentSessionTime := currentSessionTime t; inactivityTimer := inactivityTimer t;
     updateInterval := updateInterval t; lastSaveTime := lastSaveTime t |}.

Definition set_startTime (v : Z) (t : TimeTracker) : TimeTracker :=
  {| statusBarItem := statusBarItem t; isTracking := isTracking t; startTime := v;
     currentSessionTime := currentSessionTime t; inactivityTimer := inactivityTimer t;
     updateInterval := updateInterval t; lastSaveTime := lastSaveTime t |}.

Definition set_currentSessionTime (v : Qc) (t : TimeTracker) : TimeTracker :=
  {| statusBarItem := statusBarItem t; isTracking := isTracking t; startTime := startTime t;
     currentSessionTime := v; inactivityTimer := inactivityTimer t;
     updateInterval := updateInterval t; lastSaveTime := lastSaveTime t |}.

Definition set_inactivityTimer (v : option Handle) (t : TimeTracker) : TimeTracker :=
  {| statusBarItem := statusBarItem t; isTracking := isTracking t; startTime := startTime t;
     currentSessionTime := currentSessionTime t; inactivityTimer := v;
     updateInterval := updateInterval t; lastSaveTime := lastSaveTime t |}.

Definition set_updateInterval (v : option Handle) (t : TimeTracker) : TimeTracker :=
  {| statusBarItem := statusBarItem t; isTracking := isTracking t; startTime := startTime t;
     currentSessionTime := currentSessionTime t; inactivityTimer := inactivityTimer t;
     updateInterval := v; lastSaveTime := lastSaveTime t |}.

Definition set_lastSaveTime (v : Qc) (t : TimeTracker) : TimeTracker :=
  {| statusBarItem := statusBarItem t; isTracking := isTracking t; startTime := startTime t;
     currentSessionTime := currentSessionTime t; inactivityTimer := inactivityTimer t;
     updateInterval := updateInterval t; lastSaveTime := v |}.

(** [this.f = ...]: apply a field update to the tracker inside the world. *)
Definition self (f : TimeTracker → TimeTracker) (w : World) : World :=
  {| now := now w; tracker := f (tracker w); globalState := globalState w;
     storeWritable := storeWritable w; storeLive := storeLive w;
     workspaceFolders := workspaceFolders w;
     timeouts := timeouts w; intervals := intervals w; nextHandle := nextHandle w;
     subscriptions := subscriptions w; notifications := notifications w |}.

Definition set_now (v : Z) (w : World) : World :=
  {| now := v; tracker := tracker w; globalState := globalState w;
     storeWritable := storeWritable w; storeLive := storeLive w;
     workspaceFolders := workspaceFolders w;
     timeouts := timeouts w; intervals := intervals w; nextHandle := nextHandle w;
     subscriptions := subscriptions w; notifications := notifications w |}.

Definition set_globalState (v : gmap string WorkspaceStats.t) (w : World) : World :=
  {| now := now w; tracker := tracker w; globalState := v;
     storeWritable := storeWritable w; storeLive := storeLive w;
     workspaceFolders := workspaceFolders w;
     timeouts := timeouts w; intervals := intervals w; nextHandle := nextHandle w;
     subscriptions := subscriptions w; notifications := notifications w |}.

Definition set_storeWritable (v : bool) (w : World) : World :=
  {| now := now w; tracker := tracker w; globalState := globalState w;
     storeWritable := v; storeLive := storeLive w;
     workspaceFolders := workspaceFolders w;
     timeouts := timeouts w; intervals := intervals w; nextHandle := nextHandle w;
     subscriptions := subscriptions w; notifications := notifications w |}.

Definition set_storeLive (v : bool) (w : World) : World :=
  {| now := now w; tracker := tracker w; globalState := globalState w;
     storeWritable := storeWritable w; storeLive := v;
     workspaceFolders := workspaceFolders w;
     timeouts := timeouts w; intervals := intervals w; nextHandle := nextHandle w;
     subscriptions := subscriptions w; notifications := notifications w |}.

Definition set_workspaceFolders (v : option (list string)) (w : World) : World :=
  {| now := now w; tracker := tracker w; globalState := globalState w;
     storeWritable := storeWritable w; storeLive := storeLive w;
     workspaceFolders := v;
     timeouts := timeouts w; intervals := intervals w; nextHandle := nextHandle w;
     subscriptions := subscriptions w; notifications := notifications w |}.

Definition set_timeouts (v : list (Handle * Z)) (w : World) : World :=
  {| now := now w; tracker := tracker w; globalState := globalState w;
     storeWritable := storeWritable w; storeLive := storeLive w;
     workspaceFolders := workspaceFolders w;
     timeouts := v; intervals := intervals w; nextHandle := nextHandle w;
     subscriptions := subscriptions w; notifications := notifications w |}.

Definition set_intervals (v : list Handle) (w : World) : World :=
  {| now := now w; tracker := tracker w; globalState := globalState w;
     storeWritable := storeWritable w; storeLive := storeLive w;
     workspaceFolders := workspaceFolders w;
     timeouts := timeouts w; intervals := v; nextHandle := nextHandle w;
     subscriptions := subscriptions w; notifications := notifications w |}.

Definition set_nextHandle (v : Handle) (w : World) : World :=
  {| now := now w; tracker := tracker w; globalState := globalState w;
     storeWritable := storeWritable w; storeLive := storeLive w;
     workspaceFolders := workspaceFolders w;
     timeouts := timeouts w; intervals := intervals w; nextHandle := v;
     subscriptions := subscriptions w; notifications := notifications w |}.

Definition set_subscriptions (v : list Disposable) (w : World) : World :=
  {| now := now w; tracker := tracker w; globalState := globalState w;
     storeWritable := storeWritable w; storeLive := storeLive w;
     workspaceFolders := workspaceFolders w;
     timeouts := timeouts w; intervals := intervals w; nextHandle := nextHandle w;
     subscriptions := v; notifications := notifications w |}.

Definition set_notifications (v : list string) (w : World) : World :=
  {| now := now w; tracker := tracker w; globalState := globalState w;
     storeWritable := storeWritable w; storeLive := storeLive w;
     workspaceFolders := workspaceFolders w;
     timeouts := timeouts w; intervals := intervals w; nextHandle := nextHandle w;
     subscriptions := subscriptions w; notifications := v |}.

(** ** The host interface

    The vscode API, Node timers and the clock are not part of the repository;
    they are modelled from how the class uses them (spec, section 6). *)

Module Host.

(** [setTimeout(cb, delay)]: the callback becomes due [delay] ms from now.
    Every timeout of this program carries the same callback (the one of
    [resetInactivityTimer]), run by [fireTimers] below. *)
Definition setTimeout (delay : Z) (w : World) : Handle * World :=
  (nextHandle w,
   set_nextHandle (S (nextHandle w))
     (set_timeouts (timeouts w ++ [(nextHandle w, now w + delay)]) w)).

Definition clearTimeout (h : Handle) (w : World) : World :=
  set_timeouts (filter (λ p, p.1 ≠ h) (timeouts w)) w.

(** [setInterval(cb, 1000)]: every interval of this program repaints the
    status bar; its ticks are delivered as [IntervalTick] events. *)
Definition setInterval (w : World) : Handle * World :=
  (nextHandle w,
   set_nextHandle (S (nextHandle w)) (set_intervals (intervals w ++ [nextHandle w]) w)).

Definition clearInterval (h : Handle) (w : World) : World :=
  set_intervals (filter (λ i, i ≠ h) (intervals w)) w.

(** [context.globalState.get(key)]; an absent key gives [undefined].  The
    value is an object: whether it is the one the store keeps or a copy of it
    is the store's choice ([storeLive]), and matters to a caller that assigns
    to its fields, as [saveStats] does. *)
Definition globalState_get (key : string) (w : World) : option WorkspaceStats.t :=
  globalState w !! key.

(** An assignment to a field of the object that [globalState.get(key)]
    returned, after which the object reads [v].  In a store that hands out
    its own object the stored record changes with it, there and then; a store
    that hands out copies is not touched, and neither is a store without a
    record under [key] (the caller then holds an object of its own). *)
Definition globalState_assign (key : string) (v : WorkspaceStats.t) (w : World)
  : World :=
  if storeLive w then
    match globalState w !! key with
    | Some _ => set_globalState (<[key := v]> (globalState w)) w
    | None => w
    end
  else w.

(** The outcome of the [Thenable] returned by [globalState.update]. *)
Inductive WriteResult := Written | Rejected.

(** [context.globalState.update(key, value)]: a write that succeeds stores
    [value]; a write that fails stores nothing. *)
Definition globalState_update (key : string) (v : WorkspaceStats.t) (w : World)
  : WriteResult * World :=
  if storeWritable w
  then (Written, set_globalState (<[key := v]> (globalState w)) w)
  else (Rejected, w).

Definition showInformationMessage (msg : string) (w : World) : World :=
  set_notifications (notifications w ++ [msg]) w.

End Host.

(** ** The methods of [TimeTracker] *)

(** The length of the inactivity window in milliseconds (line 29). *)
Definition inactivityTimeout : Z := 20 * 1000.

(** The expression
    [isTracking ? currentSessionTime + (Date.now() - startTime) / 1000
                : currentSessionTime],
    written out in [saveStats] (as [currentTotalSessionTime]), [getStats],
    [updateStatusBar] and [showStatistics]; the spec calls it
    [computeElapsed()]. *)
Definition currentTotalSessionTime (w : World) : Qc :=
  if isTracking (tracker w)
  then (currentSessionTime (tracker w)
        + JS.num (now w - startTime (tracker w)) / JS.num 1000)%Qc
  else currentSessionTime (tracker w).

(** [getWorkspaceKey] (lines 238-241); an empty URI string is falsy. *)
Definition workspaceIdentity (folders : option (list string)) : string :=
  match folders with
  | Some (uri :: _) => if decide (uri = "") then "global" else uri
  | _ => "global"
  end.

Definition getWorkspaceKey (w : World) : string :=
  "stats_" +:+ workspaceIdentity (workspaceFolders w).

(** [updateStatusBar] (lines 248-263). *)
Definition updateStatusBar (w : World) : World :=
  let text := "⏱️ " +:+ formatTime (currentTotalSessionTime w) in
  self (λ t, set_statusBarItem {| text := text; shown := shown (statusBarItem t) |} t) w.

(** [clearInactivityTimer] (lines 144-149). *)
Definition clearInactivityTimer (w : World) : World :=
  match inactivityTimer (tracker w) with
  | Some h => self (set_inactivityTimer None) (Host.clearTimeout h w)
  | None => w
  end.

(** [clearUpdateInterval] (lines 156-161). *)
Definition clearUpdateInterval (w : World) : World :=
  match updateInterval (tracker w) with
  | Some h => self (set_updateInterval None) (Host.clearInterval h w)
  | None => w
  end.

(** [setupEventListeners] (lines 91-113): two new registrations, pushed after
    whatever [context.subscriptions] already holds. *)
Definition setupEventListeners (w : World) : World :=
  set_subscriptions (subscriptions w ++ [TextChangeSub; SelectionChangeSub]) w.

(** [startTracking] (lines 55-66). *)
Definition startTracking (w : World) : World :=
  if isTracking (tracker w) then w
  else
    let w := self (set_isTracking true) w in
    let w := self (set_startTime (now w)) w in
    let w := setupEventListeners w in
    let w := updateStatusBar w in
    let '(h, w) := Host.setInterval w in
    self (set_updateInterval (Some h)) w.

(** [stopTracking] (lines 73-84). *)
Definition stopTracking (w : World) : World :=
  if negb (isTracking (tracker w)) then w
  else
    let w := self (set_isTracking false) w in
    let w := self (λ t, set_currentSessionTime
                          (currentSessionTime t
                           + JS.num (now w - startTime t) / JS.num 1000)%Qc t) w in
    let w := clearInactivityTimer w in
    let w := clearUpdateInterval w in
    updateStatusBar w.

(** [resetInactivityTimer] (lines 130-137). *)
Definition resetInactivityTimer (w : World) : World :=
  let w := clearInactivityTimer w in
  let '(h, w) := Host.setTimeout inactivityTimeout w in
  self (set_inactivityTimer (Some h)) w.

(** [onActivity] (lines 120-123). *)
Definition onActivity (w : World) : World :=
  updateStatusBar (resetInactivityTimer w).

(** [getStats] (lines 195-211): the stored record or the zero record, and the
    lazy initialisation of the in-memory [lastSaveTime]. *)
Definition getStats (w : World) : WorkspaceStats.t * World :=
  let workspaceKey := getWorkspaceKey w in
  let stats := default WorkspaceStats.zero (Host.globalState_get workspaceKey w) in
  let w := if decide (lastSaveTime (tracker w) = 0%Qc)
           then self (set_lastSaveTime (currentTotalSessionTime w)) w
           else w in
  (stats, w).

(** [saveStats] (lines 168-188).  The two assignments to [existingStats]
    (lines 181 and 184) are made on the object [getStats] returned, before
    [globalState.update] is called; the result of the update is dropped, as
    in the source. *)
Definition saveStats (w : World) : World :=
  let workspaceKey := getWorkspaceKey w in
  let '(existingStats, w) := getStats w in
  let currentTotal := currentTotalSessionTime w in
  let timeSinceLastSave := (currentTotal - lastSaveTime (tracker w))%Qc in
  let existingStats :=
    {| WorkspaceStats.totalTime :=
         (WorkspaceStats.totalTime existingStats + timeSinceLastSave)%Qc;
       WorkspaceStats.lastSaveTime := WorkspaceStats.lastSaveTime existingStats |} in
  let w := Host.globalState_assign workspaceKey existingStats w in
  let existingStats :=
    {| WorkspaceStats.totalTime := WorkspaceStats.totalTime existingStats;
       WorkspaceStats.lastSaveTime := now w |} in
  let w := Host.globalState_assign workspaceKey existingStats w in
  let w := self (set_lastSaveTime currentTotal) w in
  (Host.globalState_update workspaceKey existingStats w).2.

(** [resetStats] (lines 218-231). *)
Definition resetStats (w : World) : World :=
  let workspaceKey := getWorkspaceKey w in
  let w := (Host.globalState_update workspaceKey
              {| WorkspaceStats.totalTime := 0%Qc;
                 WorkspaceStats.lastSaveTime := now w |} w).2 in
  let w := self (set_currentSessionTime 0%Qc) w in
  let w := self (set_lastSaveTime 0%Qc) w in
  let w := self (set_startTime (now w)) w in
  updateStatusBar w.

(** [lines.join('\n')]. *)
Fixpoint join_lines (lines : list string) : string :=
  match lines with
  | [] => ""
  | [l] => l
  | l :: rest => l +:+ String "010"%char (join_lines rest)
  end.

(** [showStatistics] (lines 285-304). *)
Definition showStatistics (w : World) : World :=
  let w := saveStats w in
  let '(stats, w) := getStats w in
  let message := join_lines [
    "Workspace Time Tracking Statistics";
    "---";
    "Total Time: " +:+ formatTime (WorkspaceStats.totalTime stats);
    "Current Session: " +:+ formatTime (currentTotalSessionTime w);
    "Status: " +:+ (if isTracking (tracker w) then "Tracking" else "Paused");
    "---";
    "*Statistics updated in real-time*" ] in
  Host.showInformationMessage message w.

(** [dispose] (lines 311-317). *)
Definition dispose (w : World) : World :=
  let w := saveStats w in
  let w := stopTracking w in
  let w := self (λ t, set_statusBarItem
                        {| text := text (statusBarItem t); shown := false |} t) w in
  let w := clearInactivityTimer w in
  clearUpdateInterval w.

(** The field initialisers of the class (lines 20-33). *)
Definition fieldInitialisers : TimeTracker :=
  {| statusBarItem := {| text := ""; shown := false |};
     isTracking := false;
     startTime := 0;
     currentSessionTime := 0%Qc;
     inactivityTimer := None;
     updateInterval := None;
     lastSaveTime := 0%Qc |}.

(** The constructor (lines 40-48): a fresh object replaces the tracker of the
    world, its status bar item is shown and painted, and tracking starts. *)
Definition new_TimeTracker (w : World) : World :=
  let w := self (λ _, fieldInitialisers) w in
  let w := self (λ t, set_statusBarItem
                        {| text := text (statusBarItem t); shown := true |} t) w in
  let w := updateStatusBar w in
  startTracking w.

(** [activate] (lines 325-350). *)
Definition activate (w : World) : World :=
  let w := new_TimeTracker w in
  set_subscriptions
    (subscriptions w ++ [CommandSub "time-tracker.showStatistics";
                         CommandSub "time-tracker.resetStatistics";
                         TrackerSub]) w.

(** A host in which nothing has been constructed or scheduled yet, with a
    store that hands out copies; [set_storeLive true] makes it one that
    hands out its own objects. *)
Definition freshHost (t0 : Z) (store : gmap string WorkspaceStats.t)
    (writable : bool) (folders : option (list string)) : World :=
  {| now := t0; tracker := fieldInitialisers; globalState := store;
     storeWritable := writable; storeLive := false; workspaceFolders := folders;
     timeouts := []; intervals := []; nextHandle := O;
     subscriptions := []; notifications := [] |}.

(** ** Events delivered by the host *)

(** The listener of [onDidChangeTextDocument] (lines 92-100); [changes] is
    [event.contentChanges.length]. *)
Definition textChangeListener (changes : nat) (w : World) : World :=
  if decide (0 < changes)%nat then
    let w := onActivity w in
    if negb (isTracking (tracker w)) then startTracking w else w
  else w.

(** The listener of [onDidChangeTextEditorSelection] (lines 102-109). *)
Definition selectionChangeListener (w : World) : World :=
  let w := onActivity w in
  if negb (isTracking (tracker w)) then startTracking w else w.

(** An event reaches every listener registered when it is fired, in
    registration order. *)
Definition fireTextChange (changes : nat) (w : World) : World :=
  foldl (λ w d, match d with TextChangeSub => textChangeListener changes w | _ => w end)
        w (subscriptions w).

Definition fireSelectionChange (w : World) : World :=
  foldl (λ w d, match d with SelectionChangeSub => selectionChangeListener w | _ => w end)
        w (subscriptions w).

(** The callback handed to [setTimeout] in [resetInactivityTimer]. *)
Definition inactivityCallback (w : World) : World := stopTracking w.

(** The callback handed to [setInterval] in [startTracking]. *)
Definition intervalCallback (w : World) : World := updateStatusBar w.

(** The pending timeout that is due first (the older one on a tie). *)
Fixpoint earliest (l : list (Handle * Z)) : option (Handle * Z) :=
  match l with
  | [] => None
  | p :: l' =>
    match earliest l' with
    | Some q => if q.2 <? p.2 then Some q else Some p
    | None => Some p
    end
  end.

(** Run the timeouts due up to [target], each at its due time, then move the
    clock to [target].  A fired timeout is no longer pending; its handle
    stays in the field that holds it. *)
Fixpoint fireTimers (fuel : nat) (target : Z) (w : World) : World :=
  match fuel with
  | O => set_now target w
  | S fuel' =>
    match earliest (timeouts w) with
    | Some (h, due) =>
      if due <=? target then
        fireTimers fuel' target
          (inactivityCallback (Host.clearTimeout h (set_now (Z.max (now w) due) w)))
      else set_now target w
    | None => set_now target w
    end
  end.

(** [dt] milliseconds pass.  No callback of this program schedules a
    timeout, so one round per pending timeout is enough (see
    [elapse_fires_all_due]). *)
Definition elapse (dt : Z) (w : World) : World :=
  fireTimers (length (timeouts w)) (now w + dt) w.

(** What can happen to a tracker: calls of its methods (the public ones and,
    as the spec exposes them, [saveStats] and [onActivity]), and events of
    the host. *)
Inductive Event :=
  | Start | Stop | Activity | Save | GetStats | Reset
  | ShowStatistics | Dispose
  | TextChanged (changes : nat) | SelectionChanged
  | IntervalTick
  | Elapse (dt : Z).

Definition step (e : Event) (w : World) : World :=
  match e with
  | Start => startTracking w
  | Stop => stopTracking w
  | Activity => onActivity w
  | Save => saveStats w
  | GetStats => (getStats w).2
  | Reset => resetStats w
  | ShowStatistics => showStatistics w
  | Dispose => dispose w
  | TextChanged n => fireTextChange n w
  | SelectionChanged => fireSelectionChange w
  | IntervalTick => match intervals w with [] => w | _ => intervalCallback w end
  | Elapse dt => elapse dt w
  end.

Definition run (es : list Event) (w : World) : World := foldl (λ w e, step e w) w es.

(** The persisted record of the current workspace, as [getStats] reads it. *)
Definition persisted (w : World) : WorkspaceStats.t := (getStats w).1.

(** ** Vocabulary of the statements *)

(** The amount [saveStats] adds to the stored total: the elapsed session time
    minus the baseline that [getStats] leaves behind. *)
Definition savedDelta (w : World) : Qc :=
  (currentTotalSessionTime w - lastSaveTime (tracker (getStats w).2))%Qc.

(** The record [saveStats] hands to [globalState.update]. *)
Definition savedRecord (w : World) : WorkspaceStats.t :=
  {| WorkspaceStats.totalTime :=
       (WorkspaceStats.totalTime (persisted w) + savedDelta w)%Qc;
     WorkspaceStats.lastSaveTime := now w |}.

(** Does what [saveStats] computes end up in the record that later reads
    see?  It does when the write succeeds, and also when the object that
    [saveStats] assigned to was the store's own. *)
Definition reachesStore (w : World) : bool :=
  storeWritable w
  || storeLive w && bool_decide (is_Some (globalState w !! getWorkspaceKey w)).

(** While tracking, the run began no later than now. *)
Definition clockOk (w : World) : Prop :=
  isTracking (tracker w) = true → startTime (tracker w) ≤ now w.

(** Every pending timeout is the one the tracker holds a handle to. *)
Definition timersOwned (w : World) : Prop :=
  ∀ p, p ∈ timeouts w → inactivityTimer (tracker w) = Some p.1.

(** Events under which the session time is claimed not to decrease: all but
    [Reset], with a clock that does not run backwards. *)
Definition keepsTime (e : Event) : Prop :=
  match e with
  | Reset => False
  | Elapse dt => 0 ≤ dt
  | _ => True
  end.

(** Any event with a clock that does not run backwards. *)
Definition forwardInTime (e : Event) : Prop :=
  match e with
  | Elapse dt => 0 ≤ dt
  | _ => True
  end.

(** The number of steps of a run that take the tracker from paused to
    tracking. *)
Fixpoint resumes (es : list Event) (w : World) : nat :=
  match es with
  | [] => O
  | e :: es' =>
    ((if negb (isTracking (tracker w)) && isTracking (tracker (step e w))
      then 1 else 0) + resumes es' (step e w))%nat
  end.

(** The registered listeners of each kind. *)
Definition textListeners (w : World) : nat :=
  length (filter (λ d, d = TextChangeSub) (subscriptions w)).

Definition selectionListeners (w : World) : nat :=
  length (filter (λ d, d = SelectionChangeSub) (subscriptions w)).

(** [w'] is [w] seen later: the clock has not gone back and the session time
    has not decreased. *)
Definition advances (w w' : World) : Prop :=
  clockOk w →
  clockOk w' ∧ now w ≤ now w' ∧
  (currentTotalSessionTime w ≤ currentTotalSessionTime w')%Qc.

(** A tracker constructed at time 0 in a host with an empty store and one
    workspace folder: the running example of the concrete statements. *)
Definition demoHost : World := freshHost 0 ∅ true (Some ["file:///home/u/proj"]).
Definition demo : World := new_TimeTracker demoHost.

(** The two registrations made by one [setupEventListeners]. *)
Definition listenerPair : list Disposable := [TextChangeSub; SelectionChangeSub].

(** [w'] comes from [w] without registering anything and without starting. *)
Definition quiet (w w' : World) : Prop :=
  subscriptions w' = subscriptions w ∧
  (isTracking (tracker w') = isTracking (tracker w) ∨ isTracking (tracker w') = false).

(** [w'] is tracking, with a new pair registered if [w] was paused. *)
Definition resuming (w w' : World) : Prop :=
  subscriptions w' = subscriptions w ++
    (if isTracking (tracker w) then [] else listenerPair) ∧
  isTracking (tracker w') = true.

(** A new pair is registered exactly when the step goes from paused to
    tracking, and it is appended to what was there. *)
Definition registers (w w' : World) : Prop :=
  subscriptions w' = subscriptions w ++
    (if negb (isTracking (tracker w)) && isTracking (tracker w')
     then listenerPair else []).


(** ** Commands and further vocabulary *)

(** The handler of [time-tracker.showStatistics] (lines 328-331). *)
Definition showStatisticsCommand (w : World) : World := showStatistics w.

(** The handler of [time-tracker.resetStatistics] (lines 333-347), run when
    the modal warning resolves with [selection] ([None] when it is
    dismissed). *)
Definition resetStatisticsCommand (selection : option string) (w : World) : World :=
  if decide (selection = Some "Reset")
  then Host.showInformationMessage "Statistics reset successfully" (resetStats w)
  else w.

(** [this.statusBarItem.dispose()], as [dispose] does it (line 314). *)
Definition disposeStatusBarItem (w : World) : World :=
  self (λ t, set_statusBarItem
               {| text := text (statusBarItem t); shown := false |} t) w.

(** The text of the notification of [showStatistics] (lines 290-301) for a
    stored total, a session time and a tracking flag. *)
Definition statisticsMessage (total session : Qc) (tracking : bool) : string :=
  join_lines [
    "Workspace Time Tracking Statistics";
    "---";
    "Total Time: " +:+ formatTime total;
    "Current Session: " +:+ formatTime session;
    "Status: " +:+ (if tracking then "Tracking" else "Paused");
    "---";
    "*Statistics updated in real-time*" ].

(** The status-bar interval is live exactly while tracking, and it is the
    one the tracker holds. *)
Definition intervalLive (w : World) : Prop :=
  if isTracking (tracker w)
  then ∃ h, intervals w = [h] ∧ updateInterval (tracker w) = Some h
  else intervals w = [] ∧ updateInterval (tracker w) = None.

(** At most one timeout is pending, and the tracker holds it. *)
Definition timerSingle (w : World) : Prop :=
  timersOwned w ∧ (length (timeouts w) ≤ 1)%nat.

(** While paused, the status bar shows the session time. *)
Definition statusBarFresh (w : World) : Prop :=
  isTracking (tracker w) = false →
  text (statusBarItem (tracker w))
  = "⏱️ " +:+ formatTime (currentTotalSessionTime w).

(** Events that take no time and are not a reset. *)
Definition instantEvent (e : Event) : Prop :=
  match e with
  | Reset | Elapse _ => False
  | _ => True
  end.

(** The saved baseline is in use: the store takes writes, and the in-memory
    [lastSaveTime] is positive and not ahead of the session time. *)
Definition baselineSet (w : World) : Prop :=
  storeWritable w = true ∧ clockOk w ∧
  (0 < lastSaveTime (tracker w))%Qc ∧
  (lastSaveTime (tracker w) ≤ currentTotalSessionTime w)%Qc.

(** [w'] has the books of [w]: the same store, writable or not as before,
    the same workspace and the same in-memory baseline. *)
Definition sameBooks (w w' : World) : Prop :=
  storeWritable w' = storeWritable w ∧
  globalState w' = globalState w ∧
  workspaceFolders w' = workspaceFolders w ∧
  lastSaveTime (tracker w') = lastSaveTime (tracker w).

(** Events that neither save nor read nor reset: calls of [startTracking]
    and [stopTracking], activity, repaint ticks and the passing of time. *)
Definition leavesBooks (e : Event) : Prop :=
  match e with
  | Save | GetStats | Reset | ShowStatistics | Dispose => False
  | _ => True
  end.

(** The in-memory baseline is at its zero sentinel or not ahead of the
    session time. *)
Definition baselineBehind (w : World) : Prop :=
  clockOk w ∧
  (lastSaveTime (tracker w) = 0%Qc ∨
   (lastSaveTime (tracker w) ≤ currentTotalSessionTime w)%Qc).

(** * Properties *)

(** ** Proof automation *)

(** Unfold the methods and the record plumbing, and nothing of the libraries. *)
Ltac exec :=
  cbv beta iota zeta delta
    [new_TimeTracker dispose showStatistics resetStats
     saveStats getStats persisted savedDelta
     onActivity resetInactivityTimer stopTracking startTracking
     setupEventListeners clearUpdateInterval clearInactivityTimer
     updateStatusBar inactivityCallback intervalCallback
     textChangeListener selectionChangeListener
     currentTotalSessionTime getWorkspaceKey freshHost fieldInitialisers
     Host.setTimeout Host.clearTimeout Host.setInterval Host.clearInterval
     Host.showInformationMessage Host.globalState_get Host.globalState_update
     Host.globalState_assign
     self set_now set_globalState set_storeWritable set_storeLive set_workspaceFolders
     set_timeouts set_intervals set_nextHandle set_subscriptions
     set_notifications set_statusBarItem set_isTracking set_startTime
     set_currentSessionTime set_inactivityTimer set_updateInterval
     set_lastSaveTime
     now tracker globalState storeWritable storeLive workspaceFolders timeouts intervals
     nextHandle subscriptions notifications
     statusBarItem isTracking startTime currentSessionTime inactivityTimer
     updateInterval lastSaveTime text shown fst snd negb andb] in *.

Ltac destruct_world w :=
  let t := fresh "t" in
  destruct w as [? t ? ? ? ? ? ? ? ? ?]; destruct t as [[? ?] ? ? ? ? ? ?].

(** Open a world with fixed names for its fields. *)
Ltac open_world w :=
  destruct w as [nw [[txt shn] trk st cur it ui ls] gs wr lv wf tos ivs nh subs ns].

(** Split on whatever a [match] of the goal is stuck on. *)
Ltac split_match :=
  match goal with
  | |- context [match ?x with _ => _ end] => is_var x; destruct x
  | |- context [match decide ?P with _ => _ end] => destruct (decide P)
  | |- context [<[?k:=?v]> ?m !! ?k] => rewrite (lookup_insert_eq m k v)
  | |- context [match ?m !! ?k with _ => _ end] => is_var m; destruct (m !! k) eqn:?
  end.

Ltac world_cases w := destruct_world w; exec; repeat (split_match; exec).

(** ** Arithmetic of elapsed seconds *)

Section Seconds.

Lemma num_1000_neq_0 : JS.num 1000 ≠ 0%Qc.
Proof. intros H. apply Q2Qc_eq_iff in H. discriminate H. Qed.

(** [(b - a) / 1000] as a number of seconds is monotone in [b]. *)
Lemma ms_to_s_mono (d1 d2 : Z) :
  d1 ≤ d2 → (JS.num d1 / JS.num 1000 ≤ JS.num d2 / JS.num 1000)%Qc.
Proof.
  intros H. unfold Qcle, Qcdiv, Qcmult, Qcinv, JS.num. cbn [this Q2Qc].
  rewrite !Qred_correct.
  apply Qmult_le_compat_r; [by rewrite <- Zle_Qle | done].
Qed.

Lemma ms_to_s_0 : (JS.num 0 / JS.num 1000)%Qc = 0%Qc.
Proof. apply Qc_is_canon. reflexivity. Qed.

Lemma Qcplus_le_l (a x y : Qc) : (x ≤ y)%Qc → (a + x ≤ a + y)%Qc.
Proof. intros H. by apply Qcplus_le_mono_l. Qed.

End Seconds.

(** ** Redundant calls *)

(** C7.  Calling [startTracking] while tracking, or [stopTracking] while
    paused, returns the world it was given: every field of the tracker (the
    flag, both times, the baseline, both timer handles, the status bar), the
    stored records and the host's timers and subscriptions are unchanged.
    The methods are total functions; there is no error to raise. *)
Theorem redundant_start_stop_noop (w : World) :
  (isTracking (tracker w) = true → startTracking w = w) ∧
  (isTracking (tracker w) = false → stopTracking w = w).
Proof.
  split; intros H.
  - unfold startTracking. by rewrite H.
  - unfold stopTracking. by rewrite H.
Qed.

(** Witness of [redundant_start_stop_noop]: the example tracker, tracking,
    and the same tracker after a stop. *)
Lemma redundant_start_stop_noop_witness :
  isTracking (tracker demo) = true ∧ startTracking demo = demo ∧
  isTracking (tracker (stopTracking demo)) = false ∧
  stopTracking (stopTracking demo) = stopTracking demo.
Proof.
  split; [reflexivity|]. split.
  - apply (proj1 (redundant_start_stop_noop demo)). reflexivity.
  - split; [vm_compute; reflexivity|].
    apply (proj2 (redundant_start_stop_noop (stopTracking demo))).
    vm_compute; reflexivity.
Defined.

(** ** Saving *)

Section Saving.

Implicit Types w : World.

Lemma getStats_fst w :
  (getStats w).1
  = default WorkspaceStats.zero (globalState w !! getWorkspaceKey w).
Proof. reflexivity. Qed.

(** [getStats] changes nothing but the in-memory baseline. *)
Lemma getStats_snd w :
  (getStats w).2
  = if decide (lastSaveTime (tracker w) = 0%Qc)
    then self (set_lastSaveTime (currentTotalSessionTime w)) w else w.
Proof. reflexivity. Qed.

Lemma currentTotalSessionTime_getStats w :
  currentTotalSessionTime (getStats w).2 = currentTotalSessionTime w.
Proof. rewrite getStats_snd. by case_decide. Qed.

(** Assignments to the object read from the store. *)
Lemma assign_assign key v1 v2 w :
  Host.globalState_assign key v2 (Host.globalState_assign key v1 w)
  = Host.globalState_assign key v2 w.
Proof.
  open_world w. exec. destruct lv; [|done].
  destruct (gs !! key) eqn:E; exec; [|by rewrite E].
  by rewrite lookup_insert_eq, insert_insert_eq.
Qed.

Lemma assign_self f key v w :
  Host.globalState_assign key v (self f w) = self f (Host.globalState_assign key v w).
Proof. open_world w. exec. destruct lv; [|done]. by destruct (gs !! key). Qed.

Lemma assign_now key v w : now (Host.globalState_assign key v w) = now w.
Proof. open_world w. exec. destruct lv; [|done]. by destruct (gs !! key). Qed.

Lemma self_set_lastSaveTime_twice a b w :
  self (set_lastSaveTime b) (self (set_lastSaveTime a) w) = self (set_lastSaveTime b) w.
Proof. by open_world w. Qed.

Lemma getStats_key w : getWorkspaceKey (getStats w).2 = getWorkspaceKey w.
Proof. rewrite getStats_snd. by case_decide. Qed.

(** [saveStats], one effect at a time: the baseline, the assignments to
    the object read, the write. *)
Lemma saveStats_unfold w :
  saveStats w
  = (Host.globalState_update (getWorkspaceKey w) (savedRecord w)
       (Host.globalState_assign (getWorkspaceKey w) (savedRecord w)
          (self (set_lastSaveTime (currentTotalSessionTime w)) w))).2.
Proof.
  unfold saveStats, savedRecord, savedDelta, persisted.
  destruct (getStats w) as [st w'] eqn:E.
  assert (Hw' : w' = (getStats w).2) by by rewrite E.
  assert (Hst : st = (getStats w).1) by by rewrite E.
  subst st. cbn [fst snd]. rewrite Hw'. clear E Hw' w'.
  rewrite assign_assign, assign_now, currentTotalSessionTime_getStats.
  cbn [WorkspaceStats.totalTime WorkspaceStats.lastSaveTime].
  rewrite <- assign_self.
  replace (self (set_lastSaveTime (currentTotalSessionTime w)) (getStats w).2)
    with (self (set_lastSaveTime (currentTotalSessionTime w)) w).
  2:{ rewrite getStats_snd. case_decide; [|done]. by rewrite self_set_lastSaveTime_twice. }
  f_equal. f_equal; [|f_equal]. all: f_equal; rewrite getStats_snd; by case_decide.
Qed.

(** With the baseline still at its zero sentinel, the delta is zero. *)
Lemma savedDelta_fresh w : lastSaveTime (tracker w) = 0%Qc → savedDelta w = 0%Qc.
Proof.
  intros H. unfold savedDelta. rewrite getStats_snd, decide_True by done.
  cbn. ring.
Qed.

Lemma savedDelta_baseline w :
  lastSaveTime (tracker w) = currentTotalSessionTime w → savedDelta w = 0%Qc.
Proof.
  intros H. unfold savedDelta. rewrite getStats_snd.
  case_decide; cbn; [|rewrite H]; ring.
Qed.

Lemma assign_store key v w :
  globalState (Host.globalState_assign key v w)
  = if storeLive w && bool_decide (is_Some (globalState w !! key))
    then <[key := v]> (globalState w) else globalState w.
Proof.
  open_world w. exec. destruct lv; [|done].
  destruct (gs !! key) eqn:E; [by rewrite bool_decide_eq_true_2|].
  rewrite bool_decide_eq_false_2; [done|]. by intros [? ?].
Qed.

Lemma assign_frame key v w :
  now (Host.globalState_assign key v w) = now w ∧
  tracker (Host.globalState_assign key v w) = tracker w ∧
  storeWritable (Host.globalState_assign key v w) = storeWritable w ∧
  storeLive (Host.globalState_assign key v w) = storeLive w ∧
  workspaceFolders (Host.globalState_assign key v w) = workspaceFolders w ∧
  timeouts (Host.globalState_assign key v w) = timeouts w ∧
  intervals (Host.globalState_assign key v w) = intervals w ∧
  nextHandle (Host.globalState_assign key v w) = nextHandle w ∧
  subscriptions (Host.globalState_assign key v w) = subscriptions w ∧
  notifications (Host.globalState_assign key v w) = notifications w.
Proof. open_world w. exec. destruct lv; [|done]. by destruct (gs !! key). Qed.

(** What [saveStats] leaves in the store: its record, when the write
    succeeds or the object it assigned to was the store's own. *)
Lemma saveStats_store w :
  globalState (saveStats w)
  = if reachesStore w
    then <[getWorkspaceKey w := savedRecord w]> (globalState w)
    else globalState w.
Proof.
  rewrite saveStats_unfold. unfold reachesStore.
  set (k := getWorkspaceKey w). set (r := savedRecord w).
  set (w1 := self (set_lastSaveTime (currentTotalSessionTime w)) w).
  assert (Hg : globalState w1 = globalState w) by done.
  assert (Hl : storeLive w1 = storeLive w) by done.
  assert (Hw : storeWritable w1 = storeWritable w) by done.
  pose proof (assign_store k r w1) as Ha. rewrite Hg, Hl in Ha.
  destruct (assign_frame k r w1) as (_ & _ & Hw' & _). rewrite Hw in Hw'.
  unfold Host.globalState_update. rewrite Hw'.
  destruct (storeWritable w); cbn [orb snd].
  - cbn [globalState set_globalState]. rewrite Ha.
    destruct (storeLive w && _); [by rewrite insert_insert_eq | done].
  - exact Ha.
Qed.

(** [saveStats] changes the baseline and the store, and nothing else. *)
Lemma saveStats_shape w :
  saveStats w
  = set_globalState (globalState (saveStats w))
      (self (set_lastSaveTime (currentTotalSessionTime w)) w).
Proof.
  rewrite saveStats_unfold at 2. rewrite saveStats_unfold at 1.
  set (k := getWorkspaceKey w). set (r := savedRecord w).
  generalize (self (set_lastSaveTime (currentTotalSessionTime w)) w).
  clearbody k r. clear. intros w. open_world w. exec.
  destruct wr, lv; try done; by destruct (gs !! k).
Qed.

Lemma persisted_saveStats w :
  WorkspaceStats.totalTime (persisted (saveStats w))
  = if reachesStore w
    then (WorkspaceStats.totalTime (persisted w) + savedDelta w)%Qc
    else WorkspaceStats.totalTime (persisted w).
Proof.
  unfold persisted at 1. rewrite getStats_fst.
  replace (getWorkspaceKey (saveStats w)) with (getWorkspaceKey w)
    by (rewrite saveStats_shape; by destruct w).
  rewrite saveStats_store. destruct (reachesStore w).
  - by rewrite lookup_insert_eq.
  - by rewrite <- getStats_fst.
Qed.

Lemma reachesStore_writable w : storeWritable w = true → reachesStore w = true.
Proof. unfold reachesStore. by intros ->. Qed.

Lemma reachesStore_eq w w' :
  storeWritable w' = storeWritable w → storeLive w' = storeLive w →
  getWorkspaceKey w' = getWorkspaceKey w → globalState w' = globalState w →
  reachesStore w' = reachesStore w.
Proof. unfold reachesStore. by intros -> -> -> ->. Qed.

End Saving.

(** Case analysis for a statement about [saveStats w]: the store it leaves
    is kept abstract. *)
Ltac save_cases w :=
  try rewrite (saveStats_shape w);
  try (generalize (globalState (saveStats w)); intro);
  world_cases w.

(** C4.  A second [saveStats] with no time passed in between adds nothing:
    the stored [totalTime] after two saves in a row is the one after the
    first, in every state of the tracker and of the store. *)
Theorem save_twice_adds_zero (w : World) :
  WorkspaceStats.totalTime (persisted (saveStats (saveStats w)))
  = WorkspaceStats.totalTime (persisted (saveStats w)).
Proof.
  rewrite (persisted_saveStats (saveStats w)).
  assert (Hd : savedDelta (saveStats w) = 0%Qc).
  { apply savedDelta_baseline. rewrite saveStats_shape. by destruct w. }
  rewrite Hd. destruct (reachesStore (saveStats w)); [ring | done].
Qed.

(** ** The session time never decreases *)

Section SessionTime.

Implicit Types w : World.

Lemma advances_refl w : advances w w.
Proof. intros H. repeat split; [done | lia | apply Qcle_refl]. Qed.

Lemma advances_trans w1 w2 w3 : advances w1 w2 → advances w2 w3 → advances w1 w3.
Proof.
  intros H12 H23 H1. destruct (H12 H1) as (H2 & ? & ?).
  destruct (H23 H2) as (H3 & ? & ?).
  repeat split; [done | lia | by eapply Qcle_trans].
Qed.

(** A step that leaves the clock, the flag-dependent session time and the
    order of [startTime] and [now] alone. *)
Lemma advances_same w w' :
  now w' = now w →
  currentTotalSessionTime w' = currentTotalSessionTime w →
  (isTracking (tracker w') = true →
   startTime (tracker w') ≤ now w' ∨
   (isTracking (tracker w) = true ∧ startTime (tracker w') = startTime (tracker w))) →
  advances w w'.
Proof.
  intros Hn He Hc H. repeat split.
  - intros Ht. destruct (Hc Ht) as [?|[Ht' Hs]]; [done|].
    rewrite Hs, Hn. by apply H.
  - lia.
  - rewrite He. apply Qcle_refl.
Qed.

Lemma startTracking_session w :
  currentTotalSessionTime (startTracking w) = currentTotalSessionTime w.
Proof.
  world_cases w; try done.
  rewrite Z.sub_diag, ms_to_s_0. ring.
Qed.

Lemma stopTracking_session w :
  currentTotalSessionTime (stopTracking w) = currentTotalSessionTime w.
Proof. world_cases w; done. Qed.

Lemma startTracking_advances w : advances w (startTracking w).
Proof.
  apply advances_same; [| apply startTracking_session |].
  - world_cases w; done.
  - world_cases w; intros; (by left; lia) || (by right).
Qed.

Lemma stopTracking_advances w : advances w (stopTracking w).
Proof.
  apply advances_same; [| apply stopTracking_session |].
  - world_cases w; done.
  - world_cases w; intros; done.
Qed.

Lemma onActivity_advances w : advances w (onActivity w).
Proof. apply advances_same; world_cases w; intros; by (done || right). Qed.

Lemma updateStatusBar_advances w : advances w (updateStatusBar w).
Proof. apply advances_same; world_cases w; intros; by (done || right). Qed.

Lemma getStats_advances w : advances w (getStats w).2.
Proof. apply advances_same; world_cases w; intros; by (done || right). Qed.

Lemma saveStats_advances w : advances w (saveStats w).
Proof. apply advances_same; save_cases w; intros; by (done || right). Qed.

Lemma showInformationMessage_advances msg w :
  advances w (Host.showInformationMessage msg w).
Proof. apply advances_same; world_cases w; intros; by (done || right). Qed.

(** [showStatistics] is a save, a read and a notification. *)
Lemma showStatistics_unfold w :
  ∃ msg, showStatistics w
         = Host.showInformationMessage msg (getStats (saveStats w)).2.
Proof.
  unfold showStatistics. destruct (getStats (saveStats w)) as [st w'].
  eexists. reflexivity.
Qed.

Lemma showStatistics_advances w : advances w (showStatistics w).
Proof.
  destruct (showStatistics_unfold w) as [msg ->].
  eapply advances_trans; [apply saveStats_advances|].
  eapply advances_trans; [apply getStats_advances|].
  apply showInformationMessage_advances.
Qed.

Lemma dispose_advances w : advances w (dispose w).
Proof.
  eapply advances_trans; [apply saveStats_advances|].
  eapply advances_trans; [apply stopTracking_advances|].
  unfold dispose. cbv zeta. generalize (stopTracking (saveStats w)). intros w'.
  apply advances_same; world_cases w'; intros; by (done || right).
Qed.

Lemma selectionChangeListener_advances w : advances w (selectionChangeListener w).
Proof.
  unfold selectionChangeListener.
  eapply advances_trans; [apply onActivity_advances|].
  destruct (negb _); [apply startTracking_advances | apply advances_refl].
Qed.

Lemma textChangeListener_advances n w : advances w (textChangeListener n w).
Proof.
  unfold textChangeListener. case_decide; [|apply advances_refl].
  eapply advances_trans; [apply onActivity_advances|].
  destruct (negb _); [apply startTracking_advances | apply advances_refl].
Qed.

Lemma foldl_advances {A} (f : World → A → World) (l : list A) w :
  (∀ w a, advances w (f w a)) → advances w (foldl f w l).
Proof.
  intros Hf. revert w. induction l as [|a l IH]; intros w; cbn [foldl].
  - apply advances_refl.
  - eapply advances_trans; [apply Hf | apply IH].
Qed.

Lemma fireSelectionChange_advances w : advances w (fireSelectionChange w).
Proof.
  apply foldl_advances. intros w' [| | |];
    auto using advances_refl, selectionChangeListener_advances.
Qed.

Lemma fireTextChange_advances n w : advances w (fireTextChange n w).
Proof.
  apply foldl_advances. intros w' [| | |];
    auto using advances_refl, textChangeListener_advances.
Qed.

(** Moving the clock forward moves the session time forward. *)
Lemma set_now_advances t w : now w ≤ t → advances w (set_now t w).
Proof.
  intros Ht Hok. unfold clockOk in *. destruct_world w. exec.
  repeat split.
  - intros Hb. specialize (Hok Hb). lia.
  - done.
  - destruct isTracking0; [|apply Qcle_refl].
    apply Qcplus_le_l, ms_to_s_mono. lia.
Qed.

Lemma clearTimeout_advances h w : advances w (Host.clearTimeout h w).
Proof. apply advances_same; world_cases w; intros; by (done || right). Qed.

Lemma now_stopTracking w : now (stopTracking w) = now w.
Proof. world_cases w; done. Qed.

Lemma fireTimers_advances fuel target w :
  now w ≤ target → advances w (fireTimers fuel target w).
Proof.
  revert w. induction fuel as [|fuel IH]; intros w Ht; cbn [fireTimers].
  - by apply set_now_advances.
  - destruct (earliest (timeouts w)) as [[h due]|]; [|by apply set_now_advances].
    destruct (Z.leb_spec due target); [|by apply set_now_advances].
    eapply advances_trans; [apply (set_now_advances (Z.max (now w) due)); lia|].
    eapply advances_trans; [apply clearTimeout_advances|].
    eapply advances_trans; [apply stopTracking_advances|].
    apply IH. unfold inactivityCallback. rewrite now_stopTracking. cbn. lia.
Qed.

Lemma step_advances e w : keepsTime e → advances w (step e w).
Proof.
  destruct e; cbn [keepsTime step]; intros He;
    auto using startTracking_advances, stopTracking_advances,
      onActivity_advances, saveStats_advances, getStats_advances,
      showStatistics_advances, dispose_advances, fireTextChange_advances,
      fireSelectionChange_advances.
  - done.
  - destruct (intervals w); [apply advances_refl | apply updateStatusBar_advances].
  - apply fireTimers_advances. lia.
Qed.

Lemma run_advances es w : Forall keepsTime es → advances w (run es w).
Proof.
  intros Hes. revert w. induction Hes as [|e es He _ IH]; intros w.
  - apply advances_refl.
  - change (run (e :: es) w) with (run es (step e w)).
    eapply advances_trans; [by apply step_advances | apply IH].
Qed.

Lemma run_app es1 es2 w : run (es1 ++ es2) w = run es2 (run es1 w).
Proof. apply foldl_app. Qed.

Lemma run_cons e es w : run (e :: es) w = run es (step e w).
Proof. reflexivity. Qed.

(** The constructor leaves a tracker whose run began now. *)
Lemma new_TimeTracker_clockOk w : clockOk (new_TimeTracker w).
Proof. unfold clockOk. world_cases w. lia. Qed.

End SessionTime.

(** C6.  Along any sequence of events other than [resetStats] -- calls of
    [startTracking] and [stopTracking] in any order, redundant or not,
    activity, saves, timer callbacks -- with a clock that does not run
    backwards, the session time
    [isTracking ? currentSessionTime + (now - startTime) / 1000
               : currentSessionTime]
    at a later point of the run is at least what it was at an earlier
    point.  The one event left out, [resetStats], sets it to zero. *)
Theorem session_time_monotone (w : World) (es1 es2 : list Event) :
  clockOk w →
  Forall keepsTime (es1 ++ es2) →
  (currentTotalSessionTime (run es1 w)
   ≤ currentTotalSessionTime (run (es1 ++ es2) w))%Qc
  ∧ currentTotalSessionTime (step Reset (run (es1 ++ es2) w)) = 0%Qc.
Proof.
  intros Hok Hes. apply Forall_app in Hes as [H1 H2]. split.
  - rewrite run_app. apply (run_advances es2 (run es1 w) H2).
    by apply (run_advances es1 w H1).
  - generalize (run (es1 ++ es2) w). intros w'. cbn [step].
    world_cases w'; try done.
    all: rewrite Z.sub_diag, ms_to_s_0; ring.
Qed.

(** Witness of [session_time_monotone]: the example tracker through pauses,
    redundant calls, activity and a save. *)
Lemma session_time_monotone_witness :
  clockOk demo ∧
  Forall keepsTime ([Elapse 5000; Stop; Stop] ++ [Start; Start; Elapse 1000; Activity;
                                                  Save; Elapse 30000]) ∧
  (currentTotalSessionTime (run [Elapse 5000; Stop; Stop] demo)
   ≤ currentTotalSessionTime
       (run ([Elapse 5000; Stop; Stop] ++ [Start; Start; Elapse 1000; Activity;
                                           Save; Elapse 30000]) demo))%Qc.
Proof.
  assert (Hc : clockOk demo).
  { intros _. vm_compute. discriminate. }
  assert (Hf : Forall keepsTime ([Elapse 5000; Stop; Stop] ++
                [Start; Start; Elapse 1000; Activity; Save; Elapse 30000])).
  { cbn [app]. repeat constructor; cbn [keepsTime]; lia. }
  split; [exact Hc|]. split; [exact Hf|].
  apply (proj1 (session_time_monotone demo _ _ Hc Hf)).
Defined.

(** ** The inactivity timeout *)

Section Inactivity.

Implicit Types w : World.

Lemma filter_owned (h : Handle) (l : list (Handle * Z)) :
  (∀ p, p ∈ l → Some h = Some p.1) → filter (λ p, p.1 ≠ h) l = [].
Proof.
  induction l as [|p l IH]; intros H; [done|].
  rewrite filter_cons. rewrite decide_False.
  - apply IH. intros q Hq. apply H. by right.
  - intros Hne. apply Hne. specialize (H p (list_elem_of_here _ _)). congruence.
Qed.

(** The tracker only ever has the one timeout it holds the handle of, so
    clearing that one leaves none pending. *)
Lemma clearInactivityTimer_owned w :
  timersOwned w →
  timeouts (clearInactivityTimer w) = [] ∧
  inactivityTimer (tracker (clearInactivityTimer w)) = None.
Proof.
  unfold timersOwned. destruct_world w. exec.
  destruct inactivityTimer0 as [h|]; exec; intros H.
  - split; [|done]. by apply filter_owned.
  - split; [|done]. destruct timeouts0 as [|p l]; [done|].
    by specialize (H p (list_elem_of_here _ _)).
Qed.

(** What [onActivity] leaves behind: one timeout, due a full window from
    now, held by the tracker. *)
Lemma onActivity_arms w :
  timersOwned w →
  timeouts (onActivity w) = [(nextHandle w, now w + inactivityTimeout)] ∧
  inactivityTimer (tracker (onActivity w)) = Some (nextHandle w).
Proof.
  intros H. destruct (clearInactivityTimer_owned w H) as [Ht Hi].
  revert Ht Hi. unfold timersOwned in H. destruct_world w. exec.
  destruct inactivityTimer0; exec; intros Ht Hi; rewrite ?Ht; done.
Qed.

Lemma onActivity_fields w :
  now (onActivity w) = now w ∧
  isTracking (tracker (onActivity w)) = isTracking (tracker w) ∧
  startTime (tracker (onActivity w)) = startTime (tracker w) ∧
  currentSessionTime (tracker (onActivity w)) = currentSessionTime (tracker w) ∧
  lastSaveTime (tracker (onActivity w)) = lastSaveTime (tracker w) ∧
  globalState (onActivity w) = globalState w ∧
  subscriptions (onActivity w) = subscriptions w.
Proof. world_cases w; done. Qed.

Lemma elapse_none dt w :
  timeouts w = [] → elapse dt w = set_now (now w + dt) w.
Proof. intros H. unfold elapse. rewrite H. reflexivity. Qed.

Lemma elapse_not_due dt h due w :
  timeouts w = [(h, due)] → now w + dt < due →
  elapse dt w = set_now (now w + dt) w.
Proof.
  intros H Hlt. unfold elapse. rewrite H. cbn [length fireTimers].
  rewrite H. cbn [earliest snd]. by rewrite (proj2 (Z.leb_gt _ _)).
Qed.

Lemma elapse_due dt h due w :
  timeouts w = [(h, due)] → due ≤ now w + dt →
  elapse dt w
  = set_now (now w + dt)
      (inactivityCallback (Host.clearTimeout h (set_now (Z.max (now w) due) w))).
Proof.
  intros H Hle. unfold elapse. rewrite H. cbn [length fireTimers].
  rewrite H. cbn [earliest snd]. by rewrite (proj2 (Z.leb_le _ _)).
Qed.

(** The effect of the timeout firing at [t] on a tracking tracker. *)
Lemma fired_fields t t' h w :
  isTracking (tracker w) = true →
  let w' := set_now t' (inactivityCallback (Host.clearTimeout h (set_now t w))) in
  now w' = t' ∧
  isTracking (tracker w') = false ∧
  currentSessionTime (tracker w')
  = (currentSessionTime (tracker w)
     + JS.num (t - startTime (tracker w)) / JS.num 1000)%Qc ∧
  startTime (tracker w') = startTime (tracker w) ∧
  inactivityTimer (tracker w') = None.
Proof. world_cases w; done. Qed.

Lemma set_now_fields t w :
  now (set_now t w) = t ∧ tracker (set_now t w) = tracker w ∧
  timeouts (set_now t w) = timeouts w ∧
  globalState (set_now t w) = globalState w ∧
  subscriptions (set_now t w) = subscriptions w.
Proof. by destruct w. Qed.

(** *** [timersOwned] holds of every reachable world *)

Lemma owned_subset w w' :
  timeouts w' ⊆ timeouts w →
  inactivityTimer (tracker w') = inactivityTimer (tracker w) →
  timersOwned w → timersOwned w'.
Proof. intros Hs Hi H p Hp. rewrite Hi. apply H, Hs, Hp. Qed.

Lemma owned_nil w : timeouts w = [] → timersOwned w.
Proof. intros H p Hp. rewrite H in Hp. by apply not_elem_of_nil in Hp. Qed.

Lemma startTracking_owned w : timersOwned w → timersOwned (startTracking w).
Proof. apply owned_subset; world_cases w; done. Qed.

Lemma clearUpdateInterval_owned w : timersOwned w → timersOwned (clearUpdateInterval w).
Proof. apply owned_subset; world_cases w; done. Qed.

Lemma updateStatusBar_owned w : timersOwned w → timersOwned (updateStatusBar w).
Proof. apply owned_subset; world_cases w; done. Qed.

Lemma stopTracking_owned w : timersOwned w → timersOwned (stopTracking w).
Proof.
  intros H. unfold stopTracking. destruct (negb _); [done|]. cbv zeta.
  apply updateStatusBar_owned, clearUpdateInterval_owned, owned_nil.
  apply clearInactivityTimer_owned.
  revert H. apply owned_subset; world_cases w; done.
Qed.

Lemma onActivity_owned w : timersOwned w → timersOwned (onActivity w).
Proof.
  intros H. destruct (onActivity_arms w H) as [Ht Hi].
  intros p Hp. rewrite Ht in Hp. apply list_elem_of_singleton in Hp as ->.
  by rewrite Hi.
Qed.

Lemma getStats_owned w : timersOwned w → timersOwned (getStats w).2.
Proof. apply owned_subset; world_cases w; done. Qed.

Lemma saveStats_owned w : timersOwned w → timersOwned (saveStats w).
Proof. apply owned_subset; save_cases w; done. Qed.

Lemma resetStats_owned w : timersOwned w → timersOwned (resetStats w).
Proof. apply owned_subset; world_cases w; done. Qed.

Lemma showStatistics_owned w : timersOwned w → timersOwned (showStatistics w).
Proof.
  destruct (showStatistics_unfold w) as [msg ->]. intros H.
  apply saveStats_owned, getStats_owned in H. revert H.
  generalize (getStats (saveStats w)).2. intros w'.
  apply owned_subset; world_cases w'; done.
Qed.

Lemma dispose_owned w : timersOwned w → timersOwned (dispose w).
Proof.
  intros H. apply saveStats_owned, stopTracking_owned in H.
  unfold dispose. cbv zeta. revert H.
  generalize (stopTracking (saveStats w)). intros w' H.
  apply clearUpdateInterval_owned, owned_nil, clearInactivityTimer_owned.
  revert H. apply owned_subset; world_cases w'; done.
Qed.

Lemma selectionChangeListener_owned w :
  timersOwned w → timersOwned (selectionChangeListener w).
Proof.
  intros H. unfold selectionChangeListener. apply onActivity_owned in H.
  destruct (negb _); [by apply startTracking_owned | done].
Qed.

Lemma textChangeListener_owned n w :
  timersOwned w → timersOwned (textChangeListener n w).
Proof.
  intros H. unfold textChangeListener. case_decide; [|done].
  apply onActivity_owned in H.
  destruct (negb _); [by apply startTracking_owned | done].
Qed.

Lemma foldl_owned {A} (f : World → A → World) (l : list A) w :
  (∀ w a, timersOwned w → timersOwned (f w a)) →
  timersOwned w → timersOwned (foldl f w l).
Proof.
  intros Hf. revert w. induction l as [|a l IH]; intros w H; cbn [foldl]; [done|].
  by apply IH, Hf.
Qed.

Lemma fireTimers_owned fuel target w :
  timersOwned w → timersOwned (fireTimers fuel target w).
Proof.
  assert (Hnow : ∀ t w, timersOwned w → timersOwned (set_now t w)).
  { intros t w'. apply owned_subset; by destruct w'. }
  revert w. induction fuel as [|fuel IH]; intros w H; cbn [fireTimers].
  - by apply Hnow.
  - destruct (earliest (timeouts w)) as [[h due]|]; [|by apply Hnow].
    destruct (due <=? target); [|by apply Hnow].
    apply IH, stopTracking_owned.
    apply (Hnow (Z.max (now w) due)) in H. revert H.
    generalize (set_now (Z.max (now w) due) w). intros w'.
    apply owned_subset; [|by destruct w'].
    destruct w'. exec. intros p Hp. by apply list_elem_of_filter in Hp as [_ ?].
Qed.

Lemma step_owned e w : timersOwned w → timersOwned (step e w).
Proof.
  destruct e; cbn [step];
    auto using startTracking_owned, stopTracking_owned, onActivity_owned,
      saveStats_owned, getStats_owned, resetStats_owned, showStatistics_owned,
      dispose_owned, fireTimers_owned.
  - apply foldl_owned. intros w' [| | |]; auto using textChangeListener_owned.
  - apply foldl_owned. intros w' [| | |]; auto using selectionChangeListener_owned.
  - destruct (intervals w); auto using updateStatusBar_owned.
  - apply fireTimers_owned.
Qed.

Lemma run_owned es w : timersOwned w → timersOwned (run es w).
Proof.
  revert w. induction es as [|e es IH]; intros w H; [done|].
  change (run (e :: es) w) with (run es (step e w)). by apply IH, step_owned.
Qed.

Lemma new_TimeTracker_owned w : timeouts w = [] → timersOwned (new_TimeTracker w).
Proof. intros H. apply owned_nil. rewrite <- H. world_cases w; done. Qed.

End Inactivity.

(** ** The timer loop does not run out of rounds *)

Section TimerLoop.

Implicit Types w : World.

Lemma earliest_spec (l : list (Handle * Z)) :
  match earliest l with
  | None => l = []
  | Some q => q ∈ l ∧ ∀ p, p ∈ l → q.2 ≤ p.2
  end.
Proof.
  induction l as [|p l IH]; [done|]. cbn [earliest].
  destruct (earliest l) as [q|].
  - destruct IH as [Hq Hmin]. destruct (Z.ltb_spec q.2 p.2).
    + split; [by right|]. intros r [->|Hr]%elem_of_cons; [lia | by apply Hmin].
    + split; [by left|]. intros r [->|Hr]%elem_of_cons; [lia|].
      specialize (Hmin r Hr). lia.
  - subst l. split; [by left|]. by intros r ->%list_elem_of_singleton.
Qed.

Lemma stopTracking_timeouts_length w :
  (length (timeouts (stopTracking w)) ≤ length (timeouts w))%nat.
Proof. world_cases w; try done. all: apply length_filter. Qed.

(** With one round per pending timeout, [fireTimers] leaves no timeout
    that was due. *)
Lemma fireTimers_all_due fuel target w :
  (length (timeouts w) ≤ fuel)%nat →
  ∀ p, p ∈ timeouts (fireTimers fuel target w) → target < p.2.
Proof.
  assert (Hnow : ∀ t w, timeouts (set_now t w) = timeouts w) by by intros ? [].
  revert w. induction fuel as [|fuel IH]; intros w Hlen p; cbn [fireTimers].
  - rewrite Hnow. destruct (timeouts w); [|cbn in Hlen; lia].
    by intros ?%not_elem_of_nil.
  - pose proof (earliest_spec (timeouts w)) as He.
    destruct (earliest (timeouts w)) as [[h due]|].
    + destruct He as [Hin Hmin]. destruct (Z.leb_spec due target).
      * apply IH. unfold inactivityCallback.
        etrans; [apply stopTracking_timeouts_length|].
        assert (Hlt : (length (timeouts (Host.clearTimeout h
                           (set_now (Z.max (now w) due) w))) < length (timeouts w))%nat).
        { destruct w. exec. apply (length_filter_lt _ _ (h, due)); [done|].
          intros Hne. by apply Hne. }
        lia.
      * rewrite Hnow. intros Hp. specialize (Hmin p Hp). cbn in Hmin. lia.
    + rewrite Hnow, He. by intros ?%not_elem_of_nil.
Qed.

Lemma elapse_fires_all_due dt w :
  ∀ p, p ∈ timeouts (elapse dt w) → now w + dt < p.2.
Proof. by apply fireTimers_all_due. Qed.

Lemma fireTimers_now fuel target w : now (fireTimers fuel target w) = target.
Proof.
  revert w. induction fuel as [|fuel IH]; intros w; cbn [fireTimers]; [by destruct w|].
  destruct (earliest (timeouts w)) as [[h due]|]; [|by destruct w].
  destruct (due <=? target); [apply IH | by destruct w].
Qed.

End TimerLoop.

(** ** Reachable worlds *)

Section Reachable.

Implicit Types w : World.

Lemma resetStats_clockOk w : clockOk (resetStats w).
Proof. unfold clockOk. world_cases w; lia. Qed.

Lemma step_clockOk e w : forwardInTime e → clockOk w → clockOk (step e w).
Proof.
  intros He Hok. destruct e; try (by apply step_advances).
  apply resetStats_clockOk.
Qed.

(** Whatever happens to a tracker after its construction, with a clock that
    does not run backwards: a tracking run began no later than now, and the
    only timeout pending is the one the tracker holds. *)
Lemma reachable_invariants (host : World) (es : list Event) :
  timeouts host = [] → Forall forwardInTime es →
  clockOk (run es (new_TimeTracker host)) ∧
  timersOwned (run es (new_TimeTracker host)).
Proof.
  intros Hh Hes. split; [|by apply run_owned, new_TimeTracker_owned].
  pose proof (new_TimeTracker_clockOk host) as Hok. revert Hok.
  generalize (new_TimeTracker host). clear Hh.
  induction Hes as [|e es He _ IH]; intros w Hok; [done|].
  rewrite run_cons. by apply IH, step_clockOk.
Qed.

End Reachable.

Section InactivityWindow.

Implicit Types w : World.


End InactivityWindow.




(** ** Accumulating listeners *)

Section Listeners.

Implicit Types w : World.

Lemma quiet_refl w : quiet w w.
Proof. by split; [|left]. Qed.

Lemma quiet_trans w1 w2 w3 : quiet w1 w2 → quiet w2 w3 → quiet w1 w3.
Proof.
  intros [Hs1 Ht1] [Hs2 Ht2]. split; [congruence|].
  destruct Ht2 as [Ht2|Ht2]; [rewrite Ht2; exact Ht1 | by right].
Qed.

Lemma quiet_registers w w' : quiet w w' → registers w w'.
Proof.
  intros [Hs Ht]. unfold registers. rewrite Hs.
  destruct Ht as [->| ->]; destruct (isTracking (tracker w));
    cbn; by rewrite app_nil_r.
Qed.

Lemma resuming_registers w w' : resuming w w' → registers w w'.
Proof.
  intros [Hs Ht]. unfold registers. rewrite Hs, Ht.
  by destruct (isTracking (tracker w)).
Qed.

Lemma resuming_quiet w1 w2 w3 :
  subscriptions w2 = subscriptions w1 →
  isTracking (tracker w2) = isTracking (tracker w1) →
  resuming w2 w3 → resuming w1 w3.
Proof. intros Hs Ht [Hs' Ht']. split; [|done]. by rewrite Hs', Hs, Ht. Qed.

Lemma resuming_twice w1 w2 w3 : resuming w1 w2 → resuming w2 w3 → resuming w1 w3.
Proof.
  intros [Hs1 Ht1] [Hs2 Ht2]. split; [|done].
  by rewrite Hs2, Ht1, app_nil_r.
Qed.

Lemma startTracking_resuming w : resuming w (startTracking w).
Proof. split; world_cases w; by rewrite ?app_nil_r. Qed.

Lemma stopTracking_quiet w : quiet w (stopTracking w).
Proof. split; world_cases w; auto. Qed.

Lemma onActivity_quiet w : quiet w (onActivity w).
Proof. split; world_cases w; auto. Qed.

Lemma updateStatusBar_quiet w : quiet w (updateStatusBar w).
Proof. split; world_cases w; auto. Qed.

Lemma getStats_quiet w : quiet w (getStats w).2.
Proof. split; world_cases w; auto. Qed.

Lemma saveStats_quiet w : quiet w (saveStats w).
Proof. split; save_cases w; auto. Qed.

Lemma resetStats_quiet w : quiet w (resetStats w).
Proof. split; world_cases w; auto. Qed.

Lemma showStatistics_quiet w : quiet w (showStatistics w).
Proof.
  destruct (showStatistics_unfold w) as [msg ->].
  eapply quiet_trans; [apply saveStats_quiet|].
  eapply quiet_trans; [apply getStats_quiet|].
  generalize (getStats (saveStats w)).2. intros w'. split; world_cases w'; auto.
Qed.

Lemma dispose_quiet w : quiet w (dispose w).
Proof.
  eapply quiet_trans; [apply saveStats_quiet|].
  eapply quiet_trans; [apply stopTracking_quiet|].
  unfold dispose. cbv zeta. generalize (stopTracking (saveStats w)). intros w'.
  split; world_cases w'; auto.
Qed.

Lemma fireTimers_quiet fuel target w : quiet w (fireTimers fuel target w).
Proof.
  assert (Hnow : ∀ t w, quiet w (set_now t w)).
  { intros t w'. split; [|left]; by destruct w'. }
  revert w. induction fuel as [|fuel IH]; intros w; cbn [fireTimers]; [done|].
  destruct (earliest (timeouts w)) as [[h due]|]; [|done].
  destruct (due <=? target); [|done].
  eapply quiet_trans; [|apply IH].
  eapply quiet_trans; [apply (Hnow (Z.max (now w) due))|].
  eapply quiet_trans; [|apply stopTracking_quiet].
  generalize (set_now (Z.max (now w) due) w). intros w'.
  split; [|left]; by destruct w'.
Qed.

Lemma selectionChangeListener_resuming w : resuming w (selectionChangeListener w).
Proof.
  unfold selectionChangeListener. destruct (onActivity_fields w) as (_ & Ht & _ & _ & _ & _ & Hs).
  destruct (isTracking (tracker (onActivity w))) eqn:E; cbn [negb].
  - split; [|done]. by rewrite Hs, <- Ht, app_nil_r.
  - eapply resuming_quiet; [exact Hs | by rewrite E | apply startTracking_resuming].
Qed.

Lemma textChangeListener_resuming n w :
  textChangeListener n w = w ∨ resuming w (textChangeListener n w).
Proof.
  unfold textChangeListener. case_decide; [right | by left].
  apply selectionChangeListener_resuming.
Qed.

Lemma foldl_resuming {A} (f : World → A → World) (l : list A) w :
  (∀ w a, f w a = w ∨ resuming w (f w a)) →
  foldl f w l = w ∨ resuming w (foldl f w l).
Proof.
  intros Hf. revert w. induction l as [|a l IH]; intros w; cbn [foldl]; [by left|].
  destruct (Hf w a) as [->|H1]; [apply IH|]. right.
  destruct (IH (f w a)) as [->|H2]; [done | by eapply resuming_twice].
Qed.

Lemma registers_or w w' : w' = w ∨ resuming w w' → registers w w'.
Proof.
  intros [->|H]; [apply quiet_registers, quiet_refl | by apply resuming_registers].
Qed.

(** Every event either registers nothing or, going from paused to
    tracking, appends one pair. *)
Lemma step_registers e w : registers w (step e w).
Proof.
  destruct e; cbn [step];
    auto using quiet_registers, resuming_registers, startTracking_resuming,
      stopTracking_quiet, onActivity_quiet, saveStats_quiet, getStats_quiet,
      resetStats_quiet, showStatistics_quiet, dispose_quiet.
  - apply registers_or, foldl_resuming. intros w' [| | |]; auto.
    apply textChangeListener_resuming.
  - apply registers_or, foldl_resuming. intros w' [| | |]; auto.
    right. apply selectionChangeListener_resuming.
  - apply quiet_registers. destruct (intervals w);
      [apply quiet_refl | apply updateStatusBar_quiet].
  - apply quiet_registers, fireTimers_quiet.
Qed.

Lemma run_listeners es w :
  textListeners (run es w) = (textListeners w + resumes es w)%nat ∧
  selectionListeners (run es w) = (selectionListeners w + resumes es w)%nat ∧
  subscriptions w `prefix_of` subscriptions (run es w).
Proof.
  revert w. induction es as [|e es IH]; intros w.
  - cbn [resumes]. rewrite !Nat.add_0_r. done.
  - rewrite run_cons. destruct (IH (step e w)) as (Ht & Hs & Hp).
    pose proof (step_registers e w) as Hr. unfold registers in Hr.
    cbn [resumes]. rewrite Ht, Hs. unfold textListeners, selectionListeners.
    assert (H1 : length (filter (λ d, d = TextChangeSub) listenerPair) = 1%nat)
      by reflexivity.
    assert (H2 : length (filter (λ d, d = SelectionChangeSub) listenerPair) = 1%nat)
      by reflexivity.
    split; [|split].
    + rewrite Hr at 1. rewrite filter_app, length_app.
      destruct (negb _ && _); [rewrite H1 | cbn]; lia.
    + rewrite Hr at 1. rewrite filter_app, length_app.
      destruct (negb _ && _); [rewrite H2 | cbn]; lia.
    + etrans; [|exact Hp]. rewrite Hr. by apply prefix_app_r.
Qed.

(** Delivering an event runs the listener once per registration. *)
Lemma foldl_listeners (d0 : Disposable) (g : World → World) (l : list Disposable) w :
  foldl (λ w d, if decide (d = d0) then g w else w) w l
  = Nat.iter (length (filter (λ d, d = d0) l)) g w.
Proof.
  revert w. induction l as [|d l IH]; intros w; [done|].
  cbn [foldl]. rewrite filter_cons. case_decide.
  - cbn [length]. rewrite Nat.iter_succ_r. apply IH.
  - apply IH.
Qed.

Lemma fireSelectionChange_iter w :
  fireSelectionChange w = Nat.iter (selectionListeners w) selectionChangeListener w.
Proof.
  unfold selectionListeners. rewrite <- foldl_listeners. unfold fireSelectionChange.
  generalize (subscriptions w). intros l. revert w.
  induction l as [|d l IH]; intros w; [done|].
  cbn [foldl]. rewrite <- IH. by destruct d.
Qed.

Lemma fireTextChange_iter n w :
  fireTextChange n w = Nat.iter (textListeners w) (textChangeListener n) w.
Proof.
  unfold textListeners. rewrite <- foldl_listeners. unfold fireTextChange.
  generalize (subscriptions w). intros l. revert w.
  induction l as [|d l IH]; intros w; [done|].
  cbn [foldl]. rewrite <- IH. by destruct d.
Qed.

(** While tracking, a listener's whole effect is its [onActivity]. *)
Lemma iter_listener_tracking (f : World → World) k w :
  (∀ w, isTracking (tracker w) = true → f w = onActivity w) →
  isTracking (tracker w) = true →
  Nat.iter k f w = Nat.iter k onActivity w ∧
  isTracking (tracker (Nat.iter k f w)) = true.
Proof.
  intros Hf Ht. induction k as [|k [IH1 IH2]]; [done|].
  rewrite !Nat.iter_succ, (Hf _ IH2), IH1. split; [done|].
  destruct (onActivity_fields (Nat.iter k onActivity w)) as (_ & -> & _).
  by rewrite <- IH1.
Qed.

Lemma selectionChangeListener_tracking w :
  isTracking (tracker w) = true → selectionChangeListener w = onActivity w.
Proof.
  intros Ht. unfold selectionChangeListener.
  destruct (onActivity_fields w) as (_ & -> & _). by rewrite Ht.
Qed.

Lemma textChangeListener_tracking n w :
  isTracking (tracker w) = true → textChangeListener (S n) w = onActivity w.
Proof.
  intros Ht. unfold textChangeListener. rewrite decide_True by lia.
  by apply selectionChangeListener_tracking.
Qed.

End Listeners.

(** C10.  A [startTracking] that finds the tracker paused appends a new
    text-change and selection-change registration to
    [context.subscriptions] and removes none.  Over any run the number of
    listeners of each kind grows by the number of paused-to-tracking steps
    (the constructor's own start being the first), and what was registered
    stays registered.  One event runs the listener once per registration;
    while tracking, that is one [onActivity] per registration. *)
Theorem listeners_accumulate (w : World) (es : list Event) :
  (isTracking (tracker w) = false →
   subscriptions (startTracking w)
   = subscriptions w ++ [TextChangeSub; SelectionChangeSub]) ∧
  textListeners (run es w) = (textListeners w + resumes es w)%nat ∧
  selectionListeners (run es w) = (selectionListeners w + resumes es w)%nat ∧
  textListeners (run es (new_TimeTracker w))
  = (textListeners w + 1 + resumes es (new_TimeTracker w))%nat ∧
  subscriptions w `prefix_of` subscriptions (run es w) ∧
  fireSelectionChange w
  = Nat.iter (selectionListeners w) selectionChangeListener w ∧
  (∀ n, fireTextChange n w = Nat.iter (textListeners w) (textChangeListener n) w) ∧
  (isTracking (tracker w) = true →
   fireSelectionChange w = Nat.iter (selectionListeners w) onActivity w ∧
   ∀ n, fireTextChange (S n) w = Nat.iter (textListeners w) onActivity w).
Proof.
  destruct (run_listeners es w) as (Ht & Hs & Hp).
  split; [|split; [|split; [|split; [|split; [|split; [|split]]]]]]; try done.
  - intros Hpaused. destruct (startTracking_resuming w) as [-> _].
    by rewrite Hpaused.
  - destruct (run_listeners es (new_TimeTracker w)) as (-> & _).
    f_equal. clear. unfold textListeners. world_cases w.
    by rewrite filter_app, length_app.
  - apply fireSelectionChange_iter.
  - intros n. apply fireTextChange_iter.
  - intros Htr. split; [|intros n].
    + rewrite fireSelectionChange_iter.
      by apply iter_listener_tracking; [apply selectionChangeListener_tracking|].
    + rewrite fireTextChange_iter.
      by apply iter_listener_tracking; [apply textChangeListener_tracking|].
Qed.

(** Witness of [listeners_accumulate]: pause and resume the example tracker
    twice, then deliver one selection change to its three listeners. *)
Lemma listeners_accumulate_witness :
  isTracking (tracker (stopTracking demo)) = false ∧
  subscriptions (startTracking (stopTracking demo))
  = [TextChangeSub; SelectionChangeSub; TextChangeSub; SelectionChangeSub] ∧
  (let w := run [Stop; SelectionChanged; Elapse 20000; TextChanged 1] demo in
   isTracking (tracker w) = true ∧
   selectionListeners w = 3%nat ∧
   fireSelectionChange w = onActivity (onActivity (onActivity w))).
Proof.
  split; [vm_compute; reflexivity|]. split.
  - apply (proj1 (listeners_accumulate (stopTracking demo) [])).
    vm_compute; reflexivity.
  - cbv zeta.
    assert (Htr : isTracking (tracker
              (run [Stop; SelectionChanged; Elapse 20000; TextChanged 1] demo)) = true)
      by (vm_compute; reflexivity).
    assert (Hn : selectionListeners
              (run [Stop; SelectionChanged; Elapse 20000; TextChanged 1] demo) = 3%nat)
      by (vm_compute; reflexivity).
    split; [exact Htr|]. split; [exact Hn|].
    destruct (listeners_accumulate
                (run [Stop; SelectionChanged; Elapse 20000; TextChanged 1] demo) [])
      as (_ & _ & _ & _ & _ & _ & _ & H).
    destruct (H Htr) as [-> _]. rewrite Hn. reflexivity.
Defined.

(** ** Saving, first and later *)

Section FirstSave.

Implicit Types w : World.

Lemma persisted_set_now t w : persisted (set_now t w) = persisted w.
Proof. by destruct w. Qed.

Lemma persisted_stopTracking w : persisted (stopTracking w) = persisted w.
Proof. world_cases w; done. Qed.

(** After any save the baseline is the session time of that moment. *)
Lemma saveStats_baseline w :
  lastSaveTime (tracker (saveStats w)) = currentTotalSessionTime w ∧
  currentTotalSessionTime (saveStats w) = currentTotalSessionTime w.
Proof. save_cases w; done. Qed.

(** A fresh tracker: nothing pending, baseline at its zero sentinel. *)
Lemma new_TimeTracker_fresh w :
  timeouts w = [] →
  timeouts (new_TimeTracker w) = [] ∧
  lastSaveTime (tracker (new_TimeTracker w)) = 0%Qc ∧
  isTracking (tracker (new_TimeTracker w)) = true ∧
  currentSessionTime (tracker (new_TimeTracker w)) = 0%Qc ∧
  startTime (tracker (new_TimeTracker w)) = now w.
Proof. intros H. rewrite <- H. world_cases w; done. Qed.

Lemma new_TimeTracker_now w : now (new_TimeTracker w) = now w.
Proof. world_cases w; done. Qed.

Lemma persisted_total_fresh w :
  lastSaveTime (tracker w) = 0%Qc →
  WorkspaceStats.totalTime (persisted (saveStats w))
  = WorkspaceStats.totalTime (persisted w).
Proof.
  intros H. rewrite persisted_saveStats, savedDelta_fresh by done.
  destruct (reachesStore w); [ring | done].
Qed.

Lemma persisted_total_baseline w :
  lastSaveTime (tracker w) = currentTotalSessionTime w →
  WorkspaceStats.totalTime (persisted (saveStats w))
  = WorkspaceStats.totalTime (persisted w).
Proof.
  intros H. rewrite persisted_saveStats, savedDelta_baseline by done.
  destruct (reachesStore w); [ring | done].
Qed.

(** Pausing at the baseline, then waiting: the baseline still equals the
    session time. *)
Lemma paused_keeps_baseline t w :
  lastSaveTime (tracker w) = currentTotalSessionTime w →
  let w' := set_now t (stopTracking w) in
  lastSaveTime (tracker w') = currentTotalSessionTime w' ∧
  persisted w' = persisted w ∧
  timeouts w' ⊆ timeouts w.
Proof.
  intros H. cbv zeta. rewrite persisted_set_now, persisted_stopTracking.
  split; [|split; [done|]].
  - revert H. world_cases w; done.
  - clear H. world_cases w; try done.
    all: intros p Hp; by apply list_elem_of_filter in Hp as [_ ?].
Qed.

Lemma ms_to_s_neq_0 (d : Z) : d ≠ 0 → (JS.num d / JS.num 1000)%Qc ≠ 0%Qc.
Proof.
  intros Hd H. apply Hd.
  assert (H' : JS.num d = 0%Qc).
  { transitivity (JS.num d / JS.num 1000 * JS.num 1000)%Qc;
      [field; apply num_1000_neq_0 | rewrite H; ring]. }
  apply Q2Qc_eq_iff in H'. by apply (inject_Z_injective d 0) in H'.
Qed.

Lemma saveStats_fields w :
  now (saveStats w) = now w ∧
  isTracking (tracker (saveStats w)) = isTracking (tracker w) ∧
  startTime (tracker (saveStats w)) = startTime (tracker w) ∧
  currentSessionTime (tracker (saveStats w)) = currentSessionTime (tracker w) ∧
  timeouts (saveStats w) = timeouts w ∧
  storeWritable (saveStats w) = storeWritable w.
Proof. save_cases w; done. Qed.

(** The tracker [d] ms after its construction at [t0]. *)
Lemma new_TimeTracker_later d w :
  timeouts w = [] →
  let w' := set_now (now w + d) (new_TimeTracker w) in
  elapse d (new_TimeTracker w) = w' ∧
  timeouts w' = [] ∧
  lastSaveTime (tracker w') = 0%Qc ∧
  currentTotalSessionTime w' = (JS.num d / JS.num 1000)%Qc ∧
  persisted w' = persisted (new_TimeTracker w) ∧
  storeWritable w' = storeWritable w.
Proof.
  intros H. cbv zeta. destruct (new_TimeTracker_fresh w H) as (Hto & _).
  rewrite (elapse_none d _ Hto), new_TimeTracker_now.
  split; [done|]. rewrite persisted_set_now. revert H. world_cases w; intros ->.
  repeat split.
  replace (now0 + d - now0) with d by lia. ring.
Qed.

End FirstSave.

(** C2, as the code has it.  For a tracker constructed at any time, in any
    store: the first [saveStats], whenever it comes, leaves the stored
    [totalTime] as it was and only sets the in-memory baseline to the session
    time of that moment ([getStats], called first, finds the baseline at 0
    and moves it there).  After a [stopTracking] at that moment, a later
    [saveStats] leaves the stored [totalTime] unchanged again.  Had the
    tracker kept tracking instead, a later save into a writable store would
    have added the difference between the session time of that moment,
    [(d1 + d2) / 1000], and the baseline left by the first save,
    [d1 / 1000]. *)
Theorem first_save_sets_baseline
    (t0 : Z) (store : gmap string WorkspaceStats.t) (writable : bool)
    (folders : option (list string)) (d1 d2 : Z) :
  let w0 := new_TimeTracker (freshHost t0 store writable folders) in
  let w1 := run [Elapse d1; Save] w0 in
  let w2 := run [Stop; Elapse d2; Save] w1 in
  WorkspaceStats.totalTime (persisted w1) = WorkspaceStats.totalTime (persisted w0) ∧
  lastSaveTime (tracker w1) = (JS.num d1 / JS.num 1000)%Qc ∧
  WorkspaceStats.totalTime (persisted w2) = WorkspaceStats.totalTime (persisted w1) ∧
  (writable = true → d1 ≠ 0 →
   WorkspaceStats.totalTime (persisted (run [Elapse d2; Save] w1))
   = (WorkspaceStats.totalTime (persisted w0)
      + (JS.num (d1 + d2) / JS.num 1000 - JS.num d1 / JS.num 1000))%Qc).
Proof.
  intros w0 w1 w2. subst w2 w1 w0. unfold run. cbn [foldl step].
  destruct (new_TimeTracker_later d1 (freshHost t0 store writable folders) eq_refl)
    as (-> & Hto & Hls & Hcur & Hp & Hwr).
  change (now (freshHost t0 store writable folders)) with t0 in *.
  change (storeWritable (freshHost t0 store writable folders)) with writable in *.
  set (w0 := new_TimeTracker (freshHost t0 store writable folders)) in *.
  set (wa := set_now (t0 + d1) w0) in *.
  destruct (saveStats_fields wa) as (Hn1 & Ht1 & Hs1 & Hc1 & Hto1 & Hwr1).
  destruct (saveStats_baseline wa) as (Hb1 & He1).
  assert (Hfirst : WorkspaceStats.totalTime (persisted (saveStats wa))
                   = WorkspaceStats.totalTime (persisted w0)).
  { by rewrite persisted_total_fresh, Hp. }
  split; [exact Hfirst|]. split; [by rewrite Hb1|]. split.
  - destruct (paused_keeps_baseline (now (stopTracking (saveStats wa)) + d2)
                (saveStats wa)) as (Hb & Hp2 & Hsub).
    { by rewrite Hb1, He1. }
    rewrite elapse_none.
    + by rewrite persisted_total_baseline, Hp2.
    + destruct (set_now_fields (now (stopTracking (saveStats wa)) + d2)
                  (stopTracking (saveStats wa))) as (_ & _ & Heq & _).
      rewrite Heq, Hto1, Hto in Hsub.
      destruct (timeouts (stopTracking (saveStats wa))) as [|p l]; [done|].
      specialize (Hsub p (list_elem_of_here _ _)). by apply not_elem_of_nil in Hsub.
  - intros -> Hd1. rewrite elapse_none by by rewrite Hto1.
    rewrite persisted_saveStats, persisted_set_now, Hfirst.
    assert (Hne : lastSaveTime (tracker (saveStats wa)) ≠ 0%Qc).
    { rewrite Hb1, Hcur. by apply ms_to_s_neq_0. }
    assert (Hd : savedDelta (set_now (now (saveStats wa) + d2) (saveStats wa))
                 = (JS.num (d1 + d2) / JS.num 1000 - JS.num d1 / JS.num 1000)%Qc).
    { assert (Htrk : isTracking (tracker wa) = true) by reflexivity.
      assert (Hst : startTime (tracker wa) = t0) by reflexivity.
      assert (Hc0 : currentSessionTime (tracker wa) = 0%Qc) by reflexivity.
      rewrite Htrk in Ht1. rewrite Hst in Hs1. rewrite Hc0 in Hc1.
      assert (Hnow : now wa = t0 + d1) by reflexivity. rewrite Hnow in Hn1.
      rewrite Hcur in Hb1. clear - Hne Hn1 Ht1 Hs1 Hc1 Hb1.
      revert Hne Hn1 Ht1 Hs1 Hc1 Hb1. generalize (saveStats wa). clear. intros w.
      destruct_world w. exec. intros Hne -> -> -> -> ->.
      rewrite decide_False by done.
      replace (t0 + d1 + d2 - t0) with (d1 + d2) by lia. ring. }
    assert (Hw : reachesStore (set_now (now (saveStats wa) + d2) (saveStats wa))
                 = true).
    { apply reachesStore_writable.
      transitivity (storeWritable (saveStats wa)); [by destruct (saveStats wa)|].
      by rewrite Hwr1. }
    by rewrite Hd, Hw.
Qed.

(** Witness of [first_save_sets_baseline]: the example tracker, saved at
    10 s and again at 15 s while still tracking. *)
Lemma first_save_sets_baseline_witness :
  WorkspaceStats.totalTime
    (persisted (run [Elapse 5000; Save] (run [Elapse 10000; Save] demo)))
  = (WorkspaceStats.totalTime (persisted demo)
     + (JS.num (10000 + 5000) / JS.num 1000 - JS.num 10000 / JS.num 1000))%Qc.
Proof.
  pose proof (first_save_sets_baseline 0 ∅ true (Some ["file:///home/u/proj"])
                10000 5000) as H.
  cbv zeta in H. destruct H as (_ & _ & _ & H).
  unfold demo, demoHost. apply H; [reflexivity | lia].
Defined.

(** C2, against the claim as stated: tracking starts at time 0 and the first
    [saveStats] comes at 10 s, with 10 s of session time on the clock; the
    stored [totalTime] is 0 before and 0 after, not 10. *)
Lemma first_save_adds_nothing :
  currentTotalSessionTime (run [Elapse 10000] demo) = JS.num 10 ∧
  WorkspaceStats.totalTime (persisted demo) = 0%Qc ∧
  WorkspaceStats.totalTime (persisted (run [Elapse 10000; Save] demo)) = 0%Qc ∧
  WorkspaceStats.totalTime (persisted (run [Elapse 10000; Save] demo))
  ≠ (WorkspaceStats.totalTime (persisted demo) + JS.num 10)%Qc.
Proof.
  split; [|split; [|split]].
  - apply Qc_is_canon. vm_compute. reflexivity.
  - apply Qc_is_canon. vm_compute. reflexivity.
  - apply Qc_is_canon. vm_compute. reflexivity.
  - intros H. apply (f_equal this) in H. vm_compute in H. discriminate H.
Qed.

(** ** Resetting *)

(** C8.  Right after [resetStats], whatever had accumulated: the session time
    is 0, the in-memory [currentSessionTime] and [lastSaveTime] are 0,
    [startTime] is now, and the tracking flag and the clock are as before;
    the record written is [{ totalTime: 0, lastSaveTime: now }], so that in a
    store that takes the write [getStats] returns a [totalTime] of 0 and a
    [lastSaveTime] of now, and the session time is still 0 after that read. *)
Theorem reset_restarts_accounting (w : World) :
  storeWritable w = true →
  let w' := resetStats w in
  WorkspaceStats.totalTime (getStats w').1 = 0%Qc ∧
  WorkspaceStats.lastSaveTime (getStats w').1 = now w ∧
  currentTotalSessionTime w' = 0%Qc ∧
  currentTotalSessionTime (getStats w').2 = 0%Qc ∧
  currentSessionTime (tracker w') = 0%Qc ∧
  lastSaveTime (tracker w') = 0%Qc ∧
  startTime (tracker w') = now w ∧
  isTracking (tracker w') = isTracking (tracker w) ∧
  now w' = now w.
Proof.
  intros Hw. cbv zeta.
  assert (Hel : currentTotalSessionTime (resetStats w) = 0%Qc).
  { clear Hw. world_cases w; try done. all: rewrite Z.sub_diag, ms_to_s_0; ring. }
  rewrite currentTotalSessionTime_getStats.
  split; [|split; [|split; [exact Hel|split; [exact Hel|]]]].
  - revert Hw. destruct_world w. exec. intros ->. by rewrite lookup_insert_eq.
  - revert Hw. destruct_world w. exec. intros ->. by rewrite lookup_insert_eq.
  - clear. world_cases w; done.
Qed.

(** Witness of [reset_restarts_accounting]: the example tracker after a
    session with saves. *)
Lemma reset_restarts_accounting_witness :
  storeWritable (run [Elapse 7000; Save; Elapse 3000; Save] demo) = true ∧
  WorkspaceStats.totalTime
    (getStats (resetStats (run [Elapse 7000; Save; Elapse 3000; Save] demo))).1 = 0%Qc.
Proof.
  assert (H : storeWritable (run [Elapse 7000; Save; Elapse 3000; Save] demo) = true)
    by (vm_compute; reflexivity).
  split; [exact H|].
  apply (reset_restarts_accounting _ H).
Defined.

(** ** Workspaces *)

Section Workspaces.

Lemma workspaceKey_inj (a b : string) : "stats_" +:+ a = "stats_" +:+ b → a = b.
Proof. intros H. by simplify_eq/=. Qed.

End Workspaces.

(** C9.  The storage key is ["stats_"] followed by the workspace identity
    (the first folder's URI, or ["global"]), so two worlds use the same key
    exactly when their identities are equal.  A [resetStats] under one
    identity leaves the record stored under any other identity as it was:
    the lookup at the other key, and what a tracker of the other workspace
    reads with [getStats], are unchanged. *)
Theorem reset_leaves_other_workspaces (w : World) (foldersB : option (list string)) :
  workspaceIdentity foldersB ≠ workspaceIdentity (workspaceFolders w) →
  (∀ w1 w2, getWorkspaceKey w1 = getWorkspaceKey w2 ↔
            workspaceIdentity (workspaceFolders w1)
            = workspaceIdentity (workspaceFolders w2)) ∧
  globalState (resetStats w) !! ("stats_" +:+ workspaceIdentity foldersB)
  = globalState w !! ("stats_" +:+ workspaceIdentity foldersB) ∧
  persisted (set_workspaceFolders foldersB (resetStats w))
  = persisted (set_workspaceFolders foldersB w).
Proof.
  intros Hne.
  assert (Hk : "stats_" +:+ workspaceIdentity (workspaceFolders w)
               ≠ "stats_" +:+ workspaceIdentity foldersB).
  { intros H. apply workspaceKey_inj in H. congruence. }
  split; [|split].
  - intros w1 w2. unfold getWorkspaceKey. split; [apply workspaceKey_inj | congruence].
  - revert Hk. clear. destruct_world w. exec. intros Hk.
    destruct storeWritable0; [|done]. by rewrite lookup_insert_ne.
  - revert Hk. clear. destruct_world w. exec. intros Hk.
    destruct storeWritable0; [|done]. by rewrite lookup_insert_ne.
Qed.

(** Witness of [reset_leaves_other_workspaces]: a store holding 100 s for
    each of two folders; the tracker of the first one resets. *)
Lemma reset_leaves_other_workspaces_witness :
  let store : gmap string WorkspaceStats.t :=
    <["stats_file:///a" := WorkspaceStats.mk (JS.num 100) 1]>
      (<["stats_file:///b" := WorkspaceStats.mk (JS.num 100) 2]> ∅) in
  let w := new_TimeTracker (freshHost 5000 store true (Some ["file:///a"])) in
  workspaceIdentity (Some ["file:///b"]) ≠ workspaceIdentity (workspaceFolders w) ∧
  WorkspaceStats.totalTime (persisted (resetStats w)) = 0%Qc ∧
  persisted (set_workspaceFolders (Some ["file:///b"]) (resetStats w))
  = persisted (set_workspaceFolders (Some ["file:///b"]) w).
Proof.
  cbv zeta.
  assert (H : workspaceIdentity (Some ["file:///b"])
              ≠ workspaceIdentity (Some ["file:///a"]))
    by (vm_compute; discriminate).
  split; [exact H|]. split; [vm_compute; reflexivity|].
  apply reset_leaves_other_workspaces. exact H.
Defined.

(** ** Formatting *)

Section Formatting.

Lemma Qfloor_Qred (q : Q) : Qfloor (Qred q) = Qfloor q.
Proof. apply Qfloor_comp, Qred_correct. Qed.

(** Dividing by a positive integer commutes with taking the floor. *)
Lemma floor_div (x : Qc) (p : positive) :
  JS.Math_floor (x / JS.num (Zpos p))%Qc = JS.Math_floor x / Zpos p.
Proof.
  unfold JS.Math_floor, JS.num, Qcdiv, Qcmult, Qcinv. cbn [this Q2Qc].
  rewrite !Qfloor_Qred, !Qred_correct.
  destruct x as [[a b] Hc]. cbn [this].
  unfold Qfloor, Qmult, Qinv, inject_Z. cbn [Qnum Qden].
  rewrite Z.mul_1_r, Pos2Z.inj_mul. symmetry. apply Z.div_div; lia.
Qed.

(** Subtracting an integer commutes with taking the floor. *)
Lemma floor_sub (x : Qc) (z : Z) :
  JS.Math_floor (x - JS.num z)%Qc = JS.Math_floor x - z.
Proof.
  unfold JS.Math_floor, JS.num, Qcminus, Qcplus, Qcopp. cbn [this Q2Qc].
  rewrite !Qfloor_Qred, !Qred_correct.
  destruct x as [[a b] Hc]. cbn [this].
  unfold Qfloor, Qplus, Qopp, inject_Z. cbn [Qnum Qden].
  rewrite Z.mul_1_r, Pos.mul_1_r.
  replace (a + - z * Z.pos b) with (a + (- z) * Z.pos b) by lia.
  rewrite Z.div_add by lia. lia.
Qed.

Lemma num_mul (a b : Z) : JS.num (a * b) = (JS.num a * JS.num b)%Qc.
Proof.
  apply Qc_is_canon. unfold JS.num. cbn [this Q2Qc Qcmult].
  rewrite !Qred_correct, inject_Z_mult. reflexivity.
Qed.

Lemma div_num_nonneg (x : Qc) (p : positive) :
  (0 ≤ x)%Qc → (0 ≤ x / JS.num (Zpos p))%Qc.
Proof.
  unfold Qcle, Qcdiv, Qcmult, Qcinv, JS.num. cbn [this Q2Qc].
  rewrite !Qred_correct. intros H.
  apply Qmult_le_0_compat; [done|]. by apply Qinv_le_0_compat.
Qed.

(** For a non-negative dividend, [x % p] takes off the whole multiples of [p]. *)
Lemma rem_nonneg (x : Qc) (p : positive) :
  (0 ≤ x)%Qc →
  JS.rem x (JS.num (Zpos p))
  = (x - JS.num (Zpos p * (JS.Math_floor x / Zpos p)))%Qc.
Proof.
  intros H. unfold JS.rem, JS.trunc.
  rewrite decide_True by by apply div_num_nonneg.
  change (Qfloor (x / JS.num (Z.pos p))%Qc)
    with (JS.Math_floor (x / JS.num (Z.pos p))%Qc).
  by rewrite floor_div, num_mul.
Qed.

Lemma padStart_length (n : nat) (c : ascii) (s : string) :
  String.length (JS.padStart n c s) = (n `max` String.length s)%nat.
Proof.
  unfold JS.padStart.
  assert (Hr : ∀ k, String.length (JS.repeat_char c k) = k).
  { induction k as [|k IH]; [done|]. cbn. by rewrite IH. }
  assert (Ha : ∀ a b, String.length (a +:+ b)
                      = (String.length a + String.length b)%nat).
  { induction a as [|x a IH]; intros b; [done|].
    change (S (String.length (a +:+ b))
            = S (String.length a + String.length b)). by rewrite IH. }
  rewrite Ha, Hr. lia.
Qed.

(** The minutes and seconds fields are exactly two characters wide. *)
Lemma two_digits (m : Z) :
  0 ≤ m < 60 → String.length (JS.padStart 2 "0"%char (JS.toString m)) = 2%nat.
Proof.
  intros Hm.
  assert (Hall : forallb (λ m, String.length (JS.padStart 2 "0"%char (JS.toString m))
                               =? 2)%nat (seqZ 0 60) = true)
    by (vm_compute; reflexivity).
  rewrite forallb_forall in Hall.
  apply Nat.eqb_eq, Hall, list_elem_of_In, elem_of_seqZ. lia.
Qed.

Lemma floor_nonneg (x : Qc) : (0 ≤ x)%Qc → 0 ≤ JS.Math_floor x.
Proof. intros H. apply (Qfloor_resp_le 0 x H). Qed.

Lemma floor_num (z : Z) : JS.Math_floor (JS.num z) = z.
Proof.
  unfold JS.Math_floor, JS.num. cbn [this Q2Qc].
  rewrite Qfloor_Qred. apply Qfloor_Z.
Qed.

Lemma num_nonneg (z : Z) : 0 ≤ z → (0 ≤ JS.num z)%Qc.
Proof.
  intros H. unfold Qcle, JS.num. cbn [this Q2Qc]. rewrite !Qred_correct.
  change (inject_Z 0 <= inject_Z z)%Q. by rewrite <- Zle_Qle.
Qed.

Lemma floor_lt (x : Qc) (n : Z) : (x < JS.num n)%Qc → JS.Math_floor x < n.
Proof.
  intros H. unfold JS.Math_floor. rewrite Zlt_Qlt.
  eapply Qle_lt_trans; [apply Qfloor_le|].
  unfold Qclt, JS.num in H. cbn [this Q2Qc] in H. by rewrite Qred_correct in H.
Qed.

(** The three numbers [formatTime] prints. *)
Lemma formatTime_eq (seconds : Qc) :
  (0 ≤ seconds)%Qc →
  formatTime seconds
  = JS.padStart 2 "0"%char (JS.toString (JS.Math_floor seconds / 3600)) +:+ ":" +:+
    JS.padStart 2 "0"%char
      (JS.toString ((JS.Math_floor seconds `mod` 3600) / 60)) +:+ ":" +:+
    JS.padStart 2 "0"%char (JS.toString (JS.Math_floor seconds `mod` 60)).
Proof.
  intros H. unfold formatTime.
  rewrite (floor_div seconds 3600).
  rewrite (rem_nonneg seconds 3600 H), (rem_nonneg seconds 60 H).
  rewrite (floor_div _ 60), !floor_sub.
  by rewrite <- !Z.mod_eq by lia.
Qed.

End Formatting.

(** C5.  For a duration [0 <= seconds < 2^53] (the range in which a
    JavaScript number holds every whole second exactly and prints an integer
    as its decimal numeral), with [s] its whole seconds ([Math.floor]),
    [formatTime] prints three decimal fields separated by colons: hours
    [s / 3600], minutes [(s mod 3600) / 60] and seconds [s mod 60].  They
    decompose [s], minutes and seconds lie in 0..59 and take exactly two
    characters, and the hours are not reduced modulo anything: the field is
    the decimal numeral of [s / 3600], preceded by a zero only when it is
    shorter than two characters.  So [formatTime 0 = "00:00:00"],
    [formatTime 3661 = "01:01:01"] and [formatTime 360000 = "100:00:00"]. *)
Theorem formatTime_fields (seconds : Qc) :
  (0 ≤ seconds)%Qc → (seconds < JS.num (2 ^ 53))%Qc →
  let s := JS.Math_floor seconds in
  let h := s / 3600 in
  let m := (s `mod` 3600) / 60 in
  let sec := s `mod` 60 in
  formatTime seconds
  = JS.padStart 2 "0"%char (JS.toString h) +:+ ":" +:+
    JS.padStart 2 "0"%char (JS.toString m) +:+ ":" +:+
    JS.padStart 2 "0"%char (JS.toString sec) ∧
  formatTime seconds = formatTime (JS.num s) ∧
  s = 3600 * h + 60 * m + sec ∧
  0 ≤ s < 2 ^ 53 ∧
  0 ≤ h < 2 ^ 53 ∧ 0 ≤ m ≤ 59 ∧ 0 ≤ sec ≤ 59 ∧
  String.length (JS.padStart 2 "0"%char (JS.toString m)) = 2%nat ∧
  String.length (JS.padStart 2 "0"%char (JS.toString sec)) = 2%nat ∧
  String.length (JS.padStart 2 "0"%char (JS.toString h))
  = (2 `max` String.length (JS.toString h))%nat ∧
  JS.padStart 2 "0"%char (JS.toString h)
  = JS.repeat_char "0"%char (2 - String.length (JS.toString h)) +:+ JS.toString h ∧
  formatTime (JS.num 0) = "00:00:00" ∧
  formatTime (JS.num 3661) = "01:01:01" ∧
  formatTime (JS.num 360000) = "100:00:00".
Proof.
  intros H Hlt s h m sec.
  assert (Hs : 0 ≤ s < 2 ^ 53) by (split; [by apply floor_nonneg | by apply floor_lt]).
  assert (Hm : 0 ≤ m < 60) by (subst m; Z.div_mod_to_equations; lia).
  assert (Hsec : 0 ≤ sec < 60) by (subst sec; Z.div_mod_to_equations; lia).
  split; [by apply formatTime_eq|].
  split; [by rewrite (formatTime_eq (JS.num s)), floor_num, formatTime_eq
            by (done || apply num_nonneg, Hs)|].
  split; [subst h m sec; Z.div_mod_to_equations; lia|].
  split; [done|].
  split; [subst h; change (2 ^ 53) with 9007199254740992 in *;
          Z.div_mod_to_equations; lia|].
  split; [lia|]. split; [lia|].
  split; [by apply two_digits|]. split; [by apply two_digits|].
  split; [apply padStart_length|]. split; [reflexivity|].
  split; [|split]; vm_compute; reflexivity.
Qed.

(** Witness of [formatTime_fields]: one hour, one minute, one second and a
    half. *)
Lemma formatTime_fields_witness :
  (0 ≤ Q2Qc (36615 # 10))%Qc ∧ (Q2Qc (36615 # 10) < JS.num (2 ^ 53))%Qc ∧
  formatTime (Q2Qc (36615 # 10)) = formatTime (JS.num (JS.Math_floor (Q2Qc (36615 # 10)))).
Proof.
  assert (H : (0 ≤ Q2Qc (36615 # 10))%Qc) by (vm_compute; discriminate).
  assert (H' : (Q2Qc (36615 # 10) < JS.num (2 ^ 53))%Qc) by (vm_compute; reflexivity).
  split; [exact H|]. split; [exact H'|]. apply (formatTime_fields _ H H').
Defined.

(** ** An invariant principle

    A property of worlds kept by the primitive steps is kept by everything
    built from them. *)

Lemma run_invariant (P : World → Prop) (es : list Event) (w : World) :
  (∀ e w, P w → P (step e w)) → P w → P (run es w).
Proof.
  intros Hstep. revert w. induction es as [|e es IH]; intros w H; [done|].
  rewrite run_cons. by apply IH, Hstep.
Qed.

Section Preservation.

Variable P : World → Prop.

Hypothesis P_startTracking : ∀ w, P w → P (startTracking w).
Hypothesis P_stopTracking : ∀ w, P w → P (stopTracking w).
Hypothesis P_onActivity : ∀ w, P w → P (onActivity w).
Hypothesis P_saveStats : ∀ w, P w → P (saveStats w).
Hypothesis P_getStats : ∀ w, P w → P (getStats w).2.
Hypothesis P_resetStats : ∀ w, P w → P (resetStats w).
Hypothesis P_updateStatusBar : ∀ w, P w → P (updateStatusBar w).
Hypothesis P_showInformationMessage :
  ∀ msg w, P w → P (Host.showInformationMessage msg w).
Hypothesis P_disposeStatusBarItem : ∀ w, P w → P (disposeStatusBarItem w).
Hypothesis P_clearInactivityTimer : ∀ w, P w → P (clearInactivityTimer w).
Hypothesis P_clearUpdateInterval : ∀ w, P w → P (clearUpdateInterval w).
Hypothesis P_set_now : ∀ t w, P w → P (set_now t w).
Hypothesis P_clearTimeout : ∀ h w, P w → P (Host.clearTimeout h w).

Lemma showStatistics_preserves w : P w → P (showStatistics w).
Proof.
  intros H. destruct (showStatistics_unfold w) as [msg ->].
  by apply P_showInformationMessage, P_getStats, P_saveStats.
Qed.

Lemma dispose_preserves w : P w → P (dispose w).
Proof.
  intros H.
  by apply P_clearUpdateInterval, P_clearInactivityTimer,
    (P_disposeStatusBarItem (stopTracking (saveStats w))),
    P_stopTracking, P_saveStats.
Qed.

Lemma selectionChangeListener_preserves w : P w → P (selectionChangeListener w).
Proof.
  intros H. unfold selectionChangeListener. apply P_onActivity in H.
  destruct (negb _); [by apply P_startTracking | done].
Qed.

Lemma textChangeListener_preserves n w : P w → P (textChangeListener n w).
Proof.
  intros H. unfold textChangeListener. case_decide; [|done].
  by apply selectionChangeListener_preserves.
Qed.

Lemma foldl_preserves {A} (f : World → A → World) (l : list A) w :
  (∀ w a, P w → P (f w a)) → P w → P (foldl f w l).
Proof.
  intros Hf. revert w. induction l as [|a l IH]; intros w H; cbn [foldl]; [done|].
  by apply IH, Hf.
Qed.

Lemma fireSelectionChange_preserves w : P w → P (fireSelectionChange w).
Proof.
  apply foldl_preserves. intros w' [| | |]; auto using selectionChangeListener_preserves.
Qed.

Lemma fireTextChange_preserves n w : P w → P (fireTextChange n w).
Proof.
  apply foldl_preserves. intros w' [| | |]; auto using textChangeListener_preserves.
Qed.

Lemma fireTimers_preserves fuel target w : P w → P (fireTimers fuel target w).
Proof.
  revert w. induction fuel as [|fuel IH]; intros w H; cbn [fireTimers].
  - by apply P_set_now.
  - destruct (earliest (timeouts w)) as [[h due]|]; [|by apply P_set_now].
    destruct (due <=? target); [|by apply P_set_now].
    by apply IH, P_stopTracking, P_clearTimeout, P_set_now.
Qed.

Lemma step_preserves e w : P w → P (step e w).
Proof.
  destruct e; cbn [step];
    auto using showStatistics_preserves, dispose_preserves,
      fireTextChange_preserves, fireSelectionChange_preserves.
  - destruct (intervals w); auto.
  - apply fireTimers_preserves.
Qed.

Lemma run_preserves es w : P w → P (run es w).
Proof. apply run_invariant. intros e w'. apply step_preserves. Qed.

End Preservation.

(** ** Scheduled callbacks *)

Section Scheduling.

Implicit Types w : World.

Lemma length_filter_le {A} (Q : A → Prop) `{!∀ x, Decision (Q x)} (l : list A) n :
  (length l ≤ n)%nat → (length (filter Q l) ≤ n)%nat.
Proof. intros Hn. etrans; [apply length_filter | done]. Qed.

Lemma timerSingle_kept w w' :
  timeouts w' = timeouts w →
  inactivityTimer (tracker w') = inactivityTimer (tracker w) →
  timerSingle w → timerSingle w'.
Proof.
  intros Ht Hi [Ho Hl]. split; [|by rewrite Ht].
  revert Ho. apply owned_subset; [by rewrite Ht | done].
Qed.

Lemma timerSingle_nil w : timeouts w = [] → timerSingle w.
Proof. intros H. split; [by apply owned_nil | rewrite H; cbn; lia]. Qed.

Lemma startTracking_single w : timerSingle w → timerSingle (startTracking w).
Proof. apply timerSingle_kept; world_cases w; done. Qed.

Lemma clearInactivityTimer_single w : timerSingle w → timerSingle (clearInactivityTimer w).
Proof. intros [Ho _]. by apply timerSingle_nil, clearInactivityTimer_owned. Qed.

Lemma stopTracking_single w : timerSingle w → timerSingle (stopTracking w).
Proof.
  intros [Ho Hl]. split; [by apply stopTracking_owned|].
  etrans; [apply stopTracking_timeouts_length | done].
Qed.

Lemma onActivity_single w : timerSingle w → timerSingle (onActivity w).
Proof.
  intros [Ho _]. split; [by apply onActivity_owned|].
  destruct (onActivity_arms w Ho) as [-> _]. done.
Qed.

Lemma clearTimeout_single h w : timerSingle w → timerSingle (Host.clearTimeout h w).
Proof.
  intros [Ho Hl]. split.
  - revert Ho. apply owned_subset; [|by destruct w].
    destruct w. exec. intros p Hp. by apply list_elem_of_filter in Hp as [_ ?].
  - destruct w. exec. by apply length_filter_le.
Qed.

Lemma saveStats_single w : timerSingle w → timerSingle (saveStats w).
Proof. apply timerSingle_kept; save_cases w; done. Qed.

Lemma getStats_single w : timerSingle w → timerSingle (getStats w).2.
Proof. apply timerSingle_kept; world_cases w; done. Qed.

Lemma resetStats_single w : timerSingle w → timerSingle (resetStats w).
Proof. apply timerSingle_kept; world_cases w; done. Qed.

Lemma updateStatusBar_single w : timerSingle w → timerSingle (updateStatusBar w).
Proof. apply timerSingle_kept; world_cases w; done. Qed.

Lemma showInformationMessage_single msg w :
  timerSingle w → timerSingle (Host.showInformationMessage msg w).
Proof. apply timerSingle_kept; world_cases w; done. Qed.

Lemma disposeStatusBarItem_single w : timerSingle w → timerSingle (disposeStatusBarItem w).
Proof. apply timerSingle_kept; world_cases w; done. Qed.

Lemma clearUpdateInterval_single w : timerSingle w → timerSingle (clearUpdateInterval w).
Proof. apply timerSingle_kept; world_cases w; done. Qed.

Lemma set_now_single t w : timerSingle w → timerSingle (set_now t w).
Proof. apply timerSingle_kept; world_cases w; done. Qed.

(** Every step keeps [timerSingle]. *)
Lemma step_single e w : timerSingle w → timerSingle (step e w).
Proof.
  apply step_preserves;
    auto using startTracking_single, stopTracking_single, onActivity_single,
      saveStats_single, getStats_single, resetStats_single,
      updateStatusBar_single, showInformationMessage_single,
      disposeStatusBarItem_single, clearInactivityTimer_single,
      clearUpdateInterval_single, set_now_single, clearTimeout_single.
Qed.

End Scheduling.

Section Intervals.

Implicit Types w : World.

Lemma intervalLive_kept w w' :
  isTracking (tracker w') = isTracking (tracker w) →
  intervals w' = intervals w →
  updateInterval (tracker w') = updateInterval (tracker w) →
  intervalLive w → intervalLive w'.
Proof. unfold intervalLive. by intros -> -> ->. Qed.

Lemma startTracking_interval w : intervalLive w → intervalLive (startTracking w).
Proof.
  unfold intervalLive. open_world w. exec. destruct trk; [done|].
  intros [-> ->]. eauto.
Qed.

Lemma stopTracking_interval w :
  intervalLive w →
  isTracking (tracker (stopTracking w)) = false ∧
  intervals (stopTracking w) = [] ∧
  updateInterval (tracker (stopTracking w)) = None.
Proof.
  unfold intervalLive. open_world w. exec. destruct trk.
  - intros (h & -> & ->). destruct it; exec.
    all: by rewrite filter_cons, decide_False by (intros Hne; by apply Hne).
  - by intros [-> ->].
Qed.

Lemma stopTracking_interval_live w : intervalLive w → intervalLive (stopTracking w).
Proof.
  intros H. destruct (stopTracking_interval w H) as (Ht & Hi & Hu).
  unfold intervalLive. by rewrite Ht.
Qed.

Lemma clearUpdateInterval_interval w :
  isTracking (tracker w) = false → intervalLive w → intervalLive (clearUpdateInterval w).
Proof.
  unfold intervalLive. open_world w. exec. intros ->. by intros [-> ->].
Qed.

End Intervals.

Section IntervalsStep.

Implicit Types w : World.

Lemma onActivity_interval w : intervalLive w → intervalLive (onActivity w).
Proof. apply intervalLive_kept; world_cases w; done. Qed.

Lemma saveStats_interval w : intervalLive w → intervalLive (saveStats w).
Proof. apply intervalLive_kept; save_cases w; done. Qed.

Lemma getStats_interval w : intervalLive w → intervalLive (getStats w).2.
Proof. apply intervalLive_kept; world_cases w; done. Qed.

Lemma resetStats_interval w : intervalLive w → intervalLive (resetStats w).
Proof. apply intervalLive_kept; world_cases w; done. Qed.

Lemma updateStatusBar_interval w : intervalLive w → intervalLive (updateStatusBar w).
Proof. apply intervalLive_kept; world_cases w; done. Qed.

Lemma showInformationMessage_interval msg w :
  intervalLive w → intervalLive (Host.showInformationMessage msg w).
Proof. apply intervalLive_kept; world_cases w; done. Qed.

Lemma set_now_interval t w : intervalLive w → intervalLive (set_now t w).
Proof. apply intervalLive_kept; world_cases w; done. Qed.

Lemma clearTimeout_interval h w : intervalLive w → intervalLive (Host.clearTimeout h w).
Proof. apply intervalLive_kept; world_cases w; done. Qed.

(** What [dispose] does after its [saveStats] and [stopTracking]. *)
Lemma dispose_unfold w :
  dispose w
  = clearUpdateInterval
      (clearInactivityTimer (disposeStatusBarItem (stopTracking (saveStats w)))).
Proof. reflexivity. Qed.

Lemma dispose_interval w :
  intervalLive w →
  isTracking (tracker (dispose w)) = false ∧
  intervals (dispose w) = [] ∧
  updateInterval (tracker (dispose w)) = None.
Proof.
  intros H. apply saveStats_interval, stopTracking_interval in H.
  rewrite dispose_unfold. revert H. generalize (stopTracking (saveStats w)).
  clear. intros w (Ht & Hi & Hu). revert Ht Hi Hu. unfold disposeStatusBarItem.
  open_world w. exec. intros -> -> ->. by destruct it.
Qed.

Lemma step_interval e w : intervalLive w → intervalLive (step e w).
Proof.
  intros H. destruct e; cbn [step];
    auto using startTracking_interval, stopTracking_interval_live,
      onActivity_interval, saveStats_interval, getStats_interval, resetStats_interval.
  - apply showStatistics_preserves;
      auto using saveStats_interval, getStats_interval, showInformationMessage_interval.
  - destruct (dispose_interval w H) as (Ht & Hi & Hu). unfold intervalLive.
    by rewrite Ht.
  - apply fireTextChange_preserves;
      auto using onActivity_interval, startTracking_interval.
  - apply fireSelectionChange_preserves;
      auto using onActivity_interval, startTracking_interval.
  - destruct (intervals w); auto using updateStatusBar_interval.
  - unfold elapse. apply fireTimers_preserves;
      auto using set_now_interval, clearTimeout_interval, stopTracking_interval_live.
Qed.

Lemma new_TimeTracker_interval w : intervals w = [] → intervalLive (new_TimeTracker w).
Proof. unfold intervalLive. open_world w. exec. intros ->. eauto. Qed.

End IntervalsStep.

(** X3.  In every world a constructed tracker can reach, whatever the
    events: at most one inactivity timeout is pending and the tracker holds
    its handle; while tracking exactly one status-bar interval is live, the
    one the tracker holds; while paused none is live, so that a repaint tick
    finds nothing to run. *)
Theorem one_timer_of_each_kind (host : World) (es : list Event) :
  timeouts host = [] → intervals host = [] →
  let w := run es (new_TimeTracker host) in
  (length (timeouts w) ≤ 1)%nat ∧
  (∀ p, p ∈ timeouts w → inactivityTimer (tracker w) = Some p.1) ∧
  (isTracking (tracker w) = true →
   ∃ h, intervals w = [h] ∧ updateInterval (tracker w) = Some h) ∧
  (isTracking (tracker w) = false →
   intervals w = [] ∧ updateInterval (tracker w) = None ∧ step IntervalTick w = w).
Proof.
  intros Ht Hi. cbv zeta.
  assert (Hs : timerSingle (run es (new_TimeTracker host))).
  { apply run_invariant; [apply step_single|].
    apply timerSingle_nil. rewrite <- Ht. clear. world_cases host; done. }
  assert (Hl : intervalLive (run es (new_TimeTracker host))).
  { apply run_invariant; [apply step_interval | by apply new_TimeTracker_interval]. }
  destruct Hs as [Ho Hlen]. unfold intervalLive in Hl.
  split; [done|]. split; [exact Ho|]. split.
  - intros Htr. by rewrite Htr in Hl.
  - intros Hp. rewrite Hp in Hl. destruct Hl as [Hn Hu].
    split; [done|]. split; [done|]. cbn [step]. by rewrite Hn.
Qed.

(** Witness of [one_timer_of_each_kind]: the example tracker after activity,
    an idle minute and a repaint tick. *)
Lemma one_timer_of_each_kind_witness :
  timeouts demoHost = [] ∧ intervals demoHost = [] ∧
  isTracking (tracker (run [SelectionChanged; Elapse 60000; IntervalTick] demo)) = false ∧
  intervals (run [SelectionChanged; Elapse 60000; IntervalTick] demo) = [].
Proof.
  split; [reflexivity|]. split; [reflexivity|].
  assert (Hp : isTracking (tracker (run [SelectionChanged; Elapse 60000; IntervalTick] demo))
               = false) by (vm_compute; reflexivity).
  split; [exact Hp|].
  pose proof (one_timer_of_each_kind demoHost [SelectionChanged; Elapse 60000; IntervalTick]
                eq_refl eq_refl) as H.
  cbv zeta in H. destruct H as (_ & _ & _ & H). apply (H Hp).
Defined.

(** ** Disposal *)

Section Disposal.

Implicit Types w : World.

(** The last three steps of [dispose], on a tracker that is no longer
    tracking. *)
Lemma dispose_tail w :
  let x := clearUpdateInterval (clearInactivityTimer (disposeStatusBarItem w)) in
  now x = now w ∧
  isTracking (tracker x) = isTracking (tracker w) ∧
  startTime (tracker x) = startTime (tracker w) ∧
  currentSessionTime (tracker x) = currentSessionTime (tracker w) ∧
  lastSaveTime (tracker x) = lastSaveTime (tracker w) ∧
  inactivityTimer (tracker x) = None ∧
  updateInterval (tracker x) = None ∧
  shown (statusBarItem (tracker x)) = false ∧
  text (statusBarItem (tracker x)) = text (statusBarItem (tracker w)) ∧
  globalState x = globalState w ∧
  storeWritable x = storeWritable w ∧
  workspaceFolders x = workspaceFolders w ∧
  subscriptions x = subscriptions w ∧
  notifications x = notifications w.
Proof. unfold disposeStatusBarItem. world_cases w; done. Qed.

(** On a tracker already disposed of, the same three steps change nothing. *)
Lemma dispose_tail_id w :
  inactivityTimer (tracker w) = None → updateInterval (tracker w) = None →
  shown (statusBarItem (tracker w)) = false →
  clearUpdateInterval (clearInactivityTimer (disposeStatusBarItem w)) = w.
Proof.
  unfold disposeStatusBarItem. open_world w. exec. by intros -> -> ->.
Qed.

Lemma self_set_lastSaveTime_id w (v : Qc) :
  lastSaveTime (tracker w) = v → self (set_lastSaveTime v) w = w.
Proof. open_world w. exec. by intros ->. Qed.

(** A save that finds the baseline at the session time and its own record
    in the store changes nothing. *)
Lemma saveStats_id w :
  lastSaveTime (tracker w) = currentTotalSessionTime w →
  (reachesStore w = true →
   ∃ total, globalState w !! getWorkspaceKey w
            = Some (WorkspaceStats.mk total (now w))) →
  saveStats w = w.
Proof.
  intros Hb Hs. rewrite saveStats_shape, saveStats_store.
  rewrite (self_set_lastSaveTime_id w _ Hb).
  destruct (reachesStore w); [|by destruct w].
  destruct (Hs eq_refl) as [total Ht].
  unfold savedRecord. rewrite savedDelta_baseline by done.
  unfold persisted. rewrite getStats_fst, Ht.
  cbn [default from_option id WorkspaceStats.totalTime].
  replace (total + 0)%Qc with total by ring.
  rewrite insert_id by done. by destruct w.
Qed.

(** After a save that reaches the store the record of the workspace carries
    the time of the save. *)
Lemma saveStats_stamp w :
  reachesStore w = true →
  ∃ total, globalState (saveStats w) !! getWorkspaceKey w
           = Some (WorkspaceStats.mk total (now w)).
Proof.
  intros Hw. rewrite saveStats_store, Hw. eexists. apply lookup_insert_eq.
Qed.

(** A store that the save did not reach holds what it held. *)
Lemma saveStats_unreached w :
  reachesStore w = false → globalState (saveStats w) = globalState w.
Proof. intros Hw. by rewrite saveStats_store, Hw. Qed.

Lemma saveStats_live w : storeLive (saveStats w) = storeLive w.
Proof. rewrite saveStats_shape. by destruct w. Qed.

Lemma stopTracking_live w : storeLive (stopTracking w) = storeLive w.
Proof. world_cases w; done. Qed.

Lemma dispose_tail_live w :
  storeLive (clearUpdateInterval (clearInactivityTimer (disposeStatusBarItem w)))
  = storeLive w.
Proof. unfold disposeStatusBarItem. world_cases w; done. Qed.

Lemma stopTracking_fields w :
  now (stopTracking w) = now w ∧
  lastSaveTime (tracker (stopTracking w)) = lastSaveTime (tracker w) ∧
  globalState (stopTracking w) = globalState w ∧
  storeWritable (stopTracking w) = storeWritable w ∧
  workspaceFolders (stopTracking w) = workspaceFolders w ∧
  isTracking (tracker (stopTracking w)) = false.
Proof. world_cases w; done. Qed.

End Disposal.

Section DisposalFacts.

Implicit Types w : World.

Lemma stopTracking_paused w : isTracking (tracker w) = false → stopTracking w = w.
Proof. intros H. unfold stopTracking. by rewrite H. Qed.

Lemma saveStats_frame w :
  workspaceFolders (saveStats w) = workspaceFolders w ∧
  subscriptions (saveStats w) = subscriptions w ∧
  notifications (saveStats w) = notifications w ∧
  intervals (saveStats w) = intervals w ∧
  inactivityTimer (tracker (saveStats w)) = inactivityTimer (tracker w) ∧
  updateInterval (tracker (saveStats w)) = updateInterval (tracker w) ∧
  statusBarItem (tracker (saveStats w)) = statusBarItem (tracker w).
Proof. save_cases w; done. Qed.

(** What [dispose] leaves: a paused tracker whose baseline is its session
    time, with the record of the save in the store. *)
Lemma dispose_result w :
  let x := dispose w in
  now x = now w ∧
  isTracking (tracker x) = false ∧
  inactivityTimer (tracker x) = None ∧
  updateInterval (tracker x) = None ∧
  shown (statusBarItem (tracker x)) = false ∧
  lastSaveTime (tracker x) = currentTotalSessionTime w ∧
  currentTotalSessionTime x = currentTotalSessionTime w ∧
  storeWritable x = storeWritable w ∧
  workspaceFolders x = workspaceFolders w ∧
  globalState x = globalState (saveStats w).
Proof.
  cbv zeta. rewrite dispose_unfold.
  destruct (dispose_tail (stopTracking (saveStats w)))
    as (Hn & Ht & Hst & Hc & Hl & Hi & Hu & Hsh & _ & Hg & Hw & Hf & _).
  destruct (stopTracking_fields (saveStats w)) as (Hn' & Hl' & Hg' & Hw' & Hf' & Ht').
  destruct (saveStats_fields w) as (Hn'' & _ & _ & _ & _ & Hw'').
  destruct (saveStats_baseline w) as (Hb & He).
  destruct (saveStats_frame w) as (Hf'' & _).
  rewrite Hn, Hn', Hn'', Ht, Ht', Hi, Hu, Hsh, Hl, Hl', Hb, Hw, Hw', Hw'', Hf, Hf', Hf'',
    Hg, Hg'.
  repeat (split; [done|]). split; [|done].
  assert (Ez : currentTotalSessionTime (stopTracking (saveStats w))
               = currentSessionTime (tracker (stopTracking (saveStats w)))).
  { unfold currentTotalSessionTime. by rewrite Ht'. }
  transitivity (currentTotalSessionTime (stopTracking (saveStats w))).
  - rewrite Ez. unfold currentTotalSessionTime. by rewrite Ht, Ht', Hc.
  - by rewrite stopTracking_session, He.
Qed.

End DisposalFacts.

(** X2.  Disposing of a tracker twice is disposing of it once: the second
    [dispose] saves a zero delta over the record just written, finds the
    tracker paused and both handles cleared, and returns the world it was
    given. *)
Theorem dispose_idempotent (w : World) : dispose (dispose w) = dispose w.
Proof.
  destruct (dispose_result w)
    as (Hn & Ht & Hi & Hu & Hsh & Hl & He & Hw & Hf & Hg).
  rewrite (dispose_unfold (dispose w)).
  rewrite (saveStats_id (dispose w)).
  - rewrite (stopTracking_paused _ Ht). by apply dispose_tail_id.
  - by rewrite Hl, He.
  - intros Hr.
    assert (Hk : getWorkspaceKey (dispose w) = getWorkspaceKey w)
      by (unfold getWorkspaceKey; by rewrite Hf).
    assert (Hlv : storeLive (dispose w) = storeLive w).
    { rewrite dispose_unfold, dispose_tail_live, stopTracking_live.
      apply saveStats_live. }
    assert (Hr' : reachesStore w = true).
    { destruct (reachesStore w) eqn:Hr0; [done|].
      pose proof (saveStats_unreached w Hr0) as Hu0.
      rewrite (reachesStore_eq w (dispose w)) in Hr by congruence. congruence. }
    destruct (saveStats_stamp w Hr') as [total Hs].
    exists total. by rewrite Hg, Hn, Hk.
Qed.

(** X1.  [dispose] releases what the tracker scheduled.  For a tracker whose
    timers are the ones it holds (as they are in every reachable world),
    after [dispose] no timeout is pending, no interval is live, both handle
    fields are cleared, the tracker is paused and its status bar item is
    gone; from then on the passing of time runs no callback. *)
Theorem dispose_releases_everything (w : World) :
  timersOwned w → intervalLive w →
  timeouts (dispose w) = [] ∧
  intervals (dispose w) = [] ∧
  inactivityTimer (tracker (dispose w)) = None ∧
  updateInterval (tracker (dispose w)) = None ∧
  isTracking (tracker (dispose w)) = false ∧
  shown (statusBarItem (tracker (dispose w))) = false ∧
  (∀ dt, elapse dt (dispose w) = set_now (now w + dt) (dispose w)) ∧
  step IntervalTick (dispose w) = dispose w.
Proof.
  intros Ho Hl.
  destruct (dispose_result w) as (Hn & Ht & Hi & Hu & Hsh & _).
  destruct (dispose_interval w Hl) as (_ & Hiv & _).
  assert (Hto : timeouts (dispose w) = []).
  { pose proof (dispose_owned w Ho) as Hd.
    unfold timersOwned in Hd. rewrite Hi in Hd.
    destruct (timeouts (dispose w)) as [|p l]; [done|].
    by specialize (Hd p (list_elem_of_here _ _)). }
  repeat (split; [done|]). split.
  - intros dt. by rewrite (elapse_none dt _ Hto), Hn.
  - cbn [step]. by rewrite Hiv.
Qed.

(** Witness of [dispose_releases_everything]: the example tracker with a
    timeout armed. *)
Lemma dispose_releases_everything_witness :
  timersOwned (onActivity demo) ∧ intervalLive (onActivity demo) ∧
  timeouts (onActivity demo) = [(1%nat, 20000)] ∧
  timeouts (dispose (onActivity demo)) = [].
Proof.
  assert (Ho : timersOwned (onActivity demo)).
  { intros p Hp. vm_compute in Hp. apply list_elem_of_singleton in Hp as ->.
    vm_compute. reflexivity. }
  assert (Hl : intervalLive (onActivity demo)).
  { unfold intervalLive.
    assert (Ht : isTracking (tracker (onActivity demo)) = true) by (vm_compute; reflexivity).
    rewrite Ht. exists 0%nat. split; vm_compute; reflexivity. }
  split; [exact Ho|]. split; [exact Hl|]. split; [vm_compute; reflexivity|].
  apply (dispose_releases_everything _ Ho Hl).
Defined.

(** ** What adds session time *)

Section SessionAccrual.

Implicit Types w : World.

Lemma startTracking_now w : now (startTracking w) = now w.
Proof. world_cases w; done. Qed.

Lemma kept_by (f : World → World) (c : Qc) (n : Z) :
  (∀ w, currentTotalSessionTime (f w) = currentTotalSessionTime w ∧ now (f w) = now w) →
  ∀ w, currentTotalSessionTime w = c ∧ now w = n →
       currentTotalSessionTime (f w) = c ∧ now (f w) = n.
Proof. intros Hf w [<- <-]. apply Hf. Qed.

Lemma onActivity_session w :
  currentTotalSessionTime (onActivity w) = currentTotalSessionTime w ∧
  now (onActivity w) = now w.
Proof. world_cases w; done. Qed.

Lemma saveStats_session w :
  currentTotalSessionTime (saveStats w) = currentTotalSessionTime w ∧
  now (saveStats w) = now w.
Proof. save_cases w; done. Qed.

Lemma getStats_session w :
  currentTotalSessionTime (getStats w).2 = currentTotalSessionTime w ∧
  now (getStats w).2 = now w.
Proof. world_cases w; done. Qed.

Lemma updateStatusBar_session w :
  currentTotalSessionTime (updateStatusBar w) = currentTotalSessionTime w ∧
  now (updateStatusBar w) = now w.
Proof. world_cases w; done. Qed.

Lemma showInformationMessage_session msg w :
  currentTotalSessionTime (Host.showInformationMessage msg w)
  = currentTotalSessionTime w ∧
  now (Host.showInformationMessage msg w) = now w.
Proof. world_cases w; done. Qed.

Lemma disposeStatusBarItem_session w :
  currentTotalSessionTime (disposeStatusBarItem w) = currentTotalSessionTime w ∧
  now (disposeStatusBarItem w) = now w.
Proof. unfold disposeStatusBarItem. world_cases w; done. Qed.

Lemma clearInactivityTimer_session w :
  currentTotalSessionTime (clearInactivityTimer w) = currentTotalSessionTime w ∧
  now (clearInactivityTimer w) = now w.
Proof. world_cases w; done. Qed.

Lemma clearUpdateInterval_session w :
  currentTotalSessionTime (clearUpdateInterval w) = currentTotalSessionTime w ∧
  now (clearUpdateInterval w) = now w.
Proof. world_cases w; done. Qed.

Lemma startTracking_session_now w :
  currentTotalSessionTime (startTracking w) = currentTotalSessionTime w ∧
  now (startTracking w) = now w.
Proof. split; [apply startTracking_session | apply startTracking_now]. Qed.

Lemma stopTracking_session_now w :
  currentTotalSessionTime (stopTracking w) = currentTotalSessionTime w ∧
  now (stopTracking w) = now w.
Proof. split; [apply stopTracking_session | apply now_stopTracking]. Qed.

(** With no timeout due, time passing moves the clock and nothing else: the
    session time is the same expression, read at the later time. *)
Lemma elapse_tracking_free dt w :
  isTracking (tracker w) = true →
  elapse dt w = set_now (now w + dt) w →
  currentTotalSessionTime (elapse dt w)
  = (currentSessionTime (tracker w)
     + JS.num (now w + dt - startTime (tracker w)) / JS.num 1000)%Qc ∧
  isTracking (tracker (elapse dt w)) = true.
Proof. intros Ht ->. revert Ht. open_world w. exec. by intros ->. Qed.

End SessionAccrual.

(** X4.  An event that takes no time and is not a reset -- a call of
    [startTracking] or [stopTracking], redundant or not, activity, a save or
    a read, the statistics command, a repaint tick, disposal -- leaves the
    session time exactly as it was, and the clock too. *)
Theorem instant_events_keep_session_time (e : Event) (w : World) :
  instantEvent e →
  currentTotalSessionTime (step e w) = currentTotalSessionTime w ∧
  now (step e w) = now w.
Proof.
  intros He.
  set (P := λ w', currentTotalSessionTime w' = currentTotalSessionTime w ∧ now w' = now w).
  assert (H0 : P w) by done.
  assert (Hstart := kept_by startTracking _ _ startTracking_session_now : ∀ w', P w' → _).
  assert (Hstop := kept_by stopTracking _ _ stopTracking_session_now : ∀ w', P w' → _).
  assert (Hact := kept_by onActivity _ _ onActivity_session : ∀ w', P w' → _).
  assert (Hsave := kept_by saveStats _ _ saveStats_session : ∀ w', P w' → _).
  assert (Hget := kept_by (λ w, (getStats w).2) _ _ getStats_session : ∀ w', P w' → _).
  assert (Hupd := kept_by updateStatusBar _ _ updateStatusBar_session : ∀ w', P w' → _).
  assert (Hmsg : ∀ msg w', P w' → P (Host.showInformationMessage msg w')).
  { intros msg. apply kept_by, showInformationMessage_session. }
  assert (Hbar := kept_by disposeStatusBarItem _ _ disposeStatusBarItem_session
                  : ∀ w', P w' → _).
  assert (Hcit := kept_by clearInactivityTimer _ _ clearInactivityTimer_session
                  : ∀ w', P w' → _).
  assert (Hcui := kept_by clearUpdateInterval _ _ clearUpdateInterval_session
                  : ∀ w', P w' → _).
  destruct e; cbn [step instantEvent] in *; try done; try (by auto).
  - by apply (showStatistics_preserves P).
  - by apply (dispose_preserves P).
  - by apply (fireTextChange_preserves P).
  - by apply (fireSelectionChange_preserves P).
  - destruct (intervals w); auto.
Qed.

(** Witness of [instant_events_keep_session_time]: a redundant start five
    seconds into the example session. *)
Lemma instant_events_keep_session_time_witness :
  instantEvent Start ∧
  currentTotalSessionTime (step Start (elapse 5000 demo))
  = currentTotalSessionTime (elapse 5000 demo).
Proof.
  split; [exact I|]. apply (instant_events_keep_session_time Start). exact I.
Defined.

(** X5.  A paused tracker accrues nothing: however much time passes and
    whatever timeouts come due meanwhile, it stays paused and its session
    time and [currentSessionTime] stay what they were. *)
Theorem paused_never_accrues (dt : Z) (w : World) :
  isTracking (tracker w) = false →
  isTracking (tracker (elapse dt w)) = false ∧
  currentSessionTime (tracker (elapse dt w)) = currentSessionTime (tracker w) ∧
  currentTotalSessionTime (elapse dt w) = currentTotalSessionTime w.
Proof.
  intros Hp.
  set (P := λ w', isTracking (tracker w') = false ∧
                  currentSessionTime (tracker w') = currentSessionTime (tracker w)).
  assert (H : P (elapse dt w)).
  { unfold elapse. apply (fireTimers_preserves P); [| | |done]; unfold P; clear.
    - intros w' [H1 H2]. rewrite (stopTracking_paused w' H1). done.
    - intros t w'. by destruct w'.
    - intros h w'. by destruct w'. }
  destruct H as [H1 H2]. split; [done|]. split; [done|].
  unfold currentTotalSessionTime. by rewrite H1, Hp.
Qed.

(** Witness of [paused_never_accrues]: the example tracker, stopped at 3 s,
    an hour later. *)
Lemma paused_never_accrues_witness :
  isTracking (tracker (run [Elapse 3000; Stop] demo)) = false ∧
  currentTotalSessionTime (elapse 3600000 (run [Elapse 3000; Stop] demo))
  = currentTotalSessionTime (run [Elapse 3000; Stop] demo).
Proof.
  assert (H : isTracking (tracker (run [Elapse 3000; Stop] demo)) = false)
    by (vm_compute; reflexivity).
  split; [exact H|]. apply (paused_never_accrues 3600000 _ H).
Defined.

(** X6.  While tracking, passing time is credited up to the inactivity
    deadline and no further.  With no timeout pending, the session time [dt]
    ms later is [currentSessionTime + (now + dt - startTime) / 1000].  With
    a timeout pending for time [due], which the host runs at that time, it
    is [currentSessionTime + (min (now + dt) due - startTime) / 1000]: the
    run is counted to the deadline, where [stopTracking] folds it into
    [currentSessionTime], and the tracker is still tracking exactly when the
    deadline has not been reached. *)
Theorem idle_time_is_capped (dt : Z) (w : World) :
  isTracking (tracker w) = true → 0 ≤ dt →
  (timeouts w = [] →
   currentTotalSessionTime (elapse dt w)
   = (currentSessionTime (tracker w)
      + JS.num (now w + dt - startTime (tracker w)) / JS.num 1000)%Qc ∧
   isTracking (tracker (elapse dt w)) = true) ∧
  (∀ h due, timeouts w = [(h, due)] → now w ≤ due →
   currentTotalSessionTime (elapse dt w)
   = (currentSessionTime (tracker w)
      + JS.num ((now w + dt) `min` due - startTime (tracker w)) / JS.num 1000)%Qc ∧
   isTracking (tracker (elapse dt w)) = bool_decide (now w + dt < due)).
Proof.
  intros Ht Hdt. split.
  - intros Hto. apply elapse_tracking_free; [done|]. by apply elapse_none.
  - intros h due Hto Hdue. destruct (decide (now w + dt < due)) as [Hlt|Hge].
    + rewrite Z.min_l by lia. rewrite bool_decide_eq_true_2 by done.
      apply elapse_tracking_free; [done|]. by eapply elapse_not_due.
    + rewrite Z.min_r by lia. rewrite bool_decide_eq_false_2 by done.
      rewrite (elapse_due dt h due w Hto) by lia. rewrite Z.max_r by lia.
      destruct (fired_fields due (now w + dt) h w Ht) as (_ & Hp & Hc & _).
      split; [|done]. unfold currentTotalSessionTime. by rewrite Hp, Hc.
Qed.

(** Witness of [idle_time_is_capped]: activity at 0 s, then a minute away
    from the keyboard counts for twenty seconds. *)
Lemma idle_time_is_capped_witness :
  isTracking (tracker (onActivity demo)) = true ∧ 0 ≤ 60000 ∧
  timeouts (onActivity demo) = [(1%nat, 20000)] ∧
  currentTotalSessionTime (elapse 60000 (onActivity demo))
  = (currentSessionTime (tracker (onActivity demo))
     + JS.num ((now (onActivity demo) + 60000) `min` 20000
               - startTime (tracker (onActivity demo))) / JS.num 1000)%Qc.
Proof.
  assert (Ht : isTracking (tracker (onActivity demo)) = true) by (vm_compute; reflexivity).
  assert (Hto : timeouts (onActivity demo) = [(1%nat, 20000)]) by (vm_compute; reflexivity).
  split; [exact Ht|]. split; [lia|]. split; [exact Hto|].
  apply (proj2 (idle_time_is_capped 60000 _ Ht ltac:(lia)) 1%nat 20000 Hto).
  vm_compute. discriminate.
Defined.

(** ** The stored total follows the baseline *)

Section Books.

Implicit Types w : World.

Lemma sameBooks_refl w : sameBooks w w.
Proof. done. Qed.

Lemma sameBooks_trans w1 w2 w3 : sameBooks w1 w2 → sameBooks w2 w3 → sameBooks w1 w3.
Proof. intros (?&?&?&?) (?&?&?&?). repeat split; congruence. Qed.

Lemma sameBooks_persisted w w' : sameBooks w w' → persisted w' = persisted w.
Proof.
  intros (_ & Hg & Hf & _). unfold persisted. rewrite !getStats_fst.
  unfold getWorkspaceKey. by rewrite Hg, Hf.
Qed.

Lemma startTracking_books w : sameBooks w (startTracking w).
Proof. unfold sameBooks. world_cases w; done. Qed.

Lemma stopTracking_books w : sameBooks w (stopTracking w).
Proof. unfold sameBooks. world_cases w; done. Qed.

Lemma onActivity_books w : sameBooks w (onActivity w).
Proof. unfold sameBooks. world_cases w; done. Qed.

Lemma updateStatusBar_books w : sameBooks w (updateStatusBar w).
Proof. unfold sameBooks. world_cases w; done. Qed.

Lemma showInformationMessage_books msg w : sameBooks w (Host.showInformationMessage msg w).
Proof. unfold sameBooks. world_cases w; done. Qed.

Lemma disposeStatusBarItem_books w : sameBooks w (disposeStatusBarItem w).
Proof. unfold sameBooks, disposeStatusBarItem. world_cases w; done. Qed.

Lemma clearInactivityTimer_books w : sameBooks w (clearInactivityTimer w).
Proof. unfold sameBooks. world_cases w; done. Qed.

Lemma clearUpdateInterval_books w : sameBooks w (clearUpdateInterval w).
Proof. unfold sameBooks. world_cases w; done. Qed.

Lemma set_now_books t w : sameBooks w (set_now t w).
Proof. unfold sameBooks. by destruct w. Qed.

Lemma clearTimeout_books h w : sameBooks w (Host.clearTimeout h w).
Proof. unfold sameBooks. by destruct w. Qed.

Lemma clearUpdateInterval_advances w : advances w (clearUpdateInterval w).
Proof. apply advances_same; world_cases w; intros; by (done || right). Qed.

Lemma clearInactivityTimer_advances w : advances w (clearInactivityTimer w).
Proof. apply advances_same; world_cases w; intros; by (done || right). Qed.

Lemma disposeStatusBarItem_advances w : advances w (disposeStatusBarItem w).
Proof.
  unfold disposeStatusBarItem.
  apply advances_same; world_cases w; intros; by (done || right).
Qed.

(** The events that neither save nor read nor reset leave the books alone. *)
Lemma step_books e w : leavesBooks e → sameBooks w (step e w).
Proof.
  intros He.
  assert (Hk : ∀ f : World → World, (∀ w', sameBooks w' (f w')) →
               ∀ w', sameBooks w w' → sameBooks w (f w')).
  { intros f Hf w' H. eapply sameBooks_trans; [exact H | apply Hf]. }
  destruct e; cbn [step]; try done.
  - apply startTracking_books.
  - apply stopTracking_books.
  - apply onActivity_books.
  - apply (fireTextChange_preserves (sameBooks w));
      auto using startTracking_books, onActivity_books, sameBooks_refl.
  - apply (fireSelectionChange_preserves (sameBooks w));
      auto using startTracking_books, onActivity_books, sameBooks_refl.
  - destruct (intervals w); [apply sameBooks_refl | apply updateStatusBar_books].
  - unfold elapse. apply (fireTimers_preserves (sameBooks w));
      auto using stopTracking_books, set_now_books, clearTimeout_books, sameBooks_refl.
Qed.

Lemma run_books es w : Forall leavesBooks es → sameBooks w (run es w).
Proof.
  intros Hes. revert w. induction Hes as [|e es He _ IH]; intros w.
  - apply sameBooks_refl.
  - rewrite run_cons. eapply sameBooks_trans; [by apply step_books | apply IH].
Qed.

(** With the baseline in use, a save adds the session time minus the
    baseline, and moves the baseline to the session time. *)
Lemma saveStats_books w :
  baselineSet w →
  baselineSet (saveStats w) ∧
  WorkspaceStats.totalTime (persisted (saveStats w))
  = (WorkspaceStats.totalTime (persisted w)
     + (currentTotalSessionTime w - lastSaveTime (tracker w)))%Qc ∧
  lastSaveTime (tracker (saveStats w)) = currentTotalSessionTime w.
Proof.
  intros (Hw & Hok & Hpos & Hle).
  assert (Hne : lastSaveTime (tracker w) ≠ 0%Qc).
  { intros H0. apply Qclt_not_eq in Hpos. congruence. }
  assert (Hd : savedDelta w
               = (currentTotalSessionTime w - lastSaveTime (tracker w))%Qc).
  { unfold savedDelta. by rewrite getStats_snd, decide_False. }
  destruct (saveStats_baseline w) as (Hb & He).
  destruct (saveStats_fields w) as (_ & _ & _ & _ & _ & Hw').
  split; [|split; [|done]].
  - split; [by rewrite Hw'|]. split; [by apply saveStats_advances|].
    rewrite Hb, He. split; [by eapply Qclt_le_trans | apply Qcle_refl].
  - by rewrite persisted_saveStats, (reachesStore_writable w Hw), Hd.
Qed.

Lemma getStats_baselineSet w : baselineSet w → (getStats w).2 = w.
Proof.
  intros (_ & _ & Hpos & _). rewrite getStats_snd, decide_False; [done|].
  intros H0. apply Qclt_not_eq in Hpos. congruence.
Qed.

(** Steps that leave the books alone keep [baselineSet] when the session
    time does not go down. *)
Lemma baselineSet_books w w' :
  sameBooks w w' → advances w w' → baselineSet w → baselineSet w'.
Proof.
  intros Hb Ha (Hw & Hok & Hpos & Hle).
  destruct Hb as (Hw' & _ & _ & Hl).
  destruct (Ha Hok) as (Hok' & _ & HE). unfold baselineSet. rewrite Hl, Hw'.
  split; [done|]. split; [done|]. split; [done|]. by eapply Qcle_trans.
Qed.

Lemma step_baselineSet e w : keepsTime e → baselineSet w → baselineSet (step e w).
Proof.
  intros He H.
  assert (Htail : ∀ w1 w2, sameBooks w1 w2 → advances w1 w2 →
            baselineSet w1 → baselineSet w2).
  { intros w1 w2 Hb Ha H1. by apply (baselineSet_books w1 w2). }
  destruct e; try (apply (baselineSet_books w);
                   [by apply step_books | by apply step_advances | done]).
  - by apply saveStats_books.
  - cbn [step]. by rewrite getStats_baselineSet.
  - cbn [step]. destruct (showStatistics_unfold w) as [msg ->].
    destruct (saveStats_books w H) as [H1 _].
    rewrite (getStats_baselineSet _ H1).
    apply (Htail (saveStats w));
      [apply showInformationMessage_books | apply showInformationMessage_advances | done].
  - cbn [step]. rewrite dispose_unfold.
    apply (Htail (clearInactivityTimer (disposeStatusBarItem (stopTracking (saveStats w)))));
      [apply clearUpdateInterval_books | apply clearUpdateInterval_advances |].
    apply (Htail (disposeStatusBarItem (stopTracking (saveStats w))));
      [apply clearInactivityTimer_books | apply clearInactivityTimer_advances |].
    apply (Htail (stopTracking (saveStats w)));
      [apply disposeStatusBarItem_books | apply disposeStatusBarItem_advances |].
    apply (Htail (saveStats w));
      [apply stopTracking_books | apply stopTracking_advances |].
    by apply saveStats_books.
Qed.

Lemma run_baselineSet es w :
  Forall keepsTime es → baselineSet w → baselineSet (run es w).
Proof.
  intros Hes. revert w. induction Hes as [|e es He _ IH]; intros w H; [done|].
  rewrite run_cons. by apply IH, step_baselineSet.
Qed.

End Books.

(** X7.  Once the baseline is in use (the store takes writes and the
    in-memory [lastSaveTime] is positive and not ahead of the session time)
    it stays in use along any run without a reset and with a clock that does
    not go back, however saves, reads, pauses, activity and timeouts
    interleave.  So at every point of such a run [getStats] leaves the
    baseline alone, and a save adds to the stored total the session time
    minus the baseline, an amount that is not negative, and moves the
    baseline to the session time.  Between saves, the events that neither
    save nor read leave the stored record and the baseline as they were. *)
Theorem stored_total_follows_baseline (es : list Event) (w : World) :
  baselineSet w → Forall keepsTime es →
  let w' := run es w in
  baselineSet w' ∧
  (getStats w').2 = w' ∧
  WorkspaceStats.totalTime (persisted (saveStats w'))
  = (WorkspaceStats.totalTime (persisted w')
     + (currentTotalSessionTime w' - lastSaveTime (tracker w')))%Qc ∧
  (lastSaveTime (tracker w') ≤ currentTotalSessionTime w')%Qc ∧
  lastSaveTime (tracker (saveStats w')) = currentTotalSessionTime w' ∧
  (Forall leavesBooks es →
   persisted w' = persisted w ∧
   lastSaveTime (tracker w') = lastSaveTime (tracker w)).
Proof.
  intros H Hes. cbv zeta.
  pose proof (run_baselineSet es w Hes H) as H'.
  destruct (saveStats_books _ H') as (_ & Ht & Hl).
  split; [done|]. split; [by apply getStats_baselineSet|].
  split; [done|]. split; [apply H'|]. split; [done|].
  intros Hq. pose proof (run_books es w Hq) as Hb.
  split; [by apply sameBooks_persisted | apply Hb].
Qed.

(** Witness of [stored_total_follows_baseline]: the example tracker after
    its first save at 10 s, through a pause, activity, idle time and a second
    save. *)
Lemma stored_total_follows_baseline_witness :
  baselineSet (run [Elapse 10000; Save] demo) ∧
  Forall keepsTime [Elapse 2000; Stop; Elapse 9000; SelectionChanged; Elapse 4000; Save;
                    Elapse 60000] ∧
  WorkspaceStats.totalTime
    (persisted (saveStats
       (run [Elapse 2000; Stop; Elapse 9000; SelectionChanged; Elapse 4000; Save;
             Elapse 60000] (run [Elapse 10000; Save] demo))))
  = (WorkspaceStats.totalTime
       (persisted
          (run [Elapse 2000; Stop; Elapse 9000; SelectionChanged; Elapse 4000; Save;
                Elapse 60000] (run [Elapse 10000; Save] demo)))
     + (currentTotalSessionTime
          (run [Elapse 2000; Stop; Elapse 9000; SelectionChanged; Elapse 4000; Save;
                Elapse 60000] (run [Elapse 10000; Save] demo))
        - lastSaveTime
            (tracker
               (run [Elapse 2000; Stop; Elapse 9000; SelectionChanged; Elapse 4000; Save;
                     Elapse 60000] (run [Elapse 10000; Save] demo)))))%Qc.
Proof.
  assert (H : baselineSet (run [Elapse 10000; Save] demo)).
  { split; [vm_compute; reflexivity|]. split; [intros _; vm_compute; discriminate|].
    split; vm_compute; first [reflexivity | discriminate]. }
  assert (Hes : Forall keepsTime [Elapse 2000; Stop; Elapse 9000; SelectionChanged;
                                  Elapse 4000; Save; Elapse 60000]).
  { repeat constructor; cbn [keepsTime]; lia. }
  split; [exact H|]. split; [exact Hes|].
  pose proof (stored_total_follows_baseline _ _ H Hes) as Hx.
  cbv zeta in Hx. destruct Hx as (_ & _ & Hx & _). exact Hx.
Defined.

(** ** Only the workspace's own record is written *)

Section OwnRecord.

Implicit Types w : World.

Lemma saveStats_other_key w k :
  k ≠ getWorkspaceKey w →
  workspaceFolders (saveStats w) = workspaceFolders w ∧
  globalState (saveStats w) !! k = globalState w !! k.
Proof.
  intros Hk. split; [apply saveStats_frame|].
  rewrite saveStats_store. destruct (reachesStore w); [|done].
  by rewrite lookup_insert_ne.
Qed.

Lemma resetStats_other_key w k :
  k ≠ getWorkspaceKey w →
  workspaceFolders (resetStats w) = workspaceFolders w ∧
  globalState (resetStats w) !! k = globalState w !! k.
Proof.
  unfold getWorkspaceKey. open_world w. exec. intros Hk.
  destruct wr; [|done]. by rewrite lookup_insert_ne.
Qed.

Lemma getStats_store w :
  workspaceFolders (getStats w).2 = workspaceFolders w ∧
  globalState (getStats w).2 = globalState w.
Proof. world_cases w; done. Qed.

End OwnRecord.

(** X8.  The records of other workspaces are never touched: whatever events
    a tracker goes through (saves, resets, the statistics command, disposal
    included), the store holds at every key other than the tracker's own
    what it held before, and the tracker's own key stays the same. *)
Theorem only_own_record_written (es : list Event) (w : World) (k : string) :
  k ≠ getWorkspaceKey w →
  globalState (run es w) !! k = globalState w !! k ∧
  getWorkspaceKey (run es w) = getWorkspaceKey w.
Proof.
  intros Hk.
  set (P := λ w', workspaceFolders w' = workspaceFolders w ∧
                  globalState w' !! k = globalState w !! k).
  assert (Hb : ∀ f : World → World, (∀ w', sameBooks w' (f w')) →
               ∀ w', P w' → P (f w')).
  { intros f Hf w' [H1 H2]. destruct (Hf w') as (_ & Hg & Hfo & _).
    split; [by rewrite Hfo | by rewrite Hg]. }
  assert (Hkey : ∀ w', P w' → k ≠ getWorkspaceKey w').
  { intros w' [H1 _]. unfold getWorkspaceKey in *. by rewrite H1. }
  assert (H : P (run es w)).
  { apply (run_preserves P); [..|done].
    - apply Hb, startTracking_books.
    - apply Hb, stopTracking_books.
    - apply Hb, onActivity_books.
    - intros w' Hw'. destruct (saveStats_other_key w' k (Hkey _ Hw')) as [H1 H2].
      destruct Hw' as [H3 H4]. split; congruence.
    - intros w' [H1 H2]. destruct (getStats_store w') as [H3 H4].
      split; [by rewrite H3 | by rewrite H4].
    - intros w' Hw'. destruct (resetStats_other_key w' k (Hkey _ Hw')) as [H1 H2].
      destruct Hw' as [H3 H4]. split; congruence.
    - apply Hb, updateStatusBar_books.
    - intros msg. apply Hb. intros w'. apply showInformationMessage_books.
    - apply Hb, disposeStatusBarItem_books.
    - apply Hb, clearInactivityTimer_books.
    - apply Hb, clearUpdateInterval_books.
    - intros t. apply Hb. intros w'. apply set_now_books.
    - intros h. apply Hb. intros w'. apply clearTimeout_books. }
  destruct H as [H1 H2]. split; [done|]. unfold getWorkspaceKey. by rewrite H1.
Qed.

(** Witness of [only_own_record_written]: a store with a record for another
    folder; the tracker of the example folder saves, resets and is disposed
    of. *)
Lemma only_own_record_written_witness :
  let store : gmap string WorkspaceStats.t :=
    <["stats_file:///other" := WorkspaceStats.mk (JS.num 100) 1]> ∅ in
  let w := new_TimeTracker (freshHost 0 store true (Some ["file:///home/u/proj"])) in
  "stats_file:///other" ≠ getWorkspaceKey w ∧
  globalState (run [Elapse 5000; Save; Reset; Elapse 1000; ShowStatistics; Dispose] w)
    !! "stats_file:///other"
  = globalState w !! "stats_file:///other".
Proof.
  cbv zeta.
  assert (H : "stats_file:///other" ≠ getWorkspaceKey
    (new_TimeTracker (freshHost 0
       (<["stats_file:///other" := WorkspaceStats.mk (JS.num 100) 1]> ∅) true
       (Some ["file:///home/u/proj"])))) by (vm_compute; discriminate).
  split; [exact H|]. apply (only_own_record_written _ _ _ H).
Defined.

(** ** The status bar *)

Section StatusBar.

Implicit Types w : World.

Lemma startTracking_fresh w : statusBarFresh w → statusBarFresh (startTracking w).
Proof. unfold statusBarFresh. world_cases w; done. Qed.

Lemma stopTracking_fresh w : statusBarFresh w → statusBarFresh (stopTracking w).
Proof. unfold statusBarFresh. world_cases w; done. Qed.

Lemma onActivity_fresh w : statusBarFresh w → statusBarFresh (onActivity w).
Proof. unfold statusBarFresh. world_cases w; done. Qed.

Lemma saveStats_fresh w : statusBarFresh w → statusBarFresh (saveStats w).
Proof. unfold statusBarFresh. save_cases w; done. Qed.

Lemma getStats_fresh w : statusBarFresh w → statusBarFresh (getStats w).2.
Proof. unfold statusBarFresh. world_cases w; done. Qed.

Lemma resetStats_fresh w : statusBarFresh w → statusBarFresh (resetStats w).
Proof. unfold statusBarFresh. world_cases w; done. Qed.

Lemma updateStatusBar_fresh w : statusBarFresh w → statusBarFresh (updateStatusBar w).
Proof. unfold statusBarFresh. world_cases w; done. Qed.

Lemma showInformationMessage_fresh msg w :
  statusBarFresh w → statusBarFresh (Host.showInformationMessage msg w).
Proof. unfold statusBarFresh. world_cases w; done. Qed.

Lemma disposeStatusBarItem_fresh w : statusBarFresh w → statusBarFresh (disposeStatusBarItem w).
Proof. unfold statusBarFresh, disposeStatusBarItem. world_cases w; done. Qed.

Lemma clearInactivityTimer_fresh w : statusBarFresh w → statusBarFresh (clearInactivityTimer w).
Proof. unfold statusBarFresh. world_cases w; done. Qed.

Lemma clearUpdateInterval_fresh w : statusBarFresh w → statusBarFresh (clearUpdateInterval w).
Proof. unfold statusBarFresh. world_cases w; done. Qed.

Lemma set_now_fresh t w : statusBarFresh w → statusBarFresh (set_now t w).
Proof. unfold statusBarFresh. world_cases w; done. Qed.

Lemma clearTimeout_fresh h w : statusBarFresh w → statusBarFresh (Host.clearTimeout h w).
Proof. unfold statusBarFresh. world_cases w; done. Qed.

Lemma new_TimeTracker_fresh_bar w : statusBarFresh (new_TimeTracker w).
Proof. unfold statusBarFresh. world_cases w; done. Qed.

End StatusBar.

(** X9.  While the tracker is paused its status bar is never stale: in every
    world a constructed tracker can reach, if it is paused the status bar
    text is the clock icon followed by [formatTime] of the session time.
    (Every way into the paused state, and every change of the session time
    while paused, ends with [updateStatusBar].) *)
Theorem paused_status_bar_is_current (host : World) (es : list Event) :
  isTracking (tracker (run es (new_TimeTracker host))) = false →
  text (statusBarItem (tracker (run es (new_TimeTracker host))))
  = "⏱️ " +:+ formatTime (currentSessionTime (tracker (run es (new_TimeTracker host)))).
Proof.
  intros Hp.
  assert (H : statusBarFresh (run es (new_TimeTracker host))).
  { apply (run_preserves statusBarFresh);
      auto using startTracking_fresh, stopTracking_fresh, onActivity_fresh,
        saveStats_fresh, getStats_fresh, resetStats_fresh, updateStatusBar_fresh,
        showInformationMessage_fresh, disposeStatusBarItem_fresh,
        clearInactivityTimer_fresh, clearUpdateInterval_fresh, set_now_fresh,
        clearTimeout_fresh, new_TimeTracker_fresh_bar. }
  rewrite (H Hp). unfold currentTotalSessionTime. by rewrite Hp.
Qed.

(** Witness of [paused_status_bar_is_current]: the example tracker paused by
    the inactivity timeout, then reset. *)
Lemma paused_status_bar_is_current_witness :
  isTracking (tracker (run [SelectionChanged; Elapse 30000; Reset; Elapse 5000]
                         (new_TimeTracker demoHost))) = false ∧
  text (statusBarItem (tracker (run [SelectionChanged; Elapse 30000; Reset; Elapse 5000]
                                  (new_TimeTracker demoHost))))
  = "⏱️ " +:+ formatTime (currentSessionTime (tracker
      (run [SelectionChanged; Elapse 30000; Reset; Elapse 5000] (new_TimeTracker demoHost)))).
Proof.
  assert (H : isTracking (tracker (run [SelectionChanged; Elapse 30000; Reset; Elapse 5000]
                (new_TimeTracker demoHost))) = false) by (vm_compute; reflexivity).
  split; [exact H|]. apply (paused_status_bar_is_current _ _ H).
Defined.

(** ** The statistics command *)

Section Statistics.

Implicit Types w : World.

(** After a save, reading the statistics changes nothing. *)
Lemma getStats_after_save w : (getStats (saveStats w)).2 = saveStats w.
Proof.
  rewrite getStats_snd. case_decide; [|done].
  apply self_set_lastSaveTime_id.
  destruct (saveStats_baseline w) as (-> & ->). done.
Qed.

End Statistics.

(** X10.  [showStatistics] is a save followed by one notification: the
    world it returns is the one [saveStats] returns with the message
    appended, the read between the two having no effect.  The message
    reports the total as stored after that save, the session time of the
    moment and the tracking state. *)
Theorem showStatistics_is_save_then_notify (w : World) :
  showStatistics w
  = Host.showInformationMessage
      (statisticsMessage
         (WorkspaceStats.totalTime (persisted (saveStats w)))
         (currentTotalSessionTime w)
         (isTracking (tracker w)))
      (saveStats w) ∧
  notifications (showStatistics w)
  = notifications w ++
      [statisticsMessage
         (WorkspaceStats.totalTime (persisted (saveStats w)))
         (currentTotalSessionTime w)
         (isTracking (tracker w))] ∧
  showStatisticsCommand w = showStatistics w.
Proof.
  assert (H : showStatistics w
    = Host.showInformationMessage
        (statisticsMessage
           (WorkspaceStats.totalTime (persisted (saveStats w)))
           (currentTotalSessionTime w)
           (isTracking (tracker w)))
        (saveStats w)).
  { unfold showStatistics, statisticsMessage, persisted.
    pose proof (getStats_after_save w) as H2.
    destruct (getStats (saveStats w)) as [st w'] eqn:E. cbn [fst snd] in *. subst w'.
    destruct (saveStats_baseline w) as (_ & ->).
    destruct (saveStats_fields w) as (_ & -> & _). done. }
  split; [exact H|]. split; [|done].
  rewrite H. destruct (saveStats_frame w) as (_ & _ & Hn & _).
  unfold Host.showInformationMessage. cbn [notifications set_notifications].
  by rewrite Hn.
Qed.

(** ** Activity while paused *)

Section Resume.

Implicit Types w : World.

Lemma startTracking_paused_fields w :
  isTracking (tracker w) = false →
  isTracking (tracker (startTracking w)) = true ∧
  startTime (tracker (startTracking w)) = now w ∧
  now (startTracking w) = now w ∧
  currentSessionTime (tracker (startTracking w)) = currentSessionTime (tracker w) ∧
  timeouts (startTracking w) = timeouts w ∧
  inactivityTimer (tracker (startTracking w)) = inactivityTimer (tracker w).
Proof. open_world w. exec. by intros ->. Qed.

(** A tracker that has just been resumed by activity at time [n] with
    [currentSessionTime] at [c]. *)
Lemma resumed_kept (n : Z) (c : Qc) w :
  (isTracking (tracker w) = true ∧ startTime (tracker w) = n ∧ now w = n ∧
   currentSessionTime (tracker w) = c ∧ timersOwned w) →
  let w' := selectionChangeListener w in
  (isTracking (tracker w') = true ∧ startTime (tracker w') = n ∧ now w' = n ∧
   currentSessionTime (tracker w') = c ∧ timersOwned w') ∧
  ∃ h, timeouts w' = [(h, n + inactivityTimeout)] ∧
       inactivityTimer (tracker w') = Some h.
Proof.
  intros (Ht & Hs & Hn & Hc & Ho). cbv zeta.
  rewrite (selectionChangeListener_tracking w Ht).
  destruct (onActivity_fields w) as (-> & -> & -> & -> & _).
  destruct (onActivity_arms w Ho) as (-> & ->). rewrite Hn.
  split; [|eauto]. repeat (split; [done|]). by apply onActivity_owned.
Qed.

Lemma resumed_first w :
  isTracking (tracker w) = false → timersOwned w →
  let w' := selectionChangeListener w in
  (isTracking (tracker w') = true ∧ startTime (tracker w') = now w ∧ now w' = now w ∧
   currentSessionTime (tracker w') = currentSessionTime (tracker w) ∧ timersOwned w') ∧
  ∃ h, timeouts w' = [(h, now w + inactivityTimeout)] ∧
       inactivityTimer (tracker w') = Some h.
Proof.
  intros Hp Ho. cbv zeta. unfold selectionChangeListener.
  destruct (onActivity_fields w) as (Hn & Ht & _ & Hc & _).
  destruct (onActivity_arms w Ho) as (Hto & Hi).
  rewrite Ht, Hp. cbn [negb].
  destruct (startTracking_paused_fields (onActivity w)) as (-> & -> & -> & -> & -> & ->);
    [by rewrite Ht|].
  rewrite Hn, Hc, Hto, Hi. split; [|eauto]. repeat (split; [done|]).
  by apply startTracking_owned, onActivity_owned.
Qed.

Lemma resumed_iter k w :
  isTracking (tracker w) = false → timersOwned w →
  let w' := Nat.iter (S k) selectionChangeListener w in
  (isTracking (tracker w') = true ∧ startTime (tracker w') = now w ∧ now w' = now w ∧
   currentSessionTime (tracker w') = currentSessionTime (tracker w) ∧ timersOwned w') ∧
  ∃ h, timeouts w' = [(h, now w + inactivityTimeout)] ∧
       inactivityTimer (tracker w') = Some h.
Proof.
  intros Hp Ho. induction k as [|k IH].
  - by apply resumed_first.
  - cbv zeta in *. rewrite Nat.iter_succ. destruct IH as [IH _].
    by apply resumed_kept.
Qed.

Lemma textChangeListener_S n w : textChangeListener (S n) w = selectionChangeListener w.
Proof. unfold textChangeListener. by rewrite decide_True by lia. Qed.

Lemma iter_ext {A} (f g : A → A) k (x : A) :
  (∀ a, f a = g a) → Nat.iter k f x = Nat.iter k g x.
Proof. intros H. induction k as [|k IH]; [done|]. by rewrite !Nat.iter_succ, IH, H. Qed.

Lemma fireTextChange_0 w : fireTextChange 0 w = w.
Proof.
  rewrite fireTextChange_iter. generalize (textListeners w). intros k.
  induction k as [|k IH]; [done|]. by rewrite Nat.iter_succ, IH.
Qed.

End Resume.

(** X11.  Activity resumes a paused tracker.  When a selection change, or a
    text change with at least one content change, reaches a paused tracker
    that has a listener registered, the tracker is tracking afterwards with
    a run that starts now, one inactivity timeout is pending, due a full
    window from now, and the session time is what it was.  A text change
    event without content changes does nothing at all. *)
Theorem activity_resumes_tracking (w : World) :
  isTracking (tracker w) = false → timersOwned w →
  ((0 < selectionListeners w)%nat →
     let w' := fireSelectionChange w in
     isTracking (tracker w') = true ∧ startTime (tracker w') = now w ∧ now w' = now w ∧
     currentTotalSessionTime w' = currentTotalSessionTime w ∧
     ∃ h, timeouts w' = [(h, now w + inactivityTimeout)] ∧
          inactivityTimer (tracker w') = Some h) ∧
  (∀ n, (0 < textListeners w)%nat →
     let w' := fireTextChange (S n) w in
     isTracking (tracker w') = true ∧ startTime (tracker w') = now w ∧ now w' = now w ∧
     currentTotalSessionTime w' = currentTotalSessionTime w ∧
     ∃ h, timeouts w' = [(h, now w + inactivityTimeout)] ∧
          inactivityTimer (tracker w') = Some h) ∧
  fireTextChange 0 w = w.
Proof.
  intros Hp Ho.
  assert (Hgen : ∀ k, let w' := Nat.iter (S k) selectionChangeListener w in
     isTracking (tracker w') = true ∧ startTime (tracker w') = now w ∧ now w' = now w ∧
     currentTotalSessionTime w' = currentTotalSessionTime w ∧
     ∃ h, timeouts w' = [(h, now w + inactivityTimeout)] ∧
          inactivityTimer (tracker w') = Some h).
  { intros k. destruct (resumed_iter k w Hp Ho) as ((Ht & Hs & Hn & Hc & _) & Hto).
    cbv zeta. repeat (split; [done|]). split; [|done].
    unfold currentTotalSessionTime. rewrite Ht, Hp, Hs, Hn, Hc, Z.sub_diag, ms_to_s_0.
    ring. }
  split; [|split].
  - intros Hk. cbv zeta. rewrite fireSelectionChange_iter.
    destruct (selectionListeners w) as [|k]; [lia|]. apply Hgen.
  - intros n Hk. cbv zeta. rewrite fireTextChange_iter.
    destruct (textListeners w) as [|k]; [lia|].
    rewrite (iter_ext _ selectionChangeListener) by apply textChangeListener_S.
    apply Hgen.
  - apply fireTextChange_0.
Qed.

(** Witness of [activity_resumes_tracking]: the example tracker, stopped at
    3 s, sees a selection change at 8 s. *)
Lemma activity_resumes_tracking_witness :
  isTracking (tracker (run [Elapse 3000; Stop; Elapse 5000] demo)) = false ∧
  timersOwned (run [Elapse 3000; Stop; Elapse 5000] demo) ∧
  (0 < selectionListeners (run [Elapse 3000; Stop; Elapse 5000] demo))%nat ∧
  startTime (tracker (fireSelectionChange (run [Elapse 3000; Stop; Elapse 5000] demo)))
  = now (run [Elapse 3000; Stop; Elapse 5000] demo).
Proof.
  assert (Hp : isTracking (tracker (run [Elapse 3000; Stop; Elapse 5000] demo)) = false)
    by (vm_compute; reflexivity).
  assert (Ho : timersOwned (run [Elapse 3000; Stop; Elapse 5000] demo)).
  { intros p Hp'. vm_compute in Hp'. inversion Hp'. }
  assert (Hk : (0 < selectionListeners (run [Elapse 3000; Stop; Elapse 5000] demo))%nat).
  { vm_compute. lia. }
  split; [exact Hp|]. split; [exact Ho|]. split; [exact Hk|].
  destruct (proj1 (activity_resumes_tracking _ Hp Ho) Hk) as (_ & Hs & _).
  exact Hs.
Defined.

(** ** The width of the display *)

Section Width.

Lemma string_length_app (a b : string) :
  String.length (a +:+ b) = (String.length a + String.length b)%nat.
Proof.
  induction a as [|x a IH]; [done|].
  change (S (String.length (a +:+ b)) = S (String.length a + String.length b)).
  by rewrite IH.
Qed.

Lemma fields_length (a b c : string) :
  String.length (a +:+ ":" +:+ b +:+ ":" +:+ c)
  = (String.length a + String.length b + String.length c + 2)%nat.
Proof. rewrite !string_length_app. cbn [String.length]. lia. Qed.

(** Hours below one hundred take exactly two characters. *)
Lemma two_digit_hours (h : Z) :
  0 ≤ h < 100 → String.length (JS.padStart 2 "0"%char (JS.toString h)) = 2%nat.
Proof.
  intros Hh.
  assert (Hall : forallb (λ m, String.length (JS.padStart 2 "0"%char (JS.toString m))
                               =? 2)%nat (seqZ 0 100) = true)
    by (vm_compute; reflexivity).
  rewrite forallb_forall in Hall.
  apply Nat.eqb_eq, Hall, list_elem_of_In, elem_of_seqZ. lia.
Qed.

End Width.

(** X12.  The display is at least eight characters wide for every duration
    [seconds >= 0], and exactly eight (two digits per field) for durations
    under one hundred hours. *)
Theorem formatTime_width (seconds : Qc) :
  (0 ≤ seconds)%Qc →
  (8 ≤ String.length (formatTime seconds))%nat ∧
  ((seconds < JS.num 360000)%Qc → String.length (formatTime seconds) = 8%nat).
Proof.
  intros H. rewrite (formatTime_eq seconds H).
  assert (Hs : 0 ≤ JS.Math_floor seconds) by by apply floor_nonneg.
  rewrite fields_length.
  rewrite (two_digits ((JS.Math_floor seconds `mod` 3600) / 60)),
    (two_digits (JS.Math_floor seconds `mod` 60)) by (Z.div_mod_to_equations; lia).
  split.
  - rewrite padStart_length. lia.
  - intros Hlt. apply floor_lt in Hlt.
    rewrite two_digit_hours by (Z.div_mod_to_equations; lia). lia.
Qed.

(** Witness of [formatTime_width]: 99 hours, 59 minutes and 59.9 seconds. *)
Lemma formatTime_width_witness :
  (0 ≤ Q2Qc (3599999 # 10))%Qc ∧ (Q2Qc (3599999 # 10) < JS.num 360000)%Qc ∧
  String.length (formatTime (Q2Qc (3599999 # 10))) = 8%nat.
Proof.
  assert (H : (0 ≤ Q2Qc (3599999 # 10))%Qc) by (vm_compute; discriminate).
  assert (Hlt : (Q2Qc (3599999 # 10) < JS.num 360000)%Qc) by (vm_compute; reflexivity).
  split; [exact H|]. split; [exact Hlt|].
  apply (proj2 (formatTime_width _ H) Hlt).
Defined.

(** ** The storage key *)

(** X13.  The storage key depends on the first workspace folder only, and
    falls back to the shared bucket ["stats_global"] exactly when there is no
    first folder or its URI string is empty -- or is itself ["global"]; any
    other first folder gets ["stats_"] followed by its URI. *)
Theorem workspace_key_cases (w : World) :
  (getWorkspaceKey w = "stats_global" ↔
   workspaceFolders w = None ∨ workspaceFolders w = Some [] ∨
   ∃ rest, workspaceFolders w = Some ("" :: rest) ∨
           workspaceFolders w = Some ("global" :: rest)) ∧
  (∀ uri rest, workspaceFolders w = Some (uri :: rest) → uri ≠ "" →
     getWorkspaceKey w = "stats_" +:+ uri) ∧
  (∀ uri rest rest', workspaceFolders w = Some (uri :: rest) →
     getWorkspaceKey (set_workspaceFolders (Some (uri :: rest')) w) = getWorkspaceKey w).
Proof.
  unfold getWorkspaceKey, workspaceIdentity. split; [|split].
  - destruct (workspaceFolders w) as [[|uri rest]|]; split; try (by auto).
    + intros H. apply workspaceKey_inj in H. right. right. exists rest.
      case_decide; [left | right]; congruence.
    + intros [?|[?|[rest' [H|H]]]]; try done; simplify_eq; by case_decide.
  - intros uri rest -> Hne. by rewrite decide_False.
  - intros uri rest rest' ->. done.
Qed.

(** Witness of [workspace_key_cases]: two folders open, and none. *)
Lemma workspace_key_cases_witness :
  getWorkspaceKey (freshHost 0 ∅ true (Some ["file:///a"; "file:///b"]))
  = "stats_file:///a" ∧
  getWorkspaceKey (freshHost 0 ∅ true (Some [])) = "stats_global".
Proof.
  split.
  - apply (proj1 (proj2 (workspace_key_cases _)) "file:///a" ["file:///b"]);
      [reflexivity | discriminate].
  - apply (proj1 (workspace_key_cases _)). right. left. reflexivity.
Defined.

(** ** Resetting, again *)

Section ResetAgain.

Implicit Types w : World.

(** With nothing due, time passing moves the clock and nothing else. *)
Lemma elapse_nothing_due dt w :
  (∀ p, p ∈ timeouts w → now w + dt < p.2) →
  elapse dt w = set_now (now w + dt) w.
Proof.
  intros H. unfold elapse. destruct (length (timeouts w)); [done|].
  cbn [fireTimers]. pose proof (earliest_spec (timeouts w)) as He.
  destruct (earliest (timeouts w)) as [[h due]|]; [|done].
  destruct He as [Hin _]. specialize (H _ Hin). cbn [snd] in H.
  by rewrite (proj2 (Z.leb_gt _ _)).
Qed.

Lemma resetStats_fields w :
  now (resetStats w) = now w ∧
  isTracking (tracker (resetStats w)) = isTracking (tracker w) ∧
  startTime (tracker (resetStats w)) = now w ∧
  currentSessionTime (tracker (resetStats w)) = 0%Qc ∧
  lastSaveTime (tracker (resetStats w)) = 0%Qc ∧
  timeouts (resetStats w) = timeouts w ∧
  intervals (resetStats w) = intervals w ∧
  inactivityTimer (tracker (resetStats w)) = inactivityTimer (tracker w) ∧
  updateInterval (tracker (resetStats w)) = updateInterval (tracker w) ∧
  subscriptions (resetStats w) = subscriptions w ∧
  notifications (resetStats w) = notifications w ∧
  storeWritable (resetStats w) = storeWritable w ∧
  workspaceFolders (resetStats w) = workspaceFolders w.
Proof. world_cases w; done. Qed.

Lemma resetStats_persisted w :
  storeWritable w = true →
  persisted (resetStats w) = WorkspaceStats.mk 0%Qc (now w).
Proof.
  open_world w. exec. intros ->. by rewrite lookup_insert_eq.
Qed.

Lemma resetStats_session w : currentTotalSessionTime (resetStats w) = 0%Qc.
Proof. world_cases w; try done. all: rewrite Z.sub_diag, ms_to_s_0; ring. Qed.

End ResetAgain.

(** X14.  The reset command acts only on the answer ["Reset"]: when the
    warning is dismissed or resolves with anything else, the world is left
    untouched.  On ["Reset"] the session time is zero, the tracking state and
    the pending timeout are as before, one confirmation is shown, and in a
    store that takes the write the stored total is zero. *)
Theorem reset_command_needs_confirmation (selection : option string) (w : World) :
  (selection ≠ Some "Reset" → resetStatisticsCommand selection w = w) ∧
  (selection = Some "Reset" →
   let w' := resetStatisticsCommand selection w in
   currentTotalSessionTime w' = 0%Qc ∧
   isTracking (tracker w') = isTracking (tracker w) ∧
   timeouts w' = timeouts w ∧
   notifications w' = notifications w ++ ["Statistics reset successfully"] ∧
   (storeWritable w = true → WorkspaceStats.totalTime (persisted w') = 0%Qc)).
Proof.
  unfold resetStatisticsCommand. split; intros H.
  - by rewrite decide_False.
  - rewrite decide_True by done. cbv zeta.
    destruct (resetStats_fields w)
      as (_ & Ht & _ & _ & _ & Hto & _ & _ & _ & _ & Hn & _).
    destruct (showInformationMessage_session "Statistics reset successfully"
                (resetStats w)) as [He _].
    pose proof (showInformationMessage_books "Statistics reset successfully"
                  (resetStats w)) as Hb.
    assert (Hx : ∀ msg x,
      tracker (Host.showInformationMessage msg x) = tracker x ∧
      timeouts (Host.showInformationMessage msg x) = timeouts x ∧
      notifications (Host.showInformationMessage msg x) = notifications x ++ [msg])
      by (by intros msg []).
    destruct (Hx "Statistics reset successfully" (resetStats w)) as (-> & -> & ->).
    rewrite He, resetStats_session, (sameBooks_persisted _ _ Hb), Ht, Hto, Hn.
    repeat (split; [done|]). intros Hw. by rewrite resetStats_persisted.
Qed.

(** Witness of [reset_command_needs_confirmation]: the dialog dismissed, and
    the dialog answered. *)
Lemma reset_command_needs_confirmation_witness :
  resetStatisticsCommand None (elapse 5000 demo) = elapse 5000 demo ∧
  currentTotalSessionTime (resetStatisticsCommand (Some "Reset") (elapse 5000 demo)) = 0%Qc.
Proof.
  split.
  - apply (proj1 (reset_command_needs_confirmation None _)). discriminate.
  - destruct (proj2 (reset_command_needs_confirmation (Some "Reset") (elapse 5000 demo))
                eq_refl) as [H _].
    exact H.
Defined.

(** X15.  A reset restarts the accounting and leaves the scheduling alone:
    the pending timeout, the live interval and the listeners are what they
    were.  If the tracker is tracking and no timeout comes due, [dt] ms after
    the reset the session time is [dt / 1000]; and the first save after the
    reset, finding the baseline back at its zero sentinel, leaves the stored
    total at the zero the reset wrote. *)
Theorem reset_restarts_session (dt : Z) (w : World) :
  timeouts (resetStats w) = timeouts w ∧
  intervals (resetStats w) = intervals w ∧
  subscriptions (resetStats w) = subscriptions w ∧
  (isTracking (tracker w) = true →
   (∀ p, p ∈ timeouts w → now w + dt < p.2) →
   currentTotalSessionTime (elapse dt (resetStats w)) = (JS.num dt / JS.num 1000)%Qc ∧
   (storeWritable w = true →
    WorkspaceStats.totalTime (persisted (saveStats (elapse dt (resetStats w)))) = 0%Qc)).
Proof.
  destruct (resetStats_fields w)
    as (Hn & Ht & Hs & Hc & Hl & Hto & Hiv & _ & _ & Hsub & _ & Hw & _).
  split; [done|]. split; [done|]. split; [done|]. intros Htr Hdue.
  assert (He : elapse dt (resetStats w) = set_now (now w + dt) (resetStats w)).
  { rewrite elapse_nothing_due; [by rewrite Hn|]. by rewrite Hn, Hto. }
  rewrite He. split.
  - revert Hn Ht Hs Hc. rewrite Htr. generalize (now w) (resetStats w). clear.
    intros n x. open_world x. exec. intros -> -> -> ->.
    replace (n + dt - n) with dt by lia. ring.
  - intros Hwr. rewrite persisted_total_fresh.
    + by rewrite persisted_set_now, resetStats_persisted.
    + rewrite <- Hl. by destruct (resetStats w).
Qed.

(** Witness of [reset_restarts_session]: the example tracker reset at 50 s,
    seven seconds later. *)
Lemma reset_restarts_session_witness :
  isTracking (tracker (elapse 50000 demo)) = true ∧
  (∀ p, p ∈ timeouts (elapse 50000 demo) → now (elapse 50000 demo) + 7000 < p.2) ∧
  currentTotalSessionTime (elapse 7000 (resetStats (elapse 50000 demo)))
  = (JS.num 7000 / JS.num 1000)%Qc.
Proof.
  assert (Ht : isTracking (tracker (elapse 50000 demo)) = true) by (vm_compute; reflexivity).
  assert (Hd : ∀ p, p ∈ timeouts (elapse 50000 demo) →
                    now (elapse 50000 demo) + 7000 < p.2).
  { intros p Hp. vm_compute in Hp. inversion Hp. }
  split; [exact Ht|]. split; [exact Hd|].
  apply (proj2 (proj2 (proj2 (reset_restarts_session 7000 _))) Ht Hd).
Defined.

(** ** Reading the statistics *)

(** X16.  [getStats] returns the zero record when the workspace has no
    stored record, and touches nothing but the in-memory baseline: a non-zero
    baseline is left alone, a zero one is moved to the session time, so that
    after a read the baseline is zero only if the session time is zero.  A
    second read at the same moment returns the same record and the same
    world. *)
Theorem getStats_reads_once (w : World) :
  (globalState w !! getWorkspaceKey w = None → (getStats w).1 = WorkspaceStats.zero) ∧
  (∃ v, (getStats w).2 = self (set_lastSaveTime v) w) ∧
  (lastSaveTime (tracker w) ≠ 0%Qc → (getStats w).2 = w) ∧
  (lastSaveTime (tracker (getStats w).2) = 0%Qc → currentTotalSessionTime w = 0%Qc) ∧
  getStats (getStats w).2 = getStats w.
Proof.
  split; [|split; [|split; [|split]]].
  - intros H. by rewrite getStats_fst, H.
  - rewrite getStats_snd. case_decide; [by eexists|].
    exists (lastSaveTime (tracker w)). symmetry. by apply self_set_lastSaveTime_id.
  - intros H. by rewrite getStats_snd, decide_False.
  - rewrite getStats_snd. case_decide as H0; [|done].
    intros H. rewrite <- H. by destruct w.
  - rewrite (surjective_pairing (getStats (getStats w).2)),
      (surjective_pairing (getStats w)). cbn [fst snd]. f_equal.
    + rewrite !getStats_fst. destruct (getStats_store w) as [Hf Hg].
      unfold getWorkspaceKey. by rewrite Hf, Hg.
    + rewrite (getStats_snd (getStats w).2). case_decide as H0; [|done].
      apply self_set_lastSaveTime_id. rewrite H0, currentTotalSessionTime_getStats.
      revert H0. rewrite getStats_snd. case_decide as H1; [|done].
      intros H. rewrite <- H. by destruct w.
Qed.

(** Witness of [getStats_reads_once]: the example tracker, whose store is
    empty, five seconds into the session. *)
Lemma getStats_reads_once_witness :
  globalState (elapse 5000 demo) !! getWorkspaceKey (elapse 5000 demo) = None ∧
  (getStats (elapse 5000 demo)).1 = WorkspaceStats.zero.
Proof.
  assert (H : globalState (elapse 5000 demo) !! getWorkspaceKey (elapse 5000 demo) = None)
    by (vm_compute; reflexivity).
  split; [exact H|]. apply (proj1 (getStats_reads_once _) H).
Defined.

(** ** Activation *)

Section Activation.

Lemma formatTime_0 : formatTime 0%Qc = "00:00:00".
Proof. vm_compute. reflexivity. Qed.

End Activation.

(** X17.  Activation, in any host: the tracker is tracking at once from a
    session time of zero, with its status bar shown and reading 00:00:00;
    one status-bar interval is scheduled but no inactivity timeout; the two
    listeners, the two commands and the tracker itself are appended to
    [context.subscriptions] in that order; the store is not touched. *)
Theorem activate_starts_tracking (host : World) :
  let w := activate host in
  isTracking (tracker w) = true ∧
  startTime (tracker w) = now host ∧
  currentTotalSessionTime w = 0%Qc ∧
  lastSaveTime (tracker w) = 0%Qc ∧
  statusBarItem (tracker w) = {| text := "⏱️ 00:00:00"; shown := true |} ∧
  timeouts w = timeouts host ∧
  inactivityTimer (tracker w) = None ∧
  intervals w = intervals host ++ [nextHandle host] ∧
  updateInterval (tracker w) = Some (nextHandle host) ∧
  subscriptions w
  = subscriptions host ++
      [TextChangeSub; SelectionChangeSub;
       CommandSub "time-tracker.showStatistics";
       CommandSub "time-tracker.resetStatistics"; TrackerSub] ∧
  globalState w = globalState host ∧
  notifications w = notifications host.
Proof.
  cbv zeta. unfold activate. open_world host. exec.
  rewrite Z.sub_diag, ms_to_s_0.
  replace (Q2Qc 0 + Q2Qc 0)%Qc with 0%Qc by ring.
  rewrite formatTime_0, <- app_assoc. done.
Qed.

(** ** What reaches the store *)

Section Store.

Implicit Types w : World.

Lemma new_TimeTracker_books w :
  storeWritable (new_TimeTracker w) = storeWritable w ∧
  globalState (new_TimeTracker w) = globalState w ∧
  workspaceFolders (new_TimeTracker w) = workspaceFolders w ∧
  lastSaveTime (tracker (new_TimeTracker w)) = 0%Qc.
Proof. world_cases w; done. Qed.

Lemma persisted_eq w w' :
  globalState w' = globalState w → workspaceFolders w' = workspaceFolders w →
  persisted w' = persisted w.
Proof.
  intros Hg Hf. unfold persisted. rewrite !getStats_fst.
  unfold getWorkspaceKey. by rewrite Hg, Hf.
Qed.

Lemma persisted_dispose w : persisted (dispose w) = persisted (saveStats w).
Proof.
  destruct (dispose_result w) as (_ & _ & _ & _ & _ & _ & _ & _ & Hf & Hg).
  apply persisted_eq; [done|]. destruct (saveStats_frame w) as (Hf' & _). congruence.
Qed.

(** Under [baselineBehind] a save adds a delta that is not negative. *)
Lemma savedDelta_nonneg w : baselineBehind w → (0 ≤ savedDelta w)%Qc.
Proof.
  intros [_ H]. unfold savedDelta. rewrite getStats_snd. case_decide as H0.
  - cbn [tracker self lastSaveTime set_lastSaveTime].
    replace (currentTotalSessionTime w - _)%Qc with 0%Qc; [apply Qcle_refl|].
    destruct w as [? []]. cbn. ring.
  - destruct H as [H|H]; [done|]. by apply Qcle_minus_iff in H.
Qed.

Lemma saveStats_behind w :
  baselineBehind w →
  baselineBehind (saveStats w) ∧
  (WorkspaceStats.totalTime (persisted w)
   ≤ WorkspaceStats.totalTime (persisted (saveStats w)))%Qc.
Proof.
  intros H. pose proof (savedDelta_nonneg w H) as Hd. destruct H as [Hok H].
  destruct (saveStats_baseline w) as (Hb & He). split.
  - split; [by apply saveStats_advances|]. right. rewrite Hb, He. apply Qcle_refl.
  - rewrite persisted_saveStats. destruct (reachesStore w); [|apply Qcle_refl].
    rewrite <- (Qcplus_0_r (WorkspaceStats.totalTime (persisted w))) at 1.
    by apply Qcplus_le_l.
Qed.

Lemma getStats_behind w :
  baselineBehind w →
  baselineBehind (getStats w).2 ∧ persisted (getStats w).2 = persisted w.
Proof.
  intros [Hok H]. destruct (getStats_store w) as [Hf Hg].
  split; [|by apply persisted_eq]. split; [by apply getStats_advances|].
  rewrite currentTotalSessionTime_getStats, getStats_snd. case_decide as H0.
  - right. destruct w as [? []]. cbn. apply Qcle_refl.
  - done.
Qed.

(** A step that leaves the books alone and does not turn the session time
    back. *)
Lemma behind_books w w' :
  sameBooks w w' → advances w w' → baselineBehind w →
  baselineBehind w' ∧ persisted w' = persisted w.
Proof.
  intros Hb Ha [Hok H]. split; [|by apply sameBooks_persisted].
  destruct Hb as (_ & _ & _ & Hl). destruct (Ha Hok) as (Hok' & _ & HE).
  split; [done|]. rewrite Hl. destruct H as [H|H]; [by left | right].
  by eapply Qcle_trans.
Qed.

Lemma step_behind e w :
  keepsTime e → baselineBehind w →
  baselineBehind (step e w) ∧
  (WorkspaceStats.totalTime (persisted w)
   ≤ WorkspaceStats.totalTime (persisted (step e w)))%Qc.
Proof.
  intros He H.
  assert (Hfr : ∀ w1 w2, sameBooks w1 w2 → advances w1 w2 →
    baselineBehind w1 ∧
    (WorkspaceStats.totalTime (persisted w)
     ≤ WorkspaceStats.totalTime (persisted w1))%Qc →
    baselineBehind w2 ∧
    (WorkspaceStats.totalTime (persisted w)
     ≤ WorkspaceStats.totalTime (persisted w2))%Qc).
  { intros w1 w2 Hb Ha [H1 H2]. destruct (behind_books w1 w2 Hb Ha H1) as [H3 ->]. done. }
  destruct e;
    try (apply (Hfr w); [by apply step_books | by apply step_advances |];
         split; [done | apply Qcle_refl]).
  - by apply saveStats_behind.
  - cbn [step]. destruct (getStats_behind w H) as [H1 ->]. split; [done | apply Qcle_refl].
  - cbn [step]. destruct (showStatistics_unfold w) as [msg ->].
    destruct (saveStats_behind w H) as [H1 H2].
    destruct (getStats_behind _ H1) as [H3 H4].
    apply (Hfr (getStats (saveStats w)).2);
      [apply showInformationMessage_books | apply showInformationMessage_advances |].
    split; [done | by rewrite H4].
  - cbn [step]. rewrite dispose_unfold.
    apply (Hfr (clearInactivityTimer (disposeStatusBarItem (stopTracking (saveStats w)))));
      [apply clearUpdateInterval_books | apply clearUpdateInterval_advances |].
    apply (Hfr (disposeStatusBarItem (stopTracking (saveStats w))));
      [apply clearInactivityTimer_books | apply clearInactivityTimer_advances |].
    apply (Hfr (stopTracking (saveStats w)));
      [apply disposeStatusBarItem_books | apply disposeStatusBarItem_advances |].
    apply (Hfr (saveStats w));
      [apply stopTracking_books | apply stopTracking_advances |].
    by apply saveStats_behind.
Qed.

Lemma run_behind es w :
  Forall keepsTime es → baselineBehind w →
  baselineBehind (run es w) ∧
  (WorkspaceStats.totalTime (persisted w)
   ≤ WorkspaceStats.totalTime (persisted (run es w)))%Qc.
Proof.
  intros Hes. revert w. induction Hes as [|e es He _ IH]; intros w H.
  - split; [done | apply Qcle_refl].
  - rewrite run_cons. destruct (step_behind e w He H) as [H1 H2].
    destruct (IH _ H1) as [H3 H4]. split; [done | by eapply Qcle_trans].
Qed.

Lemma new_TimeTracker_behind w : baselineBehind (new_TimeTracker w).
Proof.
  split; [apply new_TimeTracker_clockOk|]. left. apply new_TimeTracker_books.
Qed.

Lemma new_TimeTracker_session w :
  currentTotalSessionTime (new_TimeTracker w) = 0%Qc ∧
  isTracking (tracker (new_TimeTracker w)) = true.
Proof. world_cases w; try done. all: rewrite Z.sub_diag, ms_to_s_0; split; [ring | done]. Qed.

Lemma resetStats_persisted_readonly w :
  storeWritable w = false → persisted (resetStats w) = persisted w.
Proof.
  intros Hw. apply persisted_eq; [|apply resetStats_fields].
  revert Hw. open_world w. exec. by intros ->.
Qed.

End Store.

(** X18.  A session in which nothing saves or reads the statistics before
    the end leaves no trace in the store: after any sequence of starts,
    stops, activity, ticks and time since the construction of the tracker,
    the in-memory baseline is still at its zero sentinel, so the save of
    [dispose] (like any first [saveStats]) finds a zero delta and the stored
    total is what it was at construction. *)
Theorem unsaved_session_adds_nothing (host : World) (es : list Event) :
  Forall leavesBooks es →
  let w := run es (new_TimeTracker host) in
  lastSaveTime (tracker w) = 0%Qc ∧
  WorkspaceStats.totalTime (persisted (saveStats w))
  = WorkspaceStats.totalTime (persisted host) ∧
  WorkspaceStats.totalTime (persisted (dispose w))
  = WorkspaceStats.totalTime (persisted host).
Proof.
  intros Hes. cbv zeta.
  destruct (run_books es (new_TimeTracker host) Hes) as (_ & Hg & Hf & Hl).
  destruct (new_TimeTracker_books host) as (_ & Hg0 & Hf0 & Hl0).
  assert (H0 : lastSaveTime (tracker (run es (new_TimeTracker host))) = 0%Qc)
    by congruence.
  assert (Hp : persisted (run es (new_TimeTracker host)) = persisted host).
  { apply persisted_eq; congruence. }
  split; [done|]. rewrite persisted_dispose, persisted_total_fresh, Hp by done. done.
Qed.

(** Witness of [unsaved_session_adds_nothing]: a store holding 100 s, and
    half a minute of editing that ends with the inactivity pause. *)
Lemma unsaved_session_adds_nothing_witness :
  let host := freshHost 0 (<["stats_file:///a" := WorkspaceStats.mk (JS.num 100) 1]> ∅)
                true (Some ["file:///a"]) in
  Forall leavesBooks [Elapse 4000; SelectionChanged; Elapse 6000; TextChanged 2;
                      Elapse 30000] ∧
  currentTotalSessionTime
    (run [Elapse 4000; SelectionChanged; Elapse 6000; TextChanged 2; Elapse 30000]
       (new_TimeTracker host)) = JS.num 30 ∧
  WorkspaceStats.totalTime
    (persisted (dispose
       (run [Elapse 4000; SelectionChanged; Elapse 6000; TextChanged 2; Elapse 30000]
          (new_TimeTracker host))))
  = WorkspaceStats.totalTime (persisted host).
Proof.
  cbv zeta.
  assert (Hes : Forall leavesBooks [Elapse 4000; SelectionChanged; Elapse 6000;
                                    TextChanged 2; Elapse 30000])
    by (repeat constructor).
  split; [exact Hes|]. split; [apply Qc_is_canon; vm_compute; reflexivity|].
  pose proof (unsaved_session_adds_nothing
    (freshHost 0 (<["stats_file:///a" := WorkspaceStats.mk (JS.num 100) 1]> ∅)
       true (Some ["file:///a"])) _ Hes) as H.
  cbv zeta in H. destruct H as (_ & _ & H). exact H.
Defined.

(** X19.  Without a reset the stored total never goes down: along any run of
    a constructed tracker with a clock that does not run backwards, the
    stored total of the workspace at a later point is at least what it was
    at an earlier point (every save adds a delta that is zero or
    positive). *)
Theorem stored_total_never_decreases (host : World) (es1 es2 : list Event) :
  Forall keepsTime (es1 ++ es2) →
  (WorkspaceStats.totalTime (persisted (run es1 (new_TimeTracker host)))
   ≤ WorkspaceStats.totalTime (persisted (run (es1 ++ es2) (new_TimeTracker host))))%Qc.
Proof.
  intros Hes. apply Forall_app in Hes as [H1 H2]. rewrite run_app.
  destruct (run_behind es1 _ H1 (new_TimeTracker_behind host)) as [Hb _].
  by apply run_behind.
Qed.

(** Witness of [stored_total_never_decreases]: the example tracker across
    three saves and a pause. *)
Lemma stored_total_never_decreases_witness :
  Forall keepsTime ([Elapse 3000; Save; Elapse 2000; Save] ++
                    [Stop; Elapse 7000; Start; Elapse 1000; Save]) ∧
  (WorkspaceStats.totalTime (persisted (run [Elapse 3000; Save; Elapse 2000; Save] demo))
   ≤ WorkspaceStats.totalTime
       (persisted (run ([Elapse 3000; Save; Elapse 2000; Save] ++
                        [Stop; Elapse 7000; Start; Elapse 1000; Save]) demo)))%Qc.
Proof.
  assert (H : Forall keepsTime ([Elapse 3000; Save; Elapse 2000; Save] ++
                                [Stop; Elapse 7000; Start; Elapse 1000; Save])).
  { cbn [app]. repeat constructor; cbn [keepsTime]; lia. }
  split; [exact H|]. apply (stored_total_never_decreases demoHost _ _ H).
Defined.

(** X20.  The durations the tracker hands to [formatTime] are never
    negative: in every world a constructed tracker reaches with a clock that
    does not run backwards (resets included), the session time is at least
    zero, and so is the stored total when the total found in the store at
    construction was. *)
Theorem shown_durations_nonnegative (host : World) (es : list Event) :
  Forall forwardInTime es →
  (0 ≤ WorkspaceStats.totalTime (persisted host))%Qc →
  let w := run es (new_TimeTracker host) in
  (0 ≤ currentTotalSessionTime w)%Qc ∧
  (0 ≤ WorkspaceStats.totalTime (persisted w))%Qc.
Proof.
  intros Hes Hhost. cbv zeta.
  set (Inv := λ w, baselineBehind w ∧ (0 ≤ currentTotalSessionTime w)%Qc ∧
                   (0 ≤ WorkspaceStats.totalTime (persisted w))%Qc).
  assert (H0 : Inv (new_TimeTracker host)).
  { split; [apply new_TimeTracker_behind|]. split.
    - destruct (new_TimeTracker_session host) as [-> _]. apply Qcle_refl.
    - destruct (new_TimeTracker_books host) as (_ & Hg & Hf & _).
      by rewrite (persisted_eq host (new_TimeTracker host)). }
  assert (H : Inv (run es (new_TimeTracker host))); [|apply H].
  revert H0. generalize (new_TimeTracker host).
  induction Hes as [|e es He _ IH]; intros w H; [done|].
  rewrite run_cons. apply IH. destruct H as (Hb & HE & HT).
  assert (Hcase : e = Reset ∨ keepsTime e) by (destruct e; first [by left | by right]).
  destruct Hcase as [->|Hk].
  - cbn [step]. split; [|split].
    + split; [apply resetStats_clockOk|]. left. apply resetStats_fields.
    + rewrite resetStats_session. apply Qcle_refl.
    + destruct (storeWritable w) eqn:Hw.
      * rewrite resetStats_persisted by done. apply Qcle_refl.
      * by rewrite resetStats_persisted_readonly.
  - destruct (step_behind e w Hk Hb) as [Hb' HT'].
    split; [done|]. split; [|exact (Qcle_trans _ _ _ HT HT')].
    destruct (step_advances e w Hk (proj1 Hb)) as (_ & _ & HE').
    exact (Qcle_trans _ _ _ HE HE').
Qed.

(** Witness of [shown_durations_nonnegative]: the example tracker through a
    save, a reset and a pause. *)
Lemma shown_durations_nonnegative_witness :
  Forall forwardInTime [Elapse 3000; Save; Reset; Elapse 2000; Stop; Save] ∧
  (0 ≤ WorkspaceStats.totalTime (persisted demoHost))%Qc ∧
  (0 ≤ currentTotalSessionTime
         (run [Elapse 3000; Save; Reset; Elapse 2000; Stop; Save] demo))%Qc ∧
  (0 ≤ WorkspaceStats.totalTime
         (persisted (run [Elapse 3000; Save; Reset; Elapse 2000; Stop; Save] demo)))%Qc.
Proof.
  assert (H1 : Forall forwardInTime [Elapse 3000; Save; Reset; Elapse 2000; Stop; Save]).
  { repeat constructor; cbn [forwardInTime]; lia. }
  assert (H2 : (0 ≤ WorkspaceStats.totalTime (persisted demoHost))%Qc).
  { vm_compute. discriminate. }
  split; [exact H1|]. split; [exact H2|].
  exact (shown_durations_nonnegative demoHost _ H1 H2).
Defined.

(** ** A failed write *)

Section FailedWrite.

Implicit Types w : World.

Lemma saveStats_tracker w :
  tracker (saveStats w) = set_lastSaveTime (currentTotalSessionTime w) (tracker w).
Proof. rewrite saveStats_shape. by destruct w. Qed.

Lemma set_storeWritable_session b w :
  currentTotalSessionTime (set_storeWritable b w) = currentTotalSessionTime w ∧
  lastSaveTime (tracker (set_storeWritable b w)) = lastSaveTime (tracker w).
Proof. by destruct w. Qed.

(** With a baseline other than the zero sentinel, the delta of a save is the
    session time minus that baseline. *)
Lemma savedDelta_set w :
  lastSaveTime (tracker w) ≠ 0%Qc →
  savedDelta w = (currentTotalSessionTime w - lastSaveTime (tracker w))%Qc.
Proof. intros H. unfold savedDelta. by rewrite getStats_snd, decide_False. Qed.

End FailedWrite.

(** C3, as the code has it.  When the store rejects the write, the host
    reports it for the [update], and [saveStats], which drops that result,
    changes the tracker all the same: the in-memory baseline moves to the
    current session time, and nothing else of the tracker changes.  So a
    save repeated at once finds a zero delta, and any later save counts from
    the session time of the failed one, not from the last save that reached
    the store.  What the failed save computed was assigned to the object
    that [globalState.get] returned: a store that hands out copies, or had
    no record for the workspace, holds what it held before; a store that
    hands out its own object holds the new record although the write
    failed. *)
Theorem failed_write_is_dropped (w : World) :
  storeWritable w = false →
  (∀ key v, (Host.globalState_update key v w).1 = Host.Rejected) ∧
  tracker (saveStats w) = set_lastSaveTime (currentTotalSessionTime w) (tracker w) ∧
  lastSaveTime (tracker (saveStats w)) = currentTotalSessionTime w ∧
  savedDelta (set_storeWritable true (saveStats w)) = 0%Qc ∧
  (currentTotalSessionTime w ≠ 0%Qc → ∀ es, Forall leavesBooks es →
   savedDelta (run es (set_storeWritable true (saveStats w)))
   = (currentTotalSessionTime (run es (set_storeWritable true (saveStats w)))
      - currentTotalSessionTime w)%Qc) ∧
  (storeLive w = false ∨ globalState w !! getWorkspaceKey w = None →
   globalState (saveStats w) = globalState w) ∧
  (storeLive w = true → is_Some (globalState w !! getWorkspaceKey w) →
   globalState (saveStats w)
   = <[getWorkspaceKey w := savedRecord w]> (globalState w)).
Proof.
  intros Hw.
  destruct (saveStats_baseline w) as (Hb & He).
  destruct (set_storeWritable_session true (saveStats w)) as (He' & Hb').
  split; [|split; [|split; [|split; [|split; [|split]]]]].
  - intros key v. unfold Host.globalState_update. by rewrite Hw.
  - apply saveStats_tracker.
  - exact Hb.
  - apply savedDelta_baseline. by rewrite He', Hb', Hb, He.
  - intros Hne es Hes.
    destruct (run_books es (set_storeWritable true (saveStats w)) Hes)
      as (_ & _ & _ & Hl).
    rewrite savedDelta_set; rewrite Hl, Hb', Hb; done.
  - intros Hc. apply saveStats_unreached. unfold reachesStore. rewrite Hw.
    destruct Hc as [-> | ->]; [done|]. cbn [orb].
    rewrite bool_decide_eq_false_2; [apply andb_false_r|]. by intros [? ?].
  - intros Hl Hs. rewrite saveStats_store. unfold reachesStore.
    by rewrite Hw, Hl, bool_decide_eq_true_2.
Qed.

(** Witness of [failed_write_is_dropped]: the example tracker at 10 s, with a
    store that rejects writes. *)
Lemma failed_write_is_dropped_witness :
  storeWritable (set_storeWritable false (run [Elapse 10000] demo)) = false ∧
  lastSaveTime (tracker (saveStats (set_storeWritable false (run [Elapse 10000] demo))))
  = currentTotalSessionTime (set_storeWritable false (run [Elapse 10000] demo)).
Proof.
  split; [reflexivity|].
  apply (failed_write_is_dropped (set_storeWritable false (run [Elapse 10000] demo))).
  reflexivity.
Defined.

(** C3, against the claim as stated: the tracker saved at 5 s; at 10 s, with
    5 s unsaved, the store rejects the write.  The baseline has moved from 5
    to 10 all the same, and the save that follows at 15 s, into a store that
    works again, adds 15 - 10 = 5 s, not the 10 s accrued since the last
    save that reached the store.  With a store that hands out copies the
    stored total is then 5: the 5 s of the failed save are lost.  With a
    store that hands out its own object the failed save has left them in the
    record it read, and the total is 10. *)
Lemma failed_write_moves_baseline :
  let wA := set_storeWritable false (run [Elapse 5000; Save; Elapse 5000] demo) in
  let wL := set_storeLive true wA in
  lastSaveTime (tracker wA) = JS.num 5 ∧
  currentTotalSessionTime wA = JS.num 10 ∧
  WorkspaceStats.totalTime (persisted wA) = 0%Qc ∧
  lastSaveTime (tracker (saveStats wA)) = JS.num 10 ∧
  lastSaveTime (tracker (saveStats wA)) ≠ lastSaveTime (tracker wA) ∧
  savedDelta (run [Elapse 5000] (set_storeWritable true (saveStats wA)))
  = (JS.num 15 - JS.num 10)%Qc ∧
  WorkspaceStats.totalTime (persisted (saveStats wA)) = 0%Qc ∧
  WorkspaceStats.totalTime
    (persisted (run [Elapse 5000; Save] (set_storeWritable true (saveStats wA))))
  = JS.num 5 ∧
  WorkspaceStats.totalTime
    (persisted (run [Elapse 5000; Save] (set_storeWritable true (saveStats wA))))
  ≠ JS.num 10 ∧
  lastSaveTime (tracker (saveStats wL)) = JS.num 10 ∧
  savedDelta (run [Elapse 5000] (set_storeWritable true (saveStats wL)))
  = (JS.num 15 - JS.num 10)%Qc ∧
  WorkspaceStats.totalTime (persisted (saveStats wL)) = JS.num 5 ∧
  WorkspaceStats.totalTime
    (persisted (run [Elapse 5000; Save] (set_storeWritable true (saveStats wL))))
  = JS.num 10.
Proof.
  cbv zeta.
  split; [apply Qc_is_canon; vm_compute; reflexivity|].
  split; [apply Qc_is_canon; vm_compute; reflexivity|].
  split; [apply Qc_is_canon; vm_compute; reflexivity|].
  split; [apply Qc_is_canon; vm_compute; reflexivity|].
  split; [intros H; apply (f_equal this) in H; vm_compute in H; discriminate H|].
  split; [apply Qc_is_canon; vm_compute; reflexivity|].
  split; [apply Qc_is_canon; vm_compute; reflexivity|].
  split; [apply Qc_is_canon; vm_compute; reflexivity|].
  split; [intros H; apply (f_equal this) in H; vm_compute in H; discriminate H|].
  split; [apply Qc_is_canon; vm_compute; reflexivity|].
  split; [apply Qc_is_canon; vm_compute; reflexivity|].
  split; [apply Qc_is_canon; vm_compute; reflexivity|].
  apply Qc_is_canon; vm_compute; reflexivity.
Qed.
